(** * tools/bisection-search/common.py: test environments for the bisection search

    A shallow embedding of [common.py] and the proofs of its contract.

    The module is effectful Python: it reads the process environment, creates
    directories and files, spawns child processes and appends to a log.  The
    embedding threads an explicit [World] through a state-and-exception monad
    [M]; what the operating system and the Python library decide on their own
    (what a child prints and when it exits, the outcome of an [adb] call, the
    random names of [tempfile], the tokens of [shlex.split]) is gathered in
    the class [OS], over which every definition and theorem is parametric.

    What the model leaves out.  A child process is its output, its
    duration and its exit status: it does not change files, so nothing
    here says what a command leaves on disk.  [Popen] starts its child and
    [shlex.split] gives tokens for every text.  The log is the content
    written through the file object, in the order of the writes.  Paths
    are taken as they are spelled. *)

From Stdlib Require Import ZArith NArith Ascii.
From stdpp Require Import base option list strings pretty gmap fin_maps.

Local Open Scope Z_scope.

(** ** Strings *)

Definition slash : ascii := "/"%char.

Fixpoint has_slash (s : string) : bool :=
  match s with
  | EmptyString => false
  | String c r => if decide (c = slash) then true else has_slash r
  end.

(** [sep.join(l)]. *)
Fixpoint join (sep : string) (l : list string) : string :=
  match l with
  | [] => ""
  | [x] => x
  | x :: r => x +:+ sep +:+ join sep r
  end.

(** [''.join(l)]. *)
Fixpoint concat_all (l : list string) : string :=
  match l with
  | [] => ""
  | x :: r => x +:+ concat_all r
  end.

Fixpoint ends_with_slash (s : string) : bool :=
  match s with
  | EmptyString => false
  | String c EmptyString => bool_decide (c = slash)
  | String _ r => ends_with_slash r
  end.

(** [s] without its last character. *)
Fixpoint drop_last (s : string) : string :=
  match s with
  | EmptyString => ""
  | String _ EmptyString => ""
  | String c r => String c (drop_last r)
  end.

(** [os.path.join(a, b)] for a relative [b]. *)
Definition os_path_join (a b : string) : string :=
  if bool_decide (a = "") then b
  else if ends_with_slash a then a +:+ b
  else a +:+ "/" +:+ b.

(** [os.path.basename(p)]: what follows the last slash. *)
Fixpoint basename (p : string) : string :=
  match p with
  | EmptyString => ""
  | String _ r => if has_slash p then basename r else p
  end.

(** Splits a path at its last slash: [p = d ++ "/" ++ n] with no slash in
    [n]; [None] for a path without a slash. *)
Fixpoint split_last (p : string) : option (string * string) :=
  match p with
  | EmptyString => None
  | String c r =>
      match split_last r with
      | Some (d, n) => Some (String c d, n)
      | None => if decide (c = slash) then Some ("", r) else None
      end
  end.

(** [s.split(sep)] for a separator of one character: the pieces between the
    separators, empty ones included; [acc] is the piece being read. *)
Fixpoint split_on (sep : ascii) (acc s : string) : list string :=
  match s with
  | EmptyString => [acc]
  | String c r =>
      if decide (c = sep) then acc :: split_on sep "" r
      else split_on sep (acc +:+ String c EmptyString) r
  end.

Definition str_split (sep : ascii) (s : string) : list string :=
  split_on sep "" s.

(** ** Python dictionaries

    A [dict] of strings, in insertion order: the order [items()] yields
    since Python 3.7 (an arbitrary one before, which no statement below
    depends on). *)

Definition pydict : Type := list (string * string).

Fixpoint dict_get (k : string) (d : pydict) : option string :=
  match d with
  | [] => None
  | (k', v) :: r => if decide (k' = k) then Some v else dict_get k r
  end.

(** [k in d]. *)
Definition dict_contains (k : string) (d : pydict) : bool :=
  bool_decide (is_Some (dict_get k d)).

(** [d[k] = v]: an existing key keeps its position, a new one goes last. *)
Fixpoint dict_set (k v : string) (d : pydict) : pydict :=
  match d with
  | [] => [(k, v)]
  | (k', v') :: r =>
      if decide (k' = k) then (k, v) :: r else (k', v') :: dict_set k v r
  end.

(** [d.update(u)]. *)
Definition dict_update (d u : pydict) : pydict :=
  fold_left (fun acc kv => dict_set kv.1 kv.2 acc) u d.

(** Truth value of a dictionary: [{}] is false. *)
Definition dict_truthy (d : pydict) : bool :=
  match d with [] => false | _ => true end.

(** ** Exceptions and results *)

Inductive exn : Type :=
  | FatalError (msg : string)
  | KeyError (key : string)
  | FileNotFoundError (path : string)
  | FileExistsError (path : string)
  | IsADirectoryError (path : string)
  | NotADirectoryError (path : string)
  | CalledProcessError (returncode : Z) (cmd : list string)
  | TimeoutExpired
  | Blocked.   (* a call that never returns: waiting, without a timeout,
                  for a child that never exits *)

Inductive result (A : Type) : Type :=
  | Ok (a : A)
  | Raise (e : exn).
Arguments Ok {A} a.
Arguments Raise {A} e.

Definition is_ok {A} (r : result A) : bool :=
  match r with Ok _ => true | Raise _ => false end.

(** ** The world *)

(** A directory entry: a regular file (with its inode number), or a
    directory. *)
Inductive node : Type :=
  | Reg (ino : nat)
  | Dir.

#[global] Instance node_eq_dec : EqDecision node.
Proof. solve_decision. Defined.

(** An open file object: its [name], and the inode it writes to. *)
Record file : Type := mkfile { f_name : string; f_ino : nat }.

Inductive event : Type :=
  | EvMkdir (path : string)
  | EvUnlink (path : string)
  | EvPopen (args : list string) (env : pydict)
  | EvKill (pid : nat)
  | EvCheckCall (args : list string).

(** What a child process does when left alone. *)
Record child : Type := mkchild {
  c_duration : option N;    (* seconds until it exits; [None]: it never does *)
  c_output   : N → string;  (* stdout and stderr, merged, written within [t] seconds *)
  c_exit     : Z            (* its exit status, if it exits by itself *)
}.

(** A [Popen] object. *)
Record proc : Type := mkproc {
  p_child      : child;
  p_elapsed    : N;          (* seconds spent waiting for it so far *)
  p_killed     : bool;       (* SIGKILL was sent *)
  p_returncode : option Z    (* [None] until the child has been reaped *)
}.

Record World : Type := mkWorld {
  w_environ : pydict;             (* os.environ *)
  w_fs      : gmap string node;   (* path -> directory entry *)
  w_data    : gmap nat string;    (* inode -> content *)
  w_heap    : gmap nat pydict;    (* the dict objects callers hold *)
  w_procs   : list proc;          (* the children started, by handle *)
  w_rng     : nat;                (* draws made by tempfile so far *)
  w_trace   : list event          (* system calls made, oldest first *)
}.

Definition set_fs (f : gmap string node → gmap string node) (w : World) : World :=
  mkWorld (w_environ w) (f (w_fs w)) (w_data w) (w_heap w) (w_procs w) (w_rng w) (w_trace w).
Definition set_data (f : gmap nat string → gmap nat string) (w : World) : World :=
  mkWorld (w_environ w) (w_fs w) (f (w_data w)) (w_heap w) (w_procs w) (w_rng w) (w_trace w).
Definition set_heap (f : gmap nat pydict → gmap nat pydict) (w : World) : World :=
  mkWorld (w_environ w) (w_fs w) (w_data w) (f (w_heap w)) (w_procs w) (w_rng w) (w_trace w).
Definition set_procs (f : list proc → list proc) (w : World) : World :=
  mkWorld (w_environ w) (w_fs w) (w_data w) (w_heap w) (f (w_procs w)) (w_rng w) (w_trace w).
Definition tick_rng (w : World) : World :=
  mkWorld (w_environ w) (w_fs w) (w_data w) (w_heap w) (w_procs w) (S (w_rng w)) (w_trace w).
Definition log_event (e : event) (w : World) : World :=
  mkWorld (w_environ w) (w_fs w) (w_data w) (w_heap w) (w_procs w) (w_rng w) (w_trace w ++ [e]).

(** What the embedding takes from outside the module. *)
Class OS : Type := mkOS {
  (* the child [Popen(args, env=env)] starts in a given world *)
  spawn : list string → pydict → World → child;
  (* output and exit status of a command run to completion ([adb ...]) *)
  run_tool : list string → World → string * Z;
  (* [shlex.split] *)
  shlex_split : string → list string;
  (* the [j]-th character index of the [i]-th random name of [tempfile] *)
  rng_choice : nat → nat → nat;
  (* [tempfile.gettempdir()] *)
  gettempdir : string;
  (* [tempfile.TMP_MAX], the number of names [tempfile] tries *)
  TMP_MAX : nat
}.

(** ** The monad *)

Definition M (A : Type) : Type := World → result A * World.

#[global] Instance M_ret : MRet M := λ A a w, (Ok a, w).
#[global] Instance M_bind : MBind M := λ A B f m w,
  match m w with
  | (Ok a, w') => f a w'
  | (Raise e, w') => (Raise e, w')
  end.

Definition raise {A} (e : exn) : M A := λ w, (Raise e, w).
Definition get_world : M World := λ w, (Ok w, w).
Definition modify (f : World → World) : M unit := λ w, (Ok tt, f w).

(** [try: m except: h]; [h e = None] lets [e] propagate. *)
Definition try_except {A} (m : M A) (h : exn → option (M A)) : M A := λ w,
  match m w with
  | (Ok a, w') => (Ok a, w')
  | (Raise e, w') =>
      match h e with
      | Some k => k w'
      | None => (Raise e, w')
      end
  end.

(** [try: m finally: c], the shape of a [with] block. *)
Definition finally_ {A} (m : M A) (c : M unit) : M A := λ w,
  match m w with
  | (r, w') =>
      match c w' with
      | (Ok _, w'') => (r, w'')
      | (Raise e, w'') => (Raise e, w'')
      end
  end.

(** [for x in l: body(x)]. *)
Fixpoint for_ {A} (l : list A) (body : A → M unit) : M unit :=
  match l with
  | [] => mret tt
  | x :: r => body x ≫= λ _, for_ r body
  end.

(** [for x in l: body(x)], with a local variable the body updates. *)
Fixpoint for_acc {A S} (l : list A) (s : S) (body : A → S → M S) : M S :=
  match l with
  | [] => mret s
  | x :: r => body x s ≫= λ s', for_acc r s' body
  end.

(** ** The operating system and the Python library *)

Section os.
Context `{OS}.

(** [os.environ.get(k)] and [os.environ.copy()]. *)
Definition os_environ_get (k : string) : M (option string) :=
  λ w, (Ok (dict_get k (w_environ w)), w).
Definition os_environ_copy : M pydict :=
  λ w, (Ok (w_environ w), w).

(** Why a path cannot be created: its parent is missing or is not a
    directory.  The root and the current directory always exist. *)
Definition check_parent (p : string) (fs : gmap string node) : option exn :=
  match split_last p with
  | None => None
  | Some (d, _) =>
      if bool_decide (d = "") then None
      else match fs !! d with
           | Some Dir => None
           | Some (Reg _) => Some (NotADirectoryError p)
           | None => Some (FileNotFoundError p)
           end
  end.

(** [os.mkdir(p)]. *)
Definition os_mkdir (p : string) : M unit := λ w,
  match check_parent p (w_fs w) with
  | Some e => (Raise e, w)
  | None =>
      match w_fs w !! p with
      | Some _ => (Raise (FileExistsError p), w)
      | None => (Ok tt, log_event (EvMkdir p) (set_fs <[p := Dir]> w))
      end
  end.

(** The name under which [p] is an entry of directory [d], if it is one. *)
Definition child_name (d p : string) : option string :=
  match split_last p with
  | Some (d', n) => if decide (d' = d) then Some n else None
  | None => None
  end.

Definition entries (d : string) (fs : gmap string node) : list string :=
  omap (λ kv, child_name d kv.1) (map_to_list fs).

(** [os.listdir(d)]. *)
Definition os_listdir (d : string) : M (list string) := λ w,
  match w_fs w !! d with
  | Some Dir => (Ok (entries d (w_fs w)), w)
  | Some (Reg _) => (Raise (NotADirectoryError d), w)
  | None => (Raise (FileNotFoundError d), w)
  end.

Definition is_reg (o : option node) : bool :=
  match o with Some (Reg _) => true | _ => false end.

(** [os.path.isfile(p)]. *)
Definition os_path_isfile (p : string) : M bool := λ w,
  (Ok (is_reg (w_fs w !! p)), w).

(** [os.unlink(p)]. *)
Definition os_unlink (p : string) : M unit := λ w,
  match w_fs w !! p with
  | Some (Reg _) => (Ok tt, log_event (EvUnlink p) (set_fs (delete p) w))
  | Some Dir => (Raise (IsADirectoryError p), w)
  | None => (Raise (FileNotFoundError p), w)
  end.

(** The content of the file at [p]. *)
Definition read_path (p : string) (w : World) : option string :=
  match w_fs w !! p with
  | Some (Reg i) => Some (default "" (w_data w !! i))
  | _ => None
  end.

Definition create_file (p : string) (w : World) : result file * World :=
  let i := fresh (dom (w_data w)) in
  (Ok (mkfile p i), set_data <[i := ""]> (set_fs <[p := Reg i]> w)).

(** The error of a path, reported for the path [p]. *)
Definition reported_for (p : string) (e : exn) : exn :=
  match e with
  | FileNotFoundError _ => FileNotFoundError p
  | NotADirectoryError _ => NotADirectoryError p
  | _ => e
  end.

(** Why a path cannot name a file to create: it is empty; or it ends in a
    slash, and so names a directory; or its parent is missing or is not a
    directory. *)
Definition check_open (p : string) (fs : gmap string node) : option exn :=
  if bool_decide (p = "") then Some (FileNotFoundError p)
  else if ends_with_slash p then
    Some (match check_parent (drop_last p) fs with
          | Some e => reported_for p e
          | None => IsADirectoryError p
          end)
  else check_parent p fs.

(** [open(p, 'w')] and [open(p, 'w+')]: the file is created, or truncated. *)
Definition open_w (p : string) : M file := λ w,
  match check_open p (w_fs w) with
  | Some e => (Raise e, w)
  | None =>
      match w_fs w !! p with
      | Some (Reg i) => (Ok (mkfile p i), set_data <[i := ""]> w)
      | Some Dir => (Raise (IsADirectoryError p), w)
      | None => create_file p w
      end
  end.

(** [os.open(p, O_CREAT | O_EXCL | ...)], as [tempfile] opens its files. *)
Definition open_excl (p : string) : M file := λ w,
  match check_parent p (w_fs w) with
  | Some e => (Raise e, w)
  | None =>
      match w_fs w !! p with
      | Some _ => (Raise (FileExistsError p), w)
      | None => create_file p w
      end
  end.

(** [f.write(s)]: the file object is the only writer, its position is the
    end of the file. *)
Definition file_write (f : file) (s : string) : M unit :=
  modify (set_data (λ d, <[f_ino f := default "" (d !! f_ino f) +:+ s]> d)).

(** [f.writelines(l)]. *)
Definition file_writelines (f : file) (l : list string) : M unit :=
  for_ l (file_write f).

(** *** tempfile *)

Definition characters : list ascii :=
  Strings.String.list_ascii_of_string "abcdefghijklmnopqrstuvwxyz0123456789_".

(** The [i]-th name of [_RandomNameSequence]: eight characters drawn from
    [characters]. *)
Definition random_name (i : nat) : string :=
  Strings.String.string_of_list_ascii
    (map (λ j, nth (rng_choice i j mod 37)%nat characters "_"%char) (seq 0 8)).

Definition next_name : M string := λ w,
  (Ok (random_name (w_rng w)), tick_rng w).

(** The loop of [mkdtemp] and [_mkstemp_inner]: draw names until one is
    free, at most [fuel] times. *)
Fixpoint try_names {A} (fuel : nat) (dir pre : string)
    (create : string → M A) : M A :=
  match fuel with
  | O => raise (FileExistsError dir)
  | S n =>
      name ← next_name;
      try_except (create (os_path_join dir (pre +:+ name)))
        (λ e, match e with
              | FileExistsError _ => Some (try_names n dir pre create)
              | _ => None
              end)
  end.

(** [mkdtemp(dir=dir, prefix=prefix)]. *)
Definition mkdtemp (dir prefix : string) : M string :=
  try_names TMP_MAX dir prefix (λ p, os_mkdir p ≫= λ _, mret p).

(** [NamedTemporaryFile(dir=dir)]; whether the file is deleted when closed
    is the caller's business. *)
Definition NamedTemporaryFile (dir : string) : M file :=
  try_names TMP_MAX dir "tmp" open_excl.

(** Closing a [NamedTemporaryFile] made with [delete=True]. *)
Definition close_delete (f : file) : M unit :=
  os_unlink (f_name f).

(** *** subprocess *)

Definition SIGKILL : Z := 9.

(** [Popen(args, stderr=STDOUT, stdout=PIPE, env=env)].  The child is
    taken to start; what [Popen] itself raises when there is no such
    program is not part of this model. *)
Definition Popen (args : list string) (env : pydict) : M nat := λ w,
  let p := mkproc (spawn args env w) 0 false None in
  (Ok (length (w_procs w)),
   log_event (EvPopen args env) (set_procs (λ l, l ++ [p]) w)).

(** Runs [k] on the [Popen] object behind a handle.  Handles are made by
    [Popen] only, so the other case is there for totality. *)
Definition with_proc {A} (pid : nat) (k : proc → M A) : M A := λ w,
  match w_procs w !! pid with
  | Some p => k p w
  | None => (Raise Blocked, w)
  end.

Definition put_proc (pid : nat) (p : proc) : M unit :=
  modify (set_procs <[pid := p]>).

(** [proc.communicate(timeout=t)]: the merged output, once the child is
    gone. *)
Definition communicate (pid : nat) (timeout : option N) : M string :=
  with_proc pid (λ p,
    let c := p_child p in
    match p_returncode p with
    | Some _ => mret (c_output c (p_elapsed p))
    | None =>
        if p_killed p then
          put_proc pid (mkproc c (p_elapsed p) true (Some (- SIGKILL))) ≫= λ _,
          mret (c_output c (p_elapsed p))
        else
          let exits d :=
            put_proc pid (mkproc c d false (Some (c_exit c))) ≫= λ _,
            mret (c_output c d) in
          match c_duration c, timeout with
          | Some d, None => exits d
          | Some d, Some t =>
              if (d <=? p_elapsed p + t)%N then exits d
              else
                put_proc pid (mkproc c (p_elapsed p + t) false None) ≫= λ _,
                raise TimeoutExpired
          | None, Some t =>
              put_proc pid (mkproc c (p_elapsed p + t) false None) ≫= λ _,
              raise TimeoutExpired
          | None, None => raise Blocked
          end
    end).

(** [proc.kill()]. *)
Definition kill (pid : nat) : M unit :=
  with_proc pid (λ p,
    modify (log_event (EvKill pid)) ≫= λ _,
    match p_returncode p with
    | Some _ => mret tt
    | None => put_proc pid (mkproc (p_child p) (p_elapsed p) true None)
    end).

(** [proc.returncode]. *)
Definition returncode (pid : nat) : M (option Z) :=
  with_proc pid (λ p, mret (p_returncode p)).

(** [check_call(args, stdout=logfile, stderr=logfile)]. *)
Definition check_call (args : list string) (logfile : file) : M unit := λ w,
  let '(out, code) := run_tool args w in
  let w' := log_event (EvCheckCall args) w in
  match file_write logfile out w' with
  | (_, w'') =>
      if decide (code = 0) then (Ok tt, w'')
      else (Raise (CalledProcessError code args), w'')
  end.

(** *** dict objects *)

(** [{}]: a new object. *)
Definition new_dict : M nat := λ w,
  let l := fresh (dom (w_heap w)) in
  (Ok l, set_heap <[l := []]> w).

Definition deref (l : nat) : M pydict := λ w,
  (Ok (default [] (w_heap w !! l)), w).

(** [d[k] = v] on the object at [l]. *)
Definition dict_setitem (l : nat) (k v : string) : M unit :=
  modify (set_heap (λ h, <[l := dict_set k v (default [] (h !! l))]> h)).

End os.

(** ** common.py *)

(** The double quote and the line feed, by their codes. *)
Definition dq : string := String "034"%char EmptyString.   (* double quote *)
Definition nl : string := String "010"%char EmptyString.   (* line feed *)

(** Temporary directory path on device. *)
Definition DEVICE_TMP_PATH : string := "/data/local/tmp".

(** Architectures supported in dalvik cache. *)
Definition DALVIK_CACHE_ARCHS : list string := ["arm"; "arm64"; "x86"; "x86_64"].

(** ['{}'.format(rc)] for a return code. *)
Definition format_returncode (rc : option Z) : string :=
  match rc with
  | Some z => pretty z
  | None => "None"
  end.

Section common.
Context `{OS}.

Definition GetEnvVariableOrError (variable_name : string) : M string :=
  top ← os_environ_get variable_name;
  match top with
  | None =>
      raise (FatalError (variable_name +:+ " environmental variable not set."))
  | Some top => mret top
  end.

Definition _DexArchCachePaths (android_data_path : string) : list string :=
  map (λ arch, android_data_path +:+ "/dalvik-cache/" +:+ arch)
      DALVIK_CACHE_ARCHS.

Definition _CommandListToCommandString (cmd : list string) : string :=
  join " " (map (λ segment, dq +:+ segment +:+ dq) cmd).

Definition _RunCommandForOutputAndLog (cmd : list string) (env : pydict)
    (logfile : file) (timeout : N) : M (string * option Z) :=
  proc ← Popen cmd env;
  r ← try_except
        (output ← communicate proc (Some timeout); mret (output, false))
        (λ e, match e with
              | TimeoutExpired =>
                  Some (kill proc;;
                        output ← communicate proc None;
                        mret (output, true))
              | _ => None
              end);
  let '(output, timeouted) := (r : string * bool) in
  rc ← returncode proc;
  let status : string :=
    if timeouted then "TIMEOUT" else format_returncode rc in
  file_write logfile
    ("Command:" +:+ nl +:+ _CommandListToCommandString cmd +:+ nl +:+
     output +:+ nl +:+ "Return code: " +:+ status +:+ nl);;
  let ret_code := if timeouted then Some 1 else rc in
  mret (output, ret_code).

(** [if not env_updates: env_updates = {}], on a reference that is [None]
    or a dict object. *)
Definition default_env_updates (env_updates : option nat) : M nat :=
  match env_updates with
  | None => new_dict
  | Some l =>
      d ← deref l;
      if dict_truthy d then mret l else new_dict
  end.

End common.

(** The interface of a test environment. *)
Module ITestEnv.
Class ops `{OS} (T : Type) : Type := {
  CreateFile : T → option string → M string;
  WriteLines : T → string → list string → M unit;
  RunCommand : T → list string → option nat → M (string * option Z);
  logfile : T → file
}.
End ITestEnv.

Module HostTestEnv.

Record t : Type := mk {
  _env_path : string;
  _logfile : file;
  _shell_env : pydict
}.

Section methods.
Context `{OS}.

Definition __init__ (x64 : bool) : M t :=
  _env_path ← mkdtemp "/tmp/" "bisection_search_";
  _logfile ← open_w (_env_path +:+ "/log");
  os_mkdir (_env_path +:+ "/dalvik-cache");;
  for_ (_DexArchCachePaths _env_path) os_mkdir;;
  let lib : string := if x64 then "lib64" else "lib" in
  android_root ← GetEnvVariableOrError "ANDROID_HOST_OUT";
  let library_path := android_root +:+ "/" +:+ lib in
  let path := android_root +:+ "/bin" in
  _shell_env ← os_environ_copy;
  let _shell_env := dict_set "ANDROID_DATA" _env_path _shell_env in
  let _shell_env := dict_set "ANDROID_ROOT" android_root _shell_env in
  let _shell_env := dict_set "LD_LIBRARY_PATH" library_path _shell_env in
  let _shell_env := dict_set "DYLD_LIBRARY_PATH" library_path _shell_env in
  match dict_get "PATH" _shell_env with
  | None => raise (KeyError "PATH")
  | Some old_path =>
      let _shell_env := dict_set "PATH" (path +:+ ":" +:+ old_path) _shell_env in
      (* Using dlopen requires load bias on the host. *)
      let _shell_env := dict_set "LD_USE_LOAD_BIAS" "1" _shell_env in
      mret (mk _env_path _logfile _shell_env)
  end.

Definition CreateFile (self : t) (name : option string) : M string :=
  match name with
  | None =>
      f ← NamedTemporaryFile (_env_path self);
      mret (f_name f)
  | Some name =>
      f ← open_w (_env_path self +:+ "/" +:+ name);
      mret (f_name f)
  end.

Definition WriteLines (self : t) (file_path : string) (lines : list string)
    : M unit :=
  f ← open_w file_path;
  file_writelines f (map (λ line, line +:+ nl) lines).

Definition _EmptyDexCache (self : t) : M unit :=
  for_ (_DexArchCachePaths (_env_path self)) (λ arch_cache_path,
    names ← os_listdir arch_cache_path;
    for_ names (λ file_path,
      let file_path := arch_cache_path +:+ "/" +:+ file_path in
      isfile ← os_path_isfile file_path;
      if (isfile : bool) then os_unlink file_path else mret tt)).

Definition RunCommand (self : t) (cmd : list string)
    (env_updates : option nat) : M (string * option Z) :=
  env_updates ← default_env_updates env_updates;
  _EmptyDexCache self;;
  let env := _shell_env self in
  updates ← deref env_updates;
  let env := dict_update env updates in
  _RunCommandForOutputAndLog cmd env (_logfile self) 60.

Definition logfile (self : t) : file := _logfile self.

#[global] Instance ITestEnv_ops : ITestEnv.ops t := {
  ITestEnv.CreateFile := CreateFile;
  ITestEnv.WriteLines := WriteLines;
  ITestEnv.RunCommand := RunCommand;
  ITestEnv.logfile := logfile
}.

End methods.
End HostTestEnv.

Module DeviceTestEnv.

Record t : Type := mk {
  _host_env_path : string;
  _logfile : file;
  _device_env_path : string;
  _shell_env : pydict
}.

Section methods.
Context `{OS}.

Definition _AdbPush (self : t) (what where_ : string) : M unit :=
  check_call
    (shlex_split ("adb push " +:+ dq +:+ what +:+ dq +:+ " " +:+
                  dq +:+ where_ +:+ dq))
    (_logfile self).

Definition _AdbMkdir (self : t) (path : string) : M unit :=
  check_call
    (shlex_split ("adb shell mkdir " +:+ dq +:+ path +:+ dq +:+ " -p"))
    (_logfile self).

Definition __init__ : M t :=
  _host_env_path ← mkdtemp "/tmp/" "bisection_search_";
  _logfile ← open_w (_host_env_path +:+ "/log");
  let _device_env_path :=
    DEVICE_TMP_PATH +:+ "/" +:+ basename _host_env_path in
  _shell_env ← os_environ_copy;
  let self := mk _host_env_path _logfile _device_env_path _shell_env in
  _AdbMkdir self (_device_env_path +:+ "/dalvik-cache");;
  for_ (_DexArchCachePaths _device_env_path) (_AdbMkdir self);;
  mret self.

Definition CreateFile (self : t) (name : option string) : M string :=
  temp_file ← NamedTemporaryFile gettempdir;
  finally_
    (_AdbPush self (f_name temp_file) (_device_env_path self);;
     let name :=
       match name with
       | None => basename (f_name temp_file)
       | Some name => name
       end in
     mret (_device_env_path self +:+ "/" +:+ name))
    (close_delete temp_file).

Definition WriteLines (self : t) (file_path : string) (lines : list string)
    : M unit :=
  temp_file ← NamedTemporaryFile gettempdir;
  finally_
    (file_writelines temp_file (map (λ line, line +:+ nl) lines);;
     _AdbPush self (f_name temp_file) file_path)
    (close_delete temp_file).

Definition _EmptyDexCache (self : t) : M unit :=
  for_ (_DexArchCachePaths (_device_env_path self)) (λ arch_cache_path,
    let cmd :=
      "adb shell if [ -d " +:+ dq +:+ arch_cache_path +:+ dq +:+
      " ]; then rm -f " +:+ dq +:+ arch_cache_path +:+ dq +:+ "/*; fi" in
    check_call (shlex_split cmd) (_logfile self)).

(** The remote-shell command line of [RunCommand]. *)
Definition adb_shell_command (env_updates_cmd cmd : string) : string :=
  "adb shell " +:+ dq +:+ "logcat -c && " +:+ env_updates_cmd +:+ " " +:+
  cmd +:+ " ; logcat -d -s dex2oat:* dex2oatd:*" +:+
  "| grep -v " +:+ dq +:+ "^---------" +:+ dq +:+ " 1>&2" +:+ dq.

Definition RunCommand (self : t) (cmd : list string)
    (env_updates : option nat) : M (string * option Z) :=
  env_updates ← default_env_updates env_updates;
  _EmptyDexCache self;;
  bound ← deref env_updates;
  (if dict_contains "ANDROID_DATA" bound then mret tt
   else dict_setitem env_updates "ANDROID_DATA" (_device_env_path self));;
  items ← deref env_updates;
  let env_updates_cmd :=
    join " " (map (λ kv, kv.1 +:+ "=" +:+ kv.2) items) in
  let cmd := _CommandListToCommandString cmd in
  let cmd := adb_shell_command env_updates_cmd cmd in
  _RunCommandForOutputAndLog
    (shlex_split cmd) (_shell_env self) (_logfile self) 60.

Definition logfile (self : t) : file := _logfile self.

Definition PushClasspath (self : t) (classpath : string) : M string :=
  let paths := str_split ":"%char classpath in
  device_paths ← for_acc paths [] (λ path device_paths,
    let device_paths :=
      device_paths ++ [_device_env_path self +:+ "/" +:+ basename path] in
    _AdbPush self path (_device_env_path self);;
    mret device_paths);
  mret (join ":" device_paths).

#[global] Instance ITestEnv_ops : ITestEnv.ops t := {
  ITestEnv.CreateFile := CreateFile;
  ITestEnv.WriteLines := WriteLines;
  ITestEnv.RunCommand := RunCommand;
  ITestEnv.logfile := logfile
}.

End methods.
End DeviceTestEnv.

(** ** Vocabulary of the statements *)

(** The child is still running when the timeout expires. *)
Definition exceeds (c : child) (timeout : N) : Prop :=
  match c_duration c with
  | Some d => (timeout < d)%N
  | None => True
  end.

(** The child exits by itself after [d] seconds, within the timeout. *)
Definition completes_within (c : child) (timeout d : N) : Prop :=
  c_duration c = Some d ∧ (d ≤ timeout)%N.

(** The content of the file behind an open file object. *)
Definition content (f : file) (w : World) : string :=
  default "" (w_data w !! f_ino f).

(** One block of the log. *)
Definition transcript (command_line output status : string) : string :=
  "Command:" +:+ nl +:+ command_line +:+ nl +:+ output +:+ nl +:+
  "Return code: " +:+ status +:+ nl.

(** The lines of a text, each ended by a line feed. *)
Fixpoint lines_of (acc : string) (s : string) : list string :=
  match s with
  | EmptyString => if bool_decide (acc = "") then [] else [acc]
  | String c r =>
      if decide (c = "010"%char) then acc :: lines_of "" r
      else lines_of (acc +:+ String c EmptyString) r
  end.

Fixpoint has_newline (s : string) : bool :=
  match s with
  | EmptyString => false
  | String c r => if decide (c = "010"%char) then true else has_newline r
  end.

Definition is_digit (c : ascii) : bool :=
  match Ascii.is_nat c with Some _ => true | None => false end.

Fixpoint all_digits (s : string) : bool :=
  match s with
  | EmptyString => true
  | String c r => is_digit c && all_digits r
  end.

(** A decimal numeral, with an optional minus sign. *)
Definition numeric (s : string) : bool :=
  match s with
  | EmptyString => false
  | String c r =>
      if decide (c = "-"%char)
      then bool_decide (r ≠ "") && all_digits r
      else is_digit c && all_digits r
  end.

(** The world after the files [removed] were unlinked, leaving [fs']. *)
Definition unlinked (removed : list string) (fs' : gmap string node)
    (w : World) : World :=
  mkWorld (w_environ w) fs' (w_data w) (w_heap w) (w_procs w) (w_rng w)
          (w_trace w ++ map EvUnlink removed).

(** [p] is an entry directly inside one of the directories [ds]. *)
Definition directly_in (ds : list string) (p : string) : Prop :=
  ∃ d n, d ∈ ds ∧ has_slash n = false ∧ p = d +:+ "/" +:+ n.

(** [fs'] is [fs] without the regular files directly inside [ds], which are
    the paths [removed]; everything else is as it was. *)
Definition cleared (ds : list string) (fs fs' : gmap string node)
    (removed : list string) : Prop :=
  (∀ p, is_reg (fs !! p) = true → directly_in ds p → fs' !! p = None) ∧
  (∀ p, ¬ (is_reg (fs !! p) = true ∧ directly_in ds p) →
        fs' !! p = fs !! p) ∧
  (∀ p, p ∈ removed ↔ is_reg (fs !! p) = true ∧ directly_in ds p).

(** The dictionary an [env_updates] argument stands for: [None] and [{}]
    alike are no overrides. *)
Definition overrides (env_updates : option nat) (w : World) : pydict :=
  match env_updates with
  | None => []
  | Some l => default [] (w_heap w !! l)
  end.

(** The world after [if not env_updates: env_updates = {}]. *)
Definition after_default (env_updates : option nat) (w : World) : World :=
  if dict_truthy (overrides env_updates w) then w
  else set_heap <[fresh (dom (w_heap w)) := []]> w.

(** A dictionary has each key once. *)
Definition dict_wf (d : pydict) : Prop := NoDup d.*1.

(** The bindings [HostTestEnv.__init__] lays over the inherited
    environment. *)
Definition host_bindings (x64 : bool)
    (env_path android_root old_path : string) : pydict :=
  let library_path := android_root +:+ "/" +:+ (if x64 then "lib64" else "lib") in
  [("ANDROID_DATA", env_path);
   ("ANDROID_ROOT", android_root);
   ("LD_LIBRARY_PATH", library_path);
   ("DYLD_LIBRARY_PATH", library_path);
   ("PATH", (android_root +:+ "/bin") +:+ ":" +:+ old_path);
   ("LD_USE_LOAD_BIAS", "1")].

(** Every entry of a file system sits in a directory. *)
Definition fs_wf (fs : gmap string node) : Prop :=
  ∀ p d n, is_Some (fs !! p) → split_last p = Some (d, n) →
           d = "" ∨ fs !! d = Some Dir.

(** [open(q, 'w')] goes through on [fs]: [q] names a file, in a directory
    that is there, and is not a directory itself. *)
Definition can_open (q : string) (fs : gmap string node) : Prop :=
  q ≠ "" ∧ ends_with_slash q = false ∧
  check_parent q fs = None ∧ fs !! q ≠ Some Dir.

(** The vocabulary that speaks of the operating system. *)

Section vocabulary.
Context `{OS}.

(** What a run that outlives its timeout leaves behind: the output so far
    and the code [1] for the caller, a child that was started with the
    argument vector and then killed, and one more block in the log. *)
Definition timeout_contract (cmd : list string) (env : pydict)
    (logfile : file) (timeout : N) (w : World)
    (out : result (string * option Z) * World) : Prop :=
  let c := spawn cmd env w in
  let pid := length (w_procs w) in
  out.1 = Ok (c_output c timeout, Some 1) ∧
  w_trace out.2 = w_trace w ++ [EvPopen cmd env; EvKill pid] ∧
  (∃ p, w_procs out.2 !! pid = Some p ∧ p_killed p = true ∧
        p_returncode p = Some (- SIGKILL)) ∧
  content logfile out.2 =
    content logfile w +:+
    "Command:" +:+ nl +:+ _CommandListToCommandString cmd +:+ nl +:+
    c_output c timeout +:+ nl +:+ "Return code: TIMEOUT" +:+ nl ∧
  last (lines_of "" (content logfile out.2)) = Some "Return code: TIMEOUT".

(** What a run that ends by itself leaves behind: the whole output and the
    exit code of the child for the caller, and one more block in the log. *)
Definition completion_contract (cmd : list string) (env : pydict)
    (logfile : file) (d : N) (w : World)
    (out : result (string * option Z) * World) : Prop :=
  let c := spawn cmd env w in
  out.1 = Ok (c_output c d, Some (c_exit c)) ∧
  w_trace out.2 = w_trace w ++ [EvPopen cmd env] ∧
  content logfile out.2 =
    content logfile w +:+
    "Command:" +:+ nl +:+ _CommandListToCommandString cmd +:+ nl +:+
    c_output c d +:+ nl +:+ "Return code: " +:+ pretty (c_exit c) +:+ nl.

(** The arch cache directories of a scratch directory are all there. *)
Definition cache_ready (env_path : string) (fs : gmap string node) : Prop :=
  ∀ d, d ∈ _DexArchCachePaths env_path → fs !! d = Some Dir.

(** The overrides [DeviceTestEnv.RunCommand] ends up with. *)
Definition device_overrides (self : DeviceTestEnv.t) (d : pydict) : pydict :=
  if dict_contains "ANDROID_DATA" d then d
  else dict_set "ANDROID_DATA" (DeviceTestEnv._device_env_path self) d.

(** The world [DeviceTestEnv.RunCommand] starts [adb] in: the one the cache
    clearing left, with the dict object [l] it uses updated. *)
Definition device_start (self : DeviceTestEnv.t) (l : nat) (d : pydict)
    (w1 : World) : World :=
  if dict_contains "ANDROID_DATA" d then w1
  else set_heap <[l := device_overrides self d]> w1.

(** The argument vector [DeviceTestEnv.RunCommand] hands to the runner. *)
Definition device_argv (self : DeviceTestEnv.t) (cmd : list string)
    (d : pydict) : list string :=
  shlex_split
    (DeviceTestEnv.adb_shell_command
       (join " " (map (λ kv, kv.1 +:+ "=" +:+ kv.2) (device_overrides self d)))
       (_CommandListToCommandString cmd)).

(** What [HostTestEnv.RunCommand] does to the dex cache: the regular files
    directly inside the four arch directories are unlinked, each of them and
    nothing else, before the command is started in the file system [fs']
    that leaves; directories, and what is below a subdirectory, stay. *)
Definition cleared_before_run (self : HostTestEnv.t) (cmd : list string)
    (eu : option nat) (w : World) : Prop :=
  let archs := _DexArchCachePaths (HostTestEnv._env_path self) in
  let out := HostTestEnv.RunCommand self cmd eu w in
  ∃ fs' removed env rest,
    out = _RunCommandForOutputAndLog cmd env (HostTestEnv._logfile self) 60
            (unlinked removed fs' (after_default eu w)) ∧
    w_trace out.2 =
      w_trace w ++ map EvUnlink removed ++ EvPopen cmd env :: rest ∧
    (rest = [] ∨ ∃ pid, rest = [EvKill pid]) ∧
    archs = [HostTestEnv._env_path self +:+ "/dalvik-cache/arm";
             HostTestEnv._env_path self +:+ "/dalvik-cache/arm64";
             HostTestEnv._env_path self +:+ "/dalvik-cache/x86";
             HostTestEnv._env_path self +:+ "/dalvik-cache/x86_64"] ∧
    (∀ p, is_reg (w_fs w !! p) = true → directly_in archs p →
          fs' !! p = None ∧ p ∈ removed) ∧
    (∀ p, p ∈ removed → is_reg (w_fs w !! p) = true ∧ directly_in archs p) ∧
    (∀ p, ¬ (is_reg (w_fs w !! p) = true ∧ directly_in archs p) →
          fs' !! p = w_fs w !! p) ∧
    (∀ p, w_fs w !! p = Some Dir → fs' !! p = Some Dir) ∧
    (∀ d below, d ∈ archs → has_slash below = true →
          fs' !! (d +:+ "/" +:+ below) = w_fs w !! (d +:+ "/" +:+ below)) ∧
    w_fs out.2 = fs'.

(** The environment [HostTestEnv.RunCommand] starts the command with, in
    three layers: the overrides of the call, then the bindings of the
    constructor, then the environment the constructor inherited in [w0]. *)
Definition child_env_layers (x64 : bool) (w0 : World) (self : HostTestEnv.t)
    (cmd : list string) (eu : option nat) (w : World) : Prop :=
  ∃ android_root old_path env removed rest,
    dict_get "ANDROID_HOST_OUT" (w_environ w0) = Some android_root ∧
    dict_get "PATH" (w_environ w0) = Some old_path ∧
    w_trace (HostTestEnv.RunCommand self cmd eu w).2 =
      w_trace w ++ map EvUnlink removed ++ EvPopen cmd env :: rest ∧
    (rest = [] ∨ ∃ pid, rest = [EvKill pid]) ∧
    ∀ var,
      dict_get var env =
      match dict_get var (overrides eu w) with
      | Some v => Some v
      | None =>
          match dict_get var
                  (host_bindings x64 (HostTestEnv._env_path self)
                                 android_root old_path) with
          | Some v => Some v
          | None => dict_get var (w_environ w0)
          end
      end.

(** [WriteLines] went through and the file at [q] now holds the given lines
    and nothing else: each line followed by one line feed, in order; read
    line by line the text gives the lines back when none of them has a
    line feed inside, and only then.  No other path moved. *)
Definition written_back (self : HostTestEnv.t) (q : string)
    (lines : list string) (w : World) : Prop :=
  ∃ w',
    HostTestEnv.WriteLines self q lines w = (Ok tt, w') ∧
    read_path q w' = Some (concat_all (map (λ line, line +:+ nl) lines)) ∧
    (∀ text, read_path q w' = Some text →
             (lines_of "" text = lines ↔
              Forall (λ line, has_newline line = false) lines)) ∧
    (∀ q', q' ≠ q → w_fs w' !! q' = w_fs w !! q').

(** The errors of the file system. *)
Definition is_os_error (e : exn) : bool :=
  match e with
  | FileNotFoundError _ | FileExistsError _
  | IsADirectoryError _ | NotADirectoryError _ => true
  | _ => false
  end.

(** How [HostTestEnv.__init__] ends when ANDROID_HOST_OUT is not set: with
    an exception, which is an error of the file system met while making
    the scratch area, or else the [FatalError] that names the variable,
    raised once the scratch directory, the log and the cache directories
    have been made; the latter whenever the file system lets them be
    made. *)
Definition fails_after_setup (x64 : bool) (w : World) : Prop :=
  ∃ e w',
    HostTestEnv.__init__ x64 w = (Raise e, w') ∧
    (is_os_error e = true ∨
     e = FatalError "ANDROID_HOST_OUT environmental variable not set." ∧
     ∃ p i,
       w_fs w !! p = None ∧
       w_fs w' !! p = Some Dir ∧
       w_fs w' !! (p +:+ "/log") = Some (Reg i) ∧
       w_fs w' !! (p +:+ "/dalvik-cache") = Some Dir ∧
       cache_ready p (w_fs w') ∧
       w_trace w' =
         w_trace w ++ EvMkdir p :: EvMkdir (p +:+ "/dalvik-cache") ::
                      map EvMkdir (_DexArchCachePaths p)) ∧
    (fs_wf (w_fs w) → w_fs w !! "/tmp" = Some Dir →
     (∃ k, (w_rng w ≤ k < w_rng w + TMP_MAX)%nat ∧
           w_fs w !! ("/tmp/bisection_search_" +:+ random_name k) = None) →
     e = FatalError "ANDROID_HOST_OUT environmental variable not set.").



(** The text of the remote command, written out: [logcat] is cleared,
    then the command, each argument in double quotes, runs behind its
    variable assignments, then the [dex2oat] lines of [logcat] go to
    standard error. *)
Definition remote_command_line (assignments : list string)
    (cmd : list string) : string :=
  "adb shell " +:+ dq +:+ "logcat -c && " +:+
  join " " assignments +:+ " " +:+
  join " " (map (λ arg, dq +:+ arg +:+ dq) cmd) +:+
  " ; logcat -d -s dex2oat:* dex2oatd:*| grep -v " +:+
  dq +:+ "^---------" +:+ dq +:+ " 1>&2" +:+ dq.

(** The command line [DeviceTestEnv.RunCommand] runs: after the [adb]
    calls that clear the cache, [adb shell] is started on the remote
    command whose assignments are [name=value] for the items of the
    override map, in its order, with ANDROID_DATA bound to the remote
    scratch directory added at the end when the map did not bind it, and
    the map as it is when it did.  What is started is what [shlex.split]
    makes of that text. *)
Definition data_root_injected (self : DeviceTestEnv.t) (cmd : list string)
    (eu : option nat) (w : World) : Prop :=
  let d := overrides eu w in
  let remote := DeviceTestEnv._device_env_path self in
  let items :=
    if dict_contains "ANDROID_DATA" d then d
    else d ++ [("ANDROID_DATA", remote)] in
  let assignments := map (λ kv, kv.1 +:+ "=" +:+ kv.2) items in
  ∃ pre rest,
    w_trace (DeviceTestEnv.RunCommand self cmd eu w).2 =
      w_trace w ++ pre ++
      EvPopen (shlex_split (remote_command_line assignments cmd))
              (DeviceTestEnv._shell_env self) :: rest ∧
    (dict_contains "ANDROID_DATA" d = false →
     assignments = map (λ kv, kv.1 +:+ "=" +:+ kv.2) d ++
                   ["ANDROID_DATA=" +:+ remote]) ∧
    (dict_contains "ANDROID_DATA" d = true →
     assignments = map (λ kv, kv.1 +:+ "=" +:+ kv.2) d) ∧
    Forall (λ e, ∃ args, e = EvCheckCall args) pre ∧
    (rest = [] ∨ ∃ pid, rest = [EvKill pid]) ∧
    dict_get "ANDROID_DATA" items
      = Some (default remote (dict_get "ANDROID_DATA" d)) ∧
    (∀ k, k ≠ "ANDROID_DATA" → dict_get k items = dict_get k d).

(** The dict object at [l], which held [d], after
    [DeviceTestEnv.RunCommand]: ANDROID_DATA has been added to it. *)
Definition caller_dict_updated (self : DeviceTestEnv.t) (cmd : list string)
    (l : nat) (d : pydict) (w : World) : Prop :=
  let out := DeviceTestEnv.RunCommand self cmd (Some l) w in
  is_ok out.1 = true ∧
  w_heap out.2 !! l =
    Some (d ++ [("ANDROID_DATA", DeviceTestEnv._device_env_path self)]) ∧
  (∀ l', l' ≠ l → w_heap out.2 !! l' = w_heap w !! l').

(** The worlds a sequence of [RunCommand] calls goes through: the one each
    call starts in. *)
Fixpoint run_sequence (self : HostTestEnv.t)
    (calls : list (list string * option nat)) (w : World) : list World :=
  match calls with
  | [] => []
  | call :: later =>
      w :: run_sequence self later
             (HostTestEnv.RunCommand self call.1 call.2 w).2
  end.

(** The world with its random-name counter at [k]. *)
Definition with_rng (k : nat) (w : World) : World :=
  mkWorld (w_environ w) (w_fs w) (w_data w) (w_heap w) (w_procs w) k
          (w_trace w).

(** [create] leaves the world alone when the name is taken. *)
Definition exclusive {A} (create : string → M A) : Prop :=
  ∀ p q w w', create p w = (Raise (FileExistsError q), w') → w' = w.

(** The statements of [HostTestEnv.__init__] that make the scratch area. *)
Definition scratch_setup : M (string * file) :=
  _env_path ← mkdtemp "/tmp/" "bisection_search_";
  _logfile ← open_w (_env_path +:+ "/log");
  os_mkdir (_env_path +:+ "/dalvik-cache");;
  for_ (_DexArchCachePaths _env_path) os_mkdir;;
  mret (_env_path, _logfile).

(** The statements that follow: they only read the environment. *)
Definition shell_setup (x64 : bool) (env_path : string) (logfile : file)
    (w : World) : result HostTestEnv.t :=
  match dict_get "ANDROID_HOST_OUT" (w_environ w) with
  | None =>
      Raise (FatalError "ANDROID_HOST_OUT environmental variable not set.")
  | Some android_root =>
      match dict_get "PATH" (w_environ w) with
      | None => Raise (KeyError "PATH")
      | Some old_path =>
          Ok (HostTestEnv.mk env_path logfile
                (dict_update (w_environ w)
                   (host_bindings x64 env_path android_root old_path)))
      end
  end.

End vocabulary.

(** ** A sample machine

    A concrete operating system and a few worlds, on which the statements
    below are tried. *)

Module Sample.

(** [sleep 100] runs for a hundred seconds and says [tick] after five,
    [false] exits at once with status 1, [yes] never stops, any other
    command prints [out] and exits with status 0 after a second; [adb]
    commands succeed silently. *)
Definition os : OS := {|
  spawn := λ args env w,
    match args with
    | ["sleep"; "100"] =>
        mkchild (Some 100%N) (λ t, if (t <? 5)%N then "" else "tick" +:+ nl) 0
    | ["false"] => mkchild (Some 0%N) (λ _, "") 1
    | ["yes"] => mkchild None (λ _, "y" +:+ nl) 0
    | _ => mkchild (Some 1%N) (λ _, "out" +:+ nl) 0
    end;
  run_tool := λ _ _, ("", 0);
  shlex_split := String.words;
  rng_choice := λ i _, i;
  gettempdir := "/tmp";
  TMP_MAX := 100 * 100
|}.

(** A machine with the build configured, and one without. *)
Definition w0 : World :=
  mkWorld [("PATH", "/usr/bin"); ("ANDROID_HOST_OUT", "/out/host")]
          {[ "/tmp" := Dir ]} ∅ ∅ [] 0 [].

Definition w_unset : World :=
  mkWorld [("PATH", "/usr/bin")] {[ "/tmp" := Dir ]} ∅ ∅ [] 0 [].

Definition scratch : string := "/tmp/bisection_search_aaaaaaaa".

(** The host environment [HostTestEnv(False)] makes on [w0]. *)
Definition host : HostTestEnv.t :=
  HostTestEnv.mk scratch (mkfile (scratch +:+ "/log") 0)
    [("PATH", "/out/host/bin:/usr/bin");
     ("ANDROID_HOST_OUT", "/out/host");
     ("ANDROID_DATA", scratch);
     ("ANDROID_ROOT", "/out/host");
     ("LD_LIBRARY_PATH", "/out/host/lib");
     ("DYLD_LIBRARY_PATH", "/out/host/lib");
     ("LD_USE_LOAD_BIAS", "1")].

(** Its world some runs later: a stale file in the [arm] cache, a
    subdirectory with a file of its own next to it, and a caller holding
    the dict [{'ART_FLAG': '1'}]. *)
Definition w_host : World :=
  mkWorld [("PATH", "/usr/bin"); ("ANDROID_HOST_OUT", "/out/host")]
          {[ "/tmp" := Dir;
             scratch := Dir;
             scratch +:+ "/log" := Reg 0;
             scratch +:+ "/dalvik-cache" := Dir;
             scratch +:+ "/dalvik-cache/arm" := Dir;
             scratch +:+ "/dalvik-cache/arm64" := Dir;
             scratch +:+ "/dalvik-cache/x86" := Dir;
             scratch +:+ "/dalvik-cache/x86_64" := Dir;
             scratch +:+ "/dalvik-cache/arm/boot.oat" := Reg 1;
             scratch +:+ "/dalvik-cache/arm/sub" := Dir;
             scratch +:+ "/dalvik-cache/arm/sub/keep.oat" := Reg 2 ]}
          {[ 0%nat := "earlier" +:+ nl; 1%nat := "stale"; 2%nat := "kept" ]}
          {[ 0%nat := [("ART_FLAG", "1")] ]}
          [] 1 [].

(** A device environment, with its log on the host. *)
Definition device : DeviceTestEnv.t :=
  DeviceTestEnv.mk scratch (mkfile (scratch +:+ "/log") 0)
    "/data/local/tmp/bisection_search_aaaaaaaa"
    [("PATH", "/usr/bin")].

End Sample.

(** ** Vocabulary of the further statements *)

(** [c] occurs in [s]. *)
Fixpoint contains (c : ascii) (s : string) : bool :=
  match s with
  | EmptyString => false
  | String c' r => if decide (c' = c) then true else contains c r
  end.

(** The double quote, as a character. *)
Definition dq_char : ascii := "034"%char.


(** The paths [HostTestEnv.__init__] makes below the scratch directory
    [p], and [p] itself. *)
Definition scratch_paths (p : string) : list string :=
  p :: (p +:+ "/log") :: (p +:+ "/dalvik-cache") :: _DexArchCachePaths p.

Section construction.
Context `{OS}.

(** [HostTestEnv(x64)] returns an environment: a scratch directory that
    was not there, with an empty log and four empty arch directories in
    it; the process's own environment, and every file that was there, is
    as before; nothing was run. *)
Definition host_made (x64 : bool) (android_root old_path : string)
    (w : World) : Prop :=
  ∃ self w',
    HostTestEnv.__init__ x64 w = (Ok self, w') ∧
    let p := HostTestEnv._env_path self in
    w_fs w !! p = None ∧
    w_fs w' !! p = Some Dir ∧
    w_fs w' !! (p +:+ "/dalvik-cache") = Some Dir ∧
    cache_ready p (w_fs w') ∧
    (∀ d, d ∈ _DexArchCachePaths p → entries d (w_fs w') = []) ∧
    f_name (HostTestEnv._logfile self) = p +:+ "/log" ∧
    read_path (p +:+ "/log") w' = Some "" ∧
    HostTestEnv._shell_env self =
      dict_update (w_environ w) (host_bindings x64 p android_root old_path) ∧
    w_environ w' = w_environ w ∧
    (∀ q, is_Some (w_fs w !! q) →
          w_fs w' !! q = w_fs w !! q ∧ read_path q w' = read_path q w) ∧
    w_trace w' = w_trace w ++ map EvMkdir (p :: (p +:+ "/dalvik-cache") ::
                                           _DexArchCachePaths p).


End construction.

(** ** The [adb] calls of the device environment *)

(** A run of [adb] calls that was to issue [cmds]: they were issued in
    order, up to and including the first that failed, whose exit status
    and argument list the [CalledProcessError] carries; or all of them,
    and the run went through.  The file system of the host and the dict
    objects are as before. *)
Definition adb_calls_outcome {A} (cmds : list (list string))
    (r : result A) (w w' : World) : Prop :=
  ∃ issued,
    w_trace w' = w_trace w ++ map EvCheckCall issued ∧
    w_fs w' = w_fs w ∧ w_heap w' = w_heap w ∧ w_procs w' = w_procs w ∧
    (is_ok r = true ∧ issued = cmds ∨
     ∃ pre args post code,
       cmds = pre ++ args :: post ∧ issued = pre ++ [args] ∧
       code ≠ 0 ∧ r = Raise (CalledProcessError code args)).

Section adb.
Context `{OS}.

Definition adb_mkdir_command (path : string) : list string :=
  shlex_split ("adb shell mkdir " +:+ dq +:+ path +:+ dq +:+ " -p").

Definition adb_push_command (what where_ : string) : list string :=
  shlex_split ("adb push " +:+ dq +:+ what +:+ dq +:+ " " +:+
               dq +:+ where_ +:+ dq).

Definition adb_rm_command (arch_cache_path : string) : list string :=
  shlex_split
    ("adb shell if [ -d " +:+ dq +:+ arch_cache_path +:+ dq +:+
     " ]; then rm -f " +:+ dq +:+ arch_cache_path +:+ dq +:+ "/*; fi").

(** How [DeviceTestEnv()] ends: with an error of the file system of the
    host, or, once the scratch directory of the host and the log in it
    are made, with the [adb] calls that make the directories on the
    device, the [dalvik-cache] before the four below it.  The directory
    on the device is named as the one on the host, and the shell
    environment is the process's. *)
Definition device_made (w : World) : Prop :=
  let out := DeviceTestEnv.__init__ w in
  (∃ e, out.1 = Raise e ∧ is_os_error e = true ∧
        (w_trace out.2 = w_trace w ∨
         ∃ p, w_trace out.2 = w_trace w ++ [EvMkdir p])) ∨
  ∃ k lf w1,
    let p := "/tmp/bisection_search_" +:+ random_name k in
    let remote := "/data/local/tmp/bisection_search_" +:+ random_name k in
    w_fs w !! p = None ∧ w_fs w1 !! p = Some Dir ∧
    f_name lf = p +:+ "/log" ∧
    w_fs w1 !! (p +:+ "/log") = Some (Reg (f_ino lf)) ∧
    (∀ q, q ≠ p → q ≠ p +:+ "/log" → w_fs w1 !! q = w_fs w !! q) ∧
    w_trace w1 = w_trace w ++ [EvMkdir p] ∧
    adb_calls_outcome
      (map adb_mkdir_command
           ((remote +:+ "/dalvik-cache") :: _DexArchCachePaths remote))
      out.1 w1 out.2 ∧
    (is_ok out.1 = true →
     out.1 = Ok (DeviceTestEnv.mk p lf remote (w_environ w))).

End adb.

Section device_files.
Context `{OS}.

(** What [PushClasspath] does with a classpath: one [adb push] per piece
    between the colons, in order, into the directory of the device; the
    result, when every push went through, is the classpath of the pushed
    files, piece for piece. *)
Definition classpath_pushed (self : DeviceTestEnv.t) (classpath : string)
    (w : World) : Prop :=
  let remote := DeviceTestEnv._device_env_path self in
  let paths := str_split ":"%char classpath in
  let device_paths := map (λ p, remote +:+ "/" +:+ basename p) paths in
  let out := DeviceTestEnv.PushClasspath self classpath w in
  join ":" paths = classpath ∧
  adb_calls_outcome (map (λ p, adb_push_command p remote) paths)
                    out.1 w out.2 ∧
  ∀ v, out.1 = Ok v →
       v = join ":" device_paths ∧
       (contains ":"%char remote = false →
        str_split ":"%char v = device_paths).


(** [DeviceTestEnv.WriteLines]: the lines go to a temporary file of the
    host, that file is pushed to [file_path], and it is gone afterwards,
    whether the push went through or not. *)
Definition pushed_from_temp (self : DeviceTestEnv.t) (file_path : string)
    (lines : list string) (w : World) : Prop :=
  let out := DeviceTestEnv.WriteLines self file_path lines w in
  match NamedTemporaryFile gettempdir w with
  | (Raise e, w1) => out = (Raise e, w1)
  | (Ok temp_file, w1) =>
      let push := adb_push_command (f_name temp_file) file_path in
      ∃ w2,
        file_writelines temp_file (map (λ line, line +:+ nl) lines) w1
        = (Ok tt, w2) ∧
        w_fs w !! f_name temp_file = None ∧
        read_path (f_name temp_file) w2
        = Some (concat_all (map (λ line, line +:+ nl) lines)) ∧
        out.1 = (check_call push (DeviceTestEnv._logfile self) w2).1 ∧
        w_fs out.2 = w_fs w ∧
        w_trace out.2 =
          w_trace w ++ [EvCheckCall push; EvUnlink (f_name temp_file)]
  end.

(** [DeviceTestEnv.CreateFile]: an empty temporary file of the host is
    pushed into the directory of the device under its own name, and is
    gone from the host afterwards; [name] only shows in the path that is
    returned. *)
Definition empty_file_pushed (self : DeviceTestEnv.t) (name : option string)
    (w : World) : Prop :=
  let remote := DeviceTestEnv._device_env_path self in
  let out := DeviceTestEnv.CreateFile self name w in
  match NamedTemporaryFile gettempdir w with
  | (Raise e, w1) => out = (Raise e, w1)
  | (Ok temp_file, w1) =>
      let push := adb_push_command (f_name temp_file) remote in
      w_fs w !! f_name temp_file = None ∧
      read_path (f_name temp_file) w1 = Some "" ∧
      w_fs out.2 = w_fs w ∧
      w_trace out.2 =
        w_trace w ++ [EvCheckCall push; EvUnlink (f_name temp_file)] ∧
      out.2 = (DeviceTestEnv.CreateFile self None w).2 ∧
      match (check_call push (DeviceTestEnv._logfile self) w1).1 with
      | Ok _ =>
          out.1 = Ok (remote +:+ "/" +:+
                      default (basename (f_name temp_file)) name)
      | Raise e => out.1 = Raise e
      end
  end.


End device_files.

(** ** Further sample machines *)

Module Cases.

(** [shlex.split] on command lines made of words, spaces and double
    quotes: a quoted stretch is one word, or part of one, and may be
    empty. *)
Fixpoint shlex_words (s : string) (quoted : bool) (word : option string)
    : list string :=
  match s with
  | EmptyString => option_list word
  | String c r =>
      if decide (c = dq_char) then
        shlex_words r (negb quoted) (Some (default "" word))
      else if bool_decide (c = " "%char) && negb quoted then
        option_list word ++ shlex_words r false None
      else
        shlex_words r quoted (Some (default "" word +:+ String c EmptyString))
  end.




(** A machine whose device refuses the file [b.jar]. *)
Definition picky : OS := {|
  spawn := @spawn Sample.os;
  run_tool := λ args _,
    match args with
    | ["adb"; "push"; "b.jar"; _] => ("adb: error: cannot stat" +:+ nl, 1)
    | _ => ("", 0)
    end;
  shlex_split := λ s, shlex_words s false None;
  rng_choice := λ i _, i;
  gettempdir := "/tmp";
  TMP_MAX := 100 * 100
|}.

End Cases.

(** ** Basic facts *)

Lemma app_cons_s (x : ascii) (a b : string) :
  String x a +:+ b = String x (a +:+ b).
Proof. reflexivity. Qed.

Lemma app_nil_l_s (a : string) : "" +:+ a = a.
Proof. reflexivity. Qed.

Lemma app_assoc_s (a b c : string) : (a +:+ b) +:+ c = a +:+ (b +:+ c).
Proof.
  induction a as [|x a IH]; [done|]. by rewrite !app_cons_s, IH.
Qed.

Lemma app_nil_r_s (a : string) : a +:+ "" = a.
Proof.
  induction a as [|x a IH]; [done|]. by rewrite app_cons_s, IH.
Qed.

Lemma lookup_snoc_length {A} (l : list A) (x : A) :
  (l ++ [x]) !! length l = Some x.
Proof. by rewrite lookup_app_r, Nat.sub_diag by lia. Qed.

Lemma insert_snoc_length {A} (l : list A) (x y : A) :
  <[length l := y]> (l ++ [x]) = l ++ [y].
Proof.
  rewrite insert_app_r_alt by lia. by rewrite Nat.sub_diag.
Qed.

(** *** Proof steps *)

(** Unfolds the runner and the operations on processes. *)
Ltac run_monad :=
  unfold _RunCommandForOutputAndLog, Popen, communicate, kill, returncode,
    with_proc, put_proc, file_write, modify, try_except, raise, mbind,
    M_bind, mret, M_ret;
  cbn [w_procs w_data w_fs w_heap w_rng w_trace w_environ set_procs set_data
       log_event p_child p_elapsed p_killed p_returncode fst snd].

(** Runs the operations on the last process started. *)
Ltac run_steps :=
  repeat first
    [ rewrite insert_snoc_length | rewrite lookup_snoc_length
    | progress unfold set_data, set_procs, log_event, content
    | progress cbn ].

(** *** Dictionaries *)

Lemma dict_get_set (k k' v : string) (d : pydict) :
  dict_get k (dict_set k' v d) =
  if decide (k' = k) then Some v else dict_get k d.
Proof.
  induction d as [|[k0 v0] d IH]; cbn.
  - done.
  - destruct (decide (k0 = k')) as [->|Hne]; cbn.
    + by destruct (decide (k' = k)).
    + destruct (decide (k0 = k)) as [->|].
      * by rewrite decide_False by done.
      * exact IH.
Qed.

Lemma dict_get_None (k : string) (d : pydict) :
  dict_get k d = None ↔ k ∉ d.*1.
Proof.
  induction d as [|[k0 v0] d IH]; cbn.
  - split; [intros _; apply not_elem_of_nil | done].
  - rewrite not_elem_of_cons. destruct (decide (k0 = k)) as [->|Hne].
    + split; [done | by intros [? _]].
    + rewrite IH. split; [by intros ?; split|by intros [_ ?]].
Qed.

Lemma dict_set_absent (k v : string) (d : pydict) :
  dict_get k d = None → dict_set k v d = d ++ [(k, v)].
Proof.
  induction d as [|[k0 v0] d IH]; cbn; [done|].
  destruct (decide (k0 = k)); [done|]. intros Hd. by rewrite IH.
Qed.

(** [d.update(u)]: the bindings of [u] come first. *)
Lemma dict_get_update (k : string) (d u : pydict) :
  dict_wf u →
  dict_get k (dict_update d u) =
  match dict_get k u with
  | Some v => Some v
  | None => dict_get k d
  end.
Proof.
  unfold dict_wf, dict_update. revert d.
  induction u as [|[k0 v0] u IH]; intros d Hwf; cbn; [done|].
  apply NoDup_cons in Hwf as [Hk0 Hwf].
  rewrite IH by done. rewrite dict_get_set. cbn in Hk0 |- *.
  destruct (decide (k0 = k)) as [->|Hne]; [|done].
  apply dict_get_None in Hk0. by rewrite Hk0.
Qed.

(** *** Paths *)

Lemma split_last_None (p : string) :
  split_last p = None ↔ has_slash p = false.
Proof.
  induction p as [|c r IH]; [done|]. cbn.
  destruct (split_last r) as [[d n]|].
  - split; [done|]. intros Hs. destruct (decide (c = slash)); [done|].
    by apply IH in Hs.
  - destruct (decide (c = slash)); [done|]. split; [|done].
    intros _. by apply IH.
Qed.

Lemma split_last_app (d n : string) :
  has_slash n = false → split_last (d +:+ "/" +:+ n) = Some (d, n).
Proof.
  intros Hn. apply split_last_None in Hn.
  induction d as [|c d IH].
  - change ("" +:+ "/" +:+ n) with (String slash n). cbn. by rewrite Hn.
  - rewrite app_cons_s. cbn. by rewrite IH.
Qed.

Lemma split_last_Some (p d n : string) :
  split_last p = Some (d, n) → p = d +:+ "/" +:+ n ∧ has_slash n = false.
Proof.
  revert d. induction p as [|c r IH]; intros d; [done|]. cbn.
  destruct (split_last r) as [[d' n']|] eqn:Hr.
  - intros [= <- <-]. destruct (IH d' eq_refl) as [-> Hn]. done.
  - destruct (decide (c = slash)) as [->|]; [|done].
    intros [= <- <-]. split; [done|]. by apply split_last_None.
Qed.

Lemma child_name_Some (d p n : string) :
  child_name d p = Some n ↔ p = d +:+ "/" +:+ n ∧ has_slash n = false.
Proof.
  unfold child_name. split.
  - destruct (split_last p) as [[d' n']|] eqn:Hp; [|done].
    destruct (decide (d' = d)) as [->|]; [|done].
    intros [= ->]. by apply split_last_Some.
  - intros [-> Hn]. rewrite split_last_app by done. by rewrite decide_True.
Qed.

Lemma elem_of_entries (d n : string) (fs : gmap string node) :
  n ∈ entries d fs ↔
  has_slash n = false ∧ is_Some (fs !! (d +:+ "/" +:+ n)).
Proof.
  unfold entries. rewrite list_elem_of_omap. split.
  - intros [[p x] [Hin Hc]]. apply elem_of_map_to_list in Hin.
    apply child_name_Some in Hc as [Hp Hn]. cbn in Hp. subst p. eauto.
  - intros [Hn [x Hx]]. exists (d +:+ "/" +:+ n, x). split.
    + by apply elem_of_map_to_list.
    + by apply child_name_Some.
Qed.

Lemma has_slash_app (a b : string) :
  has_slash (a +:+ b) = has_slash a || has_slash b.
Proof.
  induction a as [|c a IH]; [done|]. rewrite app_cons_s. cbn.
  by destruct (decide (c = slash)).
Qed.

Lemma has_slash_of_list (l : list ascii) :
  Forall (λ c, c ≠ slash) l →
  has_slash (Strings.String.string_of_list_ascii l) = false.
Proof.
  induction 1 as [|c l Hc _ IH]; [done|]. cbn.
  by rewrite decide_False by done.
Qed.

Lemma nth_Forall {A} (P : A → Prop) (l : list A) (i : nat) (d : A) :
  Forall P l → P d → P (nth i l d).
Proof.
  intros Hl Hd. revert i. induction Hl as [|x l Hx _ IH]; intros [|i]; cbn;
    auto.
Qed.

Lemma ends_with_slash_app (a b : string) :
  b ≠ "" → ends_with_slash (a +:+ b) = ends_with_slash b.
Proof.
  intros Hb. induction a as [|c a IH]; [done|]. rewrite app_cons_s. cbn.
  destruct (a +:+ b) eqn:Hab; [|done].
  destruct a; [|done]. by rewrite app_nil_l_s in Hab.
Qed.

Lemma has_slash_ends (a : string) :
  has_slash a = false → ends_with_slash a = false.
Proof.
  induction a as [|c a IH]; [done|]. cbn.
  destruct (decide (c = slash)) as [|Hc]; [done|]. intros Ha.
  destruct a; [by apply bool_decide_eq_false_2 | by apply IH].
Qed.


Lemma basename_no_slash (p : string) : has_slash p = false → basename p = p.
Proof. destruct p as [|c r]; [done|]. cbn [basename]. by intros ->. Qed.

Lemma basename_app (d n : string) :
  has_slash n = false → basename (d +:+ "/" +:+ n) = n.
Proof.
  intros Hn. induction d as [|c d IH].
  - change ("" +:+ "/" +:+ n) with (String slash n). cbn.
    by apply basename_no_slash.
  - rewrite app_cons_s. cbn [basename]. rewrite <- app_cons_s.
    by rewrite !has_slash_app, orb_true_r.
Qed.

Lemma app_neq_self (a b : string) : b ≠ "" → a +:+ b ≠ a.
Proof.
  intros Hb Heq. apply Hb.
  rewrite <- (app_nil_r_s a) in Heq at 2. by apply (inj (String.app a)) in Heq.
Qed.

(** *** Numerals *)

Lemma pretty_N_char_digit (x : N) : is_digit (pretty_N_char x) = true.
Proof. unfold pretty_N_char. by repeat case_match. Qed.

Lemma pretty_N_go_digits (x : N) (s : string) :
  all_digits s = true → all_digits (pretty_N_go x s) = true.
Proof.
  revert s. induction (N.lt_wf_0 x) as [x _ IH]; intros s Hs.
  assert (x = 0 ∨ 0 < x)%N as [->|Hx] by lia.
  - by rewrite pretty_N_go_0.
  - rewrite pretty_N_go_step by done. apply IH.
    + by apply N.div_lt.
    + cbn. by rewrite pretty_N_char_digit, Hs.
Qed.

Lemma pretty_N_go_nonempty (x : N) (s : string) :
  s ≠ "" → pretty_N_go x s ≠ "".
Proof.
  revert s. induction (N.lt_wf_0 x) as [x _ IH]; intros s Hs.
  assert (x = 0 ∨ 0 < x)%N as [->|Hx] by lia.
  - by rewrite pretty_N_go_0.
  - rewrite pretty_N_go_step by done. apply IH; [by apply N.div_lt | done].
Qed.

Lemma pretty_pos_digits (p : positive) :
  pretty p ≠ "" ∧ all_digits (pretty p) = true.
Proof.
  unfold pretty, pretty_positive, pretty, pretty_N.
  destruct (decide (N.pos p = 0%N)) as [|_]; [done|].
  rewrite pretty_N_go_step by lia. split.
  - by apply pretty_N_go_nonempty.
  - apply pretty_N_go_digits. cbn. by rewrite pretty_N_char_digit.
Qed.

Lemma all_digits_numeric (s : string) :
  s ≠ "" → all_digits s = true → numeric s = true.
Proof.
  destruct s as [|c r]; [done|]. intros _ Hd. cbn in Hd |- *.
  destruct (decide (c = "-"%char)) as [->|]; [done|]. done.
Qed.

(** Every return code is printed as a numeral. *)
Lemma pretty_Z_numeric (z : Z) : numeric (pretty z) = true.
Proof.
  destruct z as [|p|p]; [done| |].
  - destruct (pretty_pos_digits p). by apply all_digits_numeric.
  - destruct (pretty_pos_digits p) as [Hne Hd].
    change (pretty (Z.neg p)) with (String "-"%char (pretty p)).
    cbn [numeric]. rewrite decide_True by done.
    by rewrite Hd, bool_decide_eq_true_2.
Qed.

Lemma TIMEOUT_not_a_code (z : Z) : pretty z ≠ "TIMEOUT".
Proof.
  intros Hz. pose proof (pretty_Z_numeric z) as Hn. by rewrite Hz in Hn.
Qed.

(** *** Lines *)

Lemma lines_of_app (a b acc : string) :
  ∃ l, lines_of acc (a +:+ nl +:+ b) = l ++ lines_of "" b.
Proof.
  revert acc. induction a as [|c a IH]; intros acc.
  - exists [acc]. reflexivity.
  - rewrite app_cons_s. cbn [lines_of].
    destruct (decide (c = "010"%char)) as [_|_].
    + destruct (IH "") as [l Hl]. exists (acc :: l). by rewrite Hl.
    + apply IH.
Qed.

Lemma lines_of_line (l rest acc : string) :
  has_newline l = false →
  lines_of acc (l +:+ nl +:+ rest) = (acc +:+ l) :: lines_of "" rest.
Proof.
  revert acc. induction l as [|c l IH]; intros acc Hl.
  - rewrite app_nil_r_s. reflexivity.
  - cbn in Hl. rewrite app_cons_s. cbn [lines_of].
    destruct (decide (c = "010"%char)) as [|_]; [done|].
    rewrite IH by done. by rewrite app_assoc_s.
Qed.

(** Lines written one after the other are read back as they were. *)
Lemma lines_of_concat (lines : list string) :
  Forall (λ l, has_newline l = false) lines →
  lines_of "" (concat_all (map (λ l, l +:+ nl) lines)) = lines.
Proof.
  induction 1 as [|l lines Hl _ IH]; [done|]. cbn [map concat_all].
  rewrite app_assoc_s, lines_of_line by done. by rewrite IH.
Qed.

Lemma has_newline_app (a b : string) :
  has_newline (a +:+ b) = has_newline a || has_newline b.
Proof.
  induction a as [|c a IH]; [done|]. rewrite app_cons_s. cbn.
  by destruct (decide (c = "010"%char)).
Qed.

(** No line that is read has a line feed inside. *)
Lemma lines_of_clean (acc s : string) :
  has_newline acc = false →
  Forall (λ l, has_newline l = false) (lines_of acc s).
Proof.
  revert acc. induction s as [|c s IH]; intros acc Hacc; cbn [lines_of].
  - case_bool_decide; by repeat constructor.
  - destruct (decide (c = "010"%char)) as [->|Hc].
    + constructor; [done|]. by apply IH.
    + apply IH. rewrite has_newline_app, Hacc. cbn.
      by rewrite decide_False.
Qed.

(** The last line of a log that ends with a block. *)
Lemma last_line_transcript (log command_line output : string) :
  last (lines_of "" (log +:+ transcript command_line output "TIMEOUT"))
  = Some "Return code: TIMEOUT".
Proof.
  set (body := log +:+ "Command:" +:+ nl +:+ command_line +:+ nl +:+ output).
  assert (log +:+ transcript command_line output "TIMEOUT"
          = body +:+ nl +:+ "Return code: TIMEOUT" +:+ nl) as ->.
  { unfold transcript, body. by rewrite !app_assoc_s. }
  destruct (lines_of_app body ("Return code: TIMEOUT" +:+ nl) "") as [l ->].
  by rewrite last_app.
Qed.

Section run_command.
Context `{OS}.

(** The run of a command that outlives the timeout, in full. *)
Lemma run_timeout cmd env logfile timeout w :
  let c := spawn cmd env w in
  exceeds c timeout →
  _RunCommandForOutputAndLog cmd env logfile timeout w =
    (Ok (c_output c timeout, Some 1),
     mkWorld (w_environ w) (w_fs w)
       (<[f_ino logfile :=
            content logfile w +:+
            transcript (_CommandListToCommandString cmd)
                       (c_output c timeout) "TIMEOUT"]> (w_data w))
       (w_heap w)
       (w_procs w ++ [mkproc c timeout true (Some (- SIGKILL))])
       (w_rng w)
       (w_trace w ++ [EvPopen cmd env; EvKill (length (w_procs w))])).
Proof.
  intros c Hex. run_monad.
  rewrite lookup_snoc_length. cbn.
  fold c. unfold exceeds in Hex.
  destruct (c_duration c) as [d|] eqn:Hd; rewrite N.add_0_l.
  - destruct (N.leb_spec d timeout) as [Hle|Hlt]; [lia|].
    run_steps. by rewrite <- app_assoc.
  - run_steps. by rewrite <- app_assoc.
Qed.

(** The run of a command that exits within the timeout, in full. *)
Lemma run_completes cmd env logfile timeout w d :
  let c := spawn cmd env w in
  completes_within c timeout d →
  _RunCommandForOutputAndLog cmd env logfile timeout w =
    (Ok (c_output c d, Some (c_exit c)),
     mkWorld (w_environ w) (w_fs w)
       (<[f_ino logfile :=
            content logfile w +:+
            transcript (_CommandListToCommandString cmd)
                       (c_output c d) (pretty (c_exit c))]> (w_data w))
       (w_heap w)
       (w_procs w ++ [mkproc c d false (Some (c_exit c))])
       (w_rng w)
       (w_trace w ++ [EvPopen cmd env])).
Proof.
  intros c [Hd Hle]. run_monad.
  rewrite lookup_snoc_length. cbn.
  fold c. rewrite Hd, N.add_0_l.
  destruct (N.leb_spec d timeout) as [_|Hlt]; [|lia].
  by run_steps.
Qed.

End run_command.

(** ** The dex cache of the host *)

Section host_cache.
Context `{OS}.

Lemma bind_unfold {A B} (m : M A) (f : A → M B) (w : World) :
  (m ≫= f) w =
  match m w with
  | (Ok a, w') => f a w'
  | (Raise e, w') => (Raise e, w')
  end.
Proof. reflexivity. Qed.

Lemma for_cons {A} (x : A) (r : list A) (body : A → M unit) (w : World) :
  for_ (x :: r) body w =
  match body x w with
  | (Ok _, w') => for_ r body w'
  | (Raise e, w') => (Raise e, w')
  end.
Proof. reflexivity. Qed.

(** The inner loop of [_EmptyDexCache], over any list of names. *)
Lemma sweep_names (d : string) (names : list string) (w : World) :
  ∃ fs' removed,
    for_ names (λ file_path,
      let file_path := d +:+ "/" +:+ file_path in
      isfile ← os_path_isfile file_path;
      if (isfile : bool) then os_unlink file_path else mret tt) w
    = (Ok tt, unlinked removed fs' w) ∧
    (∀ p, is_reg (w_fs w !! p) = true →
          (∃ n, n ∈ names ∧ p = d +:+ "/" +:+ n) → fs' !! p = None) ∧
    (∀ p, ¬ (is_reg (w_fs w !! p) = true ∧
             ∃ n, n ∈ names ∧ p = d +:+ "/" +:+ n) →
          fs' !! p = w_fs w !! p) ∧
    (∀ p, p ∈ removed ↔
          is_reg (w_fs w !! p) = true ∧
          ∃ n, n ∈ names ∧ p = d +:+ "/" +:+ n).
Proof.
  revert w. induction names as [|n names IH]; intros w.
  - exists (w_fs w), []. split_and!.
    + destruct w. unfold unlinked. cbn. by rewrite app_nil_r.
    + intros p _ (n & Hn & _). by apply elem_of_nil in Hn.
    + done.
    + intros p. split; [by intros ?%elem_of_nil|].
      intros (_ & n & Hn & _). by apply elem_of_nil in Hn.
  - rewrite for_cons. set (p0 := d +:+ "/" +:+ n).
    unfold mbind at 1, M_bind at 1, os_path_isfile at 1.
    destruct (is_reg (w_fs w !! p0)) eqn:Hreg.
    + unfold os_unlink.
      destruct (w_fs w !! p0) as [[i|]|] eqn:Hp0; try done.
      set (w1 := log_event (EvUnlink p0) (set_fs (delete p0) w)).
      destruct (IH w1) as (fs' & removed & Hrun & Ha & Hb & Hc).
      assert (Hgone : w_fs w1 !! p0 = None) by apply lookup_delete_eq.
      assert (Hother : ∀ p, p ≠ p0 → w_fs w1 !! p = w_fs w !! p).
      { intros p Hp. cbn. by apply lookup_delete_ne. }
      exists fs', (p0 :: removed). split_and!.
      * etrans; [exact Hrun|]. f_equal. unfold unlinked, w1. cbn.
        by rewrite <- app_assoc.
      * intros p Hr (n' & Hn' & ->).
        destruct (decide (d +:+ "/" +:+ n' = p0)) as [Heq|Hne].
        -- rewrite Heq. rewrite Hb; [done|]. rewrite Hgone. by intros [? _].
        -- apply Ha.
           ++ by rewrite Hother.
           ++ exists n'. split; [|done].
              apply elem_of_cons in Hn' as [->|]; done.
      * intros p Hp.
        assert (p ≠ p0) as Hne.
        { intros ->. apply Hp. rewrite Hp0. split; [done|].
          exists n. split; [left|done]. }
        rewrite <- (Hother p Hne). apply Hb.
        intros [Hr (n' & Hn' & ->)]. apply Hp. rewrite <- (Hother _ Hne).
        split; [done|]. exists n'. split; [by right|done].
      * intros p. rewrite elem_of_cons, Hc. split.
        -- intros [->|(Hr & n' & Hn' & ->)].
           ++ rewrite Hp0. split; [done|]. exists n. split; [left|done].
           ++ assert (d +:+ "/" +:+ n' ≠ p0) as Hne.
              { intros Heq. by rewrite Heq, Hgone in Hr. }
              rewrite (Hother _ Hne) in Hr. split; [done|].
              exists n'. split; [by right|done].
        -- intros (Hr & n' & Hn' & ->).
           destruct (decide (d +:+ "/" +:+ n' = p0)) as [Heq|Hne];
             [by left|right].
           rewrite (Hother _ Hne). split; [done|]. exists n'. split; [|done].
           apply elem_of_cons in Hn' as [->|]; done.
    + destruct (IH w) as (fs' & removed & Hrun & Ha & Hb & Hc).
      exists fs', removed. split_and!.
      * exact Hrun.
      * intros p Hr (n' & Hn' & ->). apply Ha; [done|].
        exists n'. split; [|done].
        apply elem_of_cons in Hn' as [->|]; [|done].
        fold p0 in Hr. by rewrite Hr in Hreg.
      * intros p Hp. apply Hb. intros [Hr (n' & Hn' & ->)]. apply Hp.
        split; [done|]. exists n'. split; [by right|done].
      * intros p. rewrite Hc. split.
        -- intros (Hr & n' & Hn' & ->). split; [done|].
           exists n'. split; [by right|done].
        -- intros (Hr & n' & Hn' & ->). split; [done|].
           exists n'. split; [|done].
           apply elem_of_cons in Hn' as [->|]; [|done].
           fold p0 in Hr. by rewrite Hr in Hreg.
Qed.

Lemma directly_in_cons (d : string) (ds : list string) (p : string) :
  directly_in (d :: ds) p ↔
  (∃ n, has_slash n = false ∧ p = d +:+ "/" +:+ n) ∨ directly_in ds p.
Proof.
  unfold directly_in. split.
  - intros (d0 & n & [->|Hd]%elem_of_cons & Hn & ->); [left|right]; eauto.
  - intros [(n & Hn & ->)|(d0 & n & Hd & Hn & ->)].
    + exists d, n. split_and!; [left|done|done].
    + exists d0, n. split_and!; [by right|done|done].
Qed.

(** The two loops of [_EmptyDexCache], over any list of directories. *)
Lemma sweep_dirs (ds : list string) (w : World) :
  (∀ d, d ∈ ds → w_fs w !! d = Some Dir) →
  ∃ fs' removed,
    for_ ds (λ arch_cache_path,
      names ← os_listdir arch_cache_path;
      for_ names (λ file_path,
        let file_path := arch_cache_path +:+ "/" +:+ file_path in
        isfile ← os_path_isfile file_path;
        if (isfile : bool) then os_unlink file_path else mret tt)) w
    = (Ok tt, unlinked removed fs' w) ∧
    cleared ds (w_fs w) fs' removed.
Proof.
  revert w. induction ds as [|d ds IH]; intros w Hdirs.
  - exists (w_fs w), []. split.
    + destruct w. unfold unlinked. cbn. by rewrite app_nil_r.
    + split_and!.
      * intros p _ (d & n & Hd & _). by apply elem_of_nil in Hd.
      * done.
      * intros p. split; [by intros ?%elem_of_nil|].
        intros (_ & d & n & Hd & _). by apply elem_of_nil in Hd.
  - rewrite for_cons. unfold mbind at 1, M_bind at 1, os_listdir at 1.
    rewrite (Hdirs d) by left.
    destruct (sweep_names d (entries d (w_fs w)) w)
      as (fs1 & removed1 & Hrun1 & Ha1 & Hb1 & Hc1).
    cbv zeta in Hrun1. rewrite Hrun1. set (w1 := unlinked removed1 fs1 w).
    (* a path was removed by the first sweep, or it is as it was *)
    assert (Hcase : ∀ p,
      (is_reg (w_fs w !! p) = true ∧
       ∃ n, n ∈ entries d (w_fs w) ∧ p = d +:+ "/" +:+ n) ∨
      (fs1 !! p = w_fs w !! p ∧
       ¬ (is_reg (w_fs w !! p) = true ∧
          ∃ n, has_slash n = false ∧ p = d +:+ "/" +:+ n))).
    { intros p. destruct (is_reg (w_fs w !! p)) eqn:Hr;
        [|right; split; [apply Hb1|]; intros [? _]; congruence].
      destruct (child_name d p) as [n|] eqn:Hn.
      - left. apply child_name_Some in Hn as [-> Hn]. split; [done|].
        exists n. split; [|done]. apply elem_of_entries. split; [done|].
        by destruct (w_fs w !! (d +:+ "/" +:+ n)) as [[?|]|].
      - right. split.
        + apply Hb1. intros [_ (n & Hn' & ->)].
          apply elem_of_entries in Hn' as [Hn' _].
          assert (child_name d (d +:+ "/" +:+ n) = Some n) as Hs
            by by apply child_name_Some.
          by rewrite Hs in Hn.
        + intros [_ (n & Hn' & ->)].
          assert (child_name d (d +:+ "/" +:+ n) = Some n) as Hs
            by by apply child_name_Some.
          by rewrite Hs in Hn. }
    destruct (IH w1) as (fs' & removed2 & Hrun2 & Ha2 & Hb2 & Hc2).
    { intros d' Hd'. cbn. rewrite Hb1.
      - apply Hdirs. by right.
      - rewrite (Hdirs d') by by right. by intros [? _]. }
    exists fs', (removed1 ++ removed2). split.
    { etrans; [exact Hrun2|]. f_equal. unfold unlinked, w1. cbn.
      by rewrite map_app, app_assoc. }
    cbn in Ha2, Hb2, Hc2. split_and!.
    + intros p Hr Hin. destruct (Hcase p) as [[_ Hex]|[Heq Hnot]].
      * rewrite Hb2; [by apply Ha1|].
        rewrite (Ha1 p Hr Hex). by intros [? _].
      * apply Ha2; [by rewrite Heq|].
        apply directly_in_cons in Hin as [Hin|Hin]; [|done].
        destruct Hnot. done.
    + intros p Hp. destruct (Hcase p) as [[Hr (n & Hn & ->)]|[Heq Hnot]].
      * destruct Hp. split; [done|]. apply directly_in_cons. left.
        exists n. split; [|done]. by apply elem_of_entries in Hn as [? _].
      * rewrite <- Heq. apply Hb2. rewrite Heq. intros [Hr Hin].
        apply Hp. split; [done|]. apply directly_in_cons. by right.
    + intros p. rewrite elem_of_app, Hc1, Hc2, directly_in_cons. split.
      * intros [(Hr & n & Hn & ->)|[Hr Hin]].
        -- split; [done|]. left. exists n. split; [|done].
           by apply elem_of_entries in Hn as [? _].
        -- destruct (Hcase p) as [[Hr' Hex]|[Heq Hnot]].
           ++ by rewrite (Ha1 p Hr' Hex) in Hr.
           ++ rewrite Heq in Hr. split; [done|by right].
      * intros [Hr Hin]. destruct (Hcase p) as [[_ Hex]|[Heq Hnot]].
        -- by left.
        -- right. rewrite Heq. split; [done|].
           destruct Hin as [Hin|Hin]; [|done]. destruct Hnot. done.
Qed.

(** [_EmptyDexCache] on a host environment whose cache directories exist:
    it does not fail, it unlinks the regular files directly inside the four
    directories, each of them, and leaves every other path as it was. *)
Lemma EmptyDexCache_spec (self : HostTestEnv.t) (w : World) :
  cache_ready (HostTestEnv._env_path self) (w_fs w) →
  ∃ fs' removed,
    HostTestEnv._EmptyDexCache self w = (Ok tt, unlinked removed fs' w) ∧
    cleared (_DexArchCachePaths (HostTestEnv._env_path self))
            (w_fs w) fs' removed.
Proof. intros Hready. by apply sweep_dirs. Qed.

End host_cache.

(** ** [RunCommand] ends in [_RunCommandForOutputAndLog] *)

Section run_environment.
Context `{OS}.

Lemma after_default_fs eu w : w_fs (after_default eu w) = w_fs w.
Proof. unfold after_default. by destruct (dict_truthy _). Qed.

Lemma after_default_data eu w removed fs' :
  w_data (unlinked removed fs' (after_default eu w)) = w_data w.
Proof. unfold after_default. by destruct (dict_truthy _). Qed.

Lemma default_env_updates_spec eu w :
  ∃ l, default_env_updates eu w = (Ok l, after_default eu w) ∧
       default [] (w_heap (after_default eu w) !! l) = overrides eu w ∧
       (dict_truthy (overrides eu w) = true → eu = Some l).
Proof.
  unfold default_env_updates, after_default, new_dict, deref.
  destruct eu as [l|]; cbn.
  - unfold mbind, M_bind. cbn.
    destruct (dict_truthy (default [] (w_heap w !! l))) eqn:Ht.
    + exists l. done.
    + exists (fresh (dom (w_heap w))). split_and!; [done| |done].
      cbn. rewrite lookup_insert_eq. cbn.
      by destruct (default [] (w_heap w !! l)).
  - exists (fresh (dom (w_heap w))). split_and!; [done| |done].
    cbn. by rewrite lookup_insert_eq.
Qed.

(** [HostTestEnv.RunCommand], once the cache directories exist, is the run
    of the command in the world the cache invalidation leaves. *)
Lemma host_RunCommand_run (self : HostTestEnv.t) cmd eu w :
  cache_ready (HostTestEnv._env_path self) (w_fs w) →
  ∃ fs' removed,
    cleared (_DexArchCachePaths (HostTestEnv._env_path self))
            (w_fs w) fs' removed ∧
    HostTestEnv.RunCommand self cmd eu w =
      _RunCommandForOutputAndLog cmd
        (dict_update (HostTestEnv._shell_env self) (overrides eu w))
        (HostTestEnv._logfile self) 60
        (unlinked removed fs' (after_default eu w)).
Proof.
  intros Hready.
  destruct (default_env_updates_spec eu w) as (l & Hl & Hov & _).
  destruct (EmptyDexCache_spec self (after_default eu w))
    as (fs' & removed & Hrun & Hcl).
  { by rewrite after_default_fs. }
  rewrite after_default_fs in Hcl.
  exists fs', removed. split; [done|].
  unfold HostTestEnv.RunCommand.
  unfold mbind at 1, M_bind at 1. rewrite Hl.
  unfold mbind at 1, M_bind at 1. rewrite Hrun.
  unfold mbind at 1, M_bind at 1, deref at 1. cbn [unlinked w_heap].
  by rewrite Hov.
Qed.

(** What [check_call] leaves alone. *)
Lemma check_call_frame args f w :
  w_heap (check_call args f w).2 = w_heap w ∧
  w_fs (check_call args f w).2 = w_fs w ∧
  w_procs (check_call args f w).2 = w_procs w ∧
  w_environ (check_call args f w).2 = w_environ w.
Proof.
  unfold check_call. destruct (run_tool args w) as [out code]. cbn.
  by destruct (decide (code = 0)).
Qed.

Lemma for_check_call_frame (l : list string) (g : string → list string) f w :
  w_heap (for_ l (λ x, check_call (g x) f) w).2 = w_heap w ∧
  w_fs (for_ l (λ x, check_call (g x) f) w).2 = w_fs w ∧
  w_procs (for_ l (λ x, check_call (g x) f) w).2 = w_procs w ∧
  w_environ (for_ l (λ x, check_call (g x) f) w).2 = w_environ w.
Proof.
  revert w. induction l as [|x l IH]; intros w; [done|].
  rewrite for_cons.
  pose proof (check_call_frame (g x) f w) as Hf.
  destruct (check_call (g x) f w) as [[[]|e] w1]; cbn in Hf.
  - destruct (IH w1) as (-> & -> & -> & ->). done.
  - done.
Qed.

Lemma device_EmptyDexCache_frame (self : DeviceTestEnv.t) w :
  w_heap (DeviceTestEnv._EmptyDexCache self w).2 = w_heap w ∧
  w_fs (DeviceTestEnv._EmptyDexCache self w).2 = w_fs w ∧
  w_procs (DeviceTestEnv._EmptyDexCache self w).2 = w_procs w ∧
  w_environ (DeviceTestEnv._EmptyDexCache self w).2 = w_environ w.
Proof. apply for_check_call_frame. Qed.

(** [DeviceTestEnv.RunCommand], once the cache clearing went through, is
    the run of the [adb shell] command line. *)
Lemma device_RunCommand_run (self : DeviceTestEnv.t) cmd eu w w1 :
  DeviceTestEnv._EmptyDexCache self (after_default eu w) = (Ok tt, w1) →
  ∃ l,
    default_env_updates eu w = (Ok l, after_default eu w) ∧
    (dict_truthy (overrides eu w) = true → eu = Some l) ∧
    DeviceTestEnv.RunCommand self cmd eu w =
      _RunCommandForOutputAndLog
        (shlex_split
           (DeviceTestEnv.adb_shell_command
              (join " " (map (λ kv, kv.1 +:+ "=" +:+ kv.2)
                             (device_overrides self (overrides eu w))))
              (_CommandListToCommandString cmd)))
        (DeviceTestEnv._shell_env self) (DeviceTestEnv._logfile self) 60
        (device_start self l (overrides eu w) w1).
Proof.
  intros Hrun.
  destruct (default_env_updates_spec eu w) as (l & Hl & Hov & Hsame).
  exists l. split_and!; [done..|].
  pose proof (device_EmptyDexCache_frame self (after_default eu w))
    as (Hheap & _). rewrite Hrun in Hheap. cbn in Hheap.
  rewrite <- Hheap in Hov.
  unfold DeviceTestEnv.RunCommand.
  unfold mbind at 1, M_bind at 1. rewrite Hl.
  unfold mbind at 1, M_bind at 1. rewrite Hrun.
  unfold mbind at 1, M_bind at 1, deref at 1. rewrite Hov.
  unfold device_start, device_overrides.
  destruct (dict_contains "ANDROID_DATA" (overrides eu w)) eqn:Hc.
  - unfold mbind at 1, M_bind at 1, mret at 1, M_ret at 1.
    unfold mbind at 1, M_bind at 1, deref at 1. by rewrite Hov.
  - unfold mbind at 1, M_bind at 1, dict_setitem at 1, modify at 1.
    unfold mbind at 1, M_bind at 1, deref at 1.
    cbn [set_heap w_heap]. rewrite Hov, lookup_insert_eq. cbn [default].
    f_equal. unfold set_heap. by rewrite Hov.
Qed.

(** When the cache clearing fails, so does [RunCommand], with no command
    started and no dict object touched. *)
Lemma device_RunCommand_fails (self : DeviceTestEnv.t) cmd eu w e w1 :
  DeviceTestEnv._EmptyDexCache self (after_default eu w) = (Raise e, w1) →
  DeviceTestEnv.RunCommand self cmd eu w = (Raise e, w1) ∧
  w_heap w1 = w_heap (after_default eu w).
Proof.
  intros Hrun.
  destruct (default_env_updates_spec eu w) as (l & Hl & _).
  pose proof (device_EmptyDexCache_frame self (after_default eu w))
    as (Hheap & _). rewrite Hrun in Hheap. split; [|done].
  unfold DeviceTestEnv.RunCommand.
  unfold mbind at 1, M_bind at 1. rewrite Hl.
  unfold mbind at 1, M_bind at 1. by rewrite Hrun.
Qed.

End run_environment.

(** ** tempfile *)

Section tempfile.
Context `{OS}.

#[local] Arguments random_name : simpl never.

Lemma random_name_no_slash (k : nat) : has_slash (random_name k) = false.
Proof.
  unfold random_name. apply has_slash_of_list. apply Forall_forall.
  intros c (j & <- & _)%list_elem_of_In%in_map_iff.
  apply (nth_Forall (λ c, c ≠ slash)); [|done].
  unfold characters. cbn. by repeat constructor.
Qed.

Lemma random_name_nonempty (k : nat) : random_name k ≠ "".
Proof. done. Qed.

(** A name [tempfile] settles on is one that [create] accepted. *)
Lemma try_names_Ok {A} (create : string → M A) dir pre fuel w a w' :
  exclusive create →
  try_names fuel dir pre create w = (Ok a, w') →
  ∃ k, (w_rng w ≤ k < w_rng w + fuel)%nat ∧
       create (os_path_join dir (pre +:+ random_name k)) (with_rng (S k) w)
       = (Ok a, w').
Proof.
  intros Hex. revert w. induction fuel as [|n IH]; intros w; [done|].
  cbn [try_names]. unfold mbind at 1, M_bind at 1, next_name at 1.
  unfold try_except.
  destruct (create (os_path_join dir (pre +:+ random_name (w_rng w)))
                   (tick_rng w)) as [[a'|e] w1] eqn:Hc.
  - intros [= <- <-]. exists (w_rng w). split; [lia|]. exact Hc.
  - destruct e; try done. apply Hex in Hc as ->.
    intros (k & Hk & Hcreate)%IH. cbn in Hk. exists k. split; [lia|].
    exact Hcreate.
Qed.

(** [tempfile] finds the first free name, if there is one in reach. *)
Lemma try_names_finds {A} (create : string → M A) dir pre fuel w k :
  exclusive create →
  (w_rng w ≤ k < w_rng w + fuel)%nat →
  is_ok (create (os_path_join dir (pre +:+ random_name k))
                (with_rng (S k) w)).1 = true →
  (∀ j v, create (os_path_join dir (pre +:+ random_name j))
                 (with_rng (S j) w) = v →
          is_ok v.1 = true ∨ ∃ q, v.1 = Raise (FileExistsError q)) →
  is_ok (try_names fuel dir pre create w).1 = true.
Proof.
  intros Hex. revert w. induction fuel as [|n IH]; intros w Hk Hok Hall;
    [lia|].
  cbn [try_names]. unfold mbind at 1, M_bind at 1, next_name at 1.
  unfold try_except.
  destruct (create (os_path_join dir (pre +:+ random_name (w_rng w)))
                   (tick_rng w)) as [[a'|e] w1] eqn:Hc; [done|].
  destruct (Hall (w_rng w) _ Hc) as [?|[q Hq]]; [done|].
  cbn in Hq. injection Hq as ->.
  assert (w1 = tick_rng w) as -> by (eapply Hex; exact Hc).
  assert (k ≠ w_rng w) as Hne.
  { intros ->. change (with_rng (S (w_rng w)) w) with (tick_rng w) in Hok.
    by rewrite Hc in Hok. }
  apply IH; cbn; [lia|done..].
Qed.

Lemma os_mkdir_exclusive : exclusive (λ p, os_mkdir p ≫= λ _, mret p).
Proof.
  intros p q w w'. unfold mbind, M_bind, os_mkdir.
  destruct (check_parent p (w_fs w)) as [e|]; [by intros [= _ <-]|].
  destruct (w_fs w !! p); [by intros [= _ <-]|done].
Qed.

Lemma open_excl_exclusive : exclusive open_excl.
Proof.
  intros p q w w'. unfold open_excl.
  destruct (check_parent p (w_fs w)) as [e|]; [by intros [= _ <-]|].
  destruct (w_fs w !! p); [by intros [= _ <-]|done].
Qed.

(** [mkdtemp(dir='/tmp/', prefix='bisection_search_')], when it returns:
    a directory that was not there, made under a random name. *)
Lemma mkdtemp_Ok w p w' :
  mkdtemp "/tmp/" "bisection_search_" w = (Ok p, w') →
  ∃ k, p = "/tmp/bisection_search_" +:+ random_name k ∧
       w_fs w !! p = None ∧
       w' = log_event (EvMkdir p) (set_fs <[p := Dir]> (with_rng (S k) w)).
Proof.
  intros (k & _ & Hc)%try_names_Ok; [|apply os_mkdir_exclusive].
  exists k. revert Hc.
  change (os_path_join "/tmp/" ("bisection_search_" +:+ random_name k))
    with ("/tmp/bisection_search_" +:+ random_name k).
  unfold mbind, M_bind, os_mkdir.
  destruct (check_parent _ _); [done|]. cbn [w_fs with_rng].
  destruct (w_fs w !! _) eqn:Hp; [done|].
  by intros [= <- <-].
Qed.

End tempfile.

(** ** Construction of a host environment *)

Section host_init.
Context `{OS}.

Lemma init_split (x64 : bool) (w : World) :
  HostTestEnv.__init__ x64 w =
  match scratch_setup w with
  | (Ok (p, lf), w1) => (shell_setup x64 p lf w1, w1)
  | (Raise e, w1) => (Raise e, w1)
  end.
Proof.
  unfold HostTestEnv.__init__, scratch_setup.
  rewrite !bind_unfold.
  destruct (mkdtemp _ _ w) as [[p|e] w1]; [|done].
  rewrite !bind_unfold.
  destruct (open_w _ w1) as [[lf|e] w2]; [|done].
  rewrite !bind_unfold.
  destruct (os_mkdir _ w2) as [[[]|e] w3]; [|done].
  rewrite !bind_unfold.
  destruct (for_ _ _ w3) as [[[]|e] w4]; [|done].
  rewrite !bind_unfold.
  unfold mret, M_ret, GetEnvVariableOrError, os_environ_get, shell_setup.
  rewrite !bind_unfold.
  destruct (dict_get "ANDROID_HOST_OUT" (w_environ w4)) as [root|]; [|done].
  unfold mret, M_ret. rewrite !bind_unfold. unfold os_environ_copy.
  rewrite !dict_get_set. repeat (rewrite decide_False by done).
  by destruct (dict_get "PATH" (w_environ w4)).
Qed.

Lemma os_mkdir_Ok (q : string) (w w' : World) :
  os_mkdir q w = (Ok tt, w') →
  w_fs w !! q = None ∧ check_parent q (w_fs w) = None ∧
  w' = log_event (EvMkdir q) (set_fs <[q := Dir]> w).
Proof.
  unfold os_mkdir. destruct (check_parent q (w_fs w)); [done|].
  destruct (w_fs w !! q); [done|]. by intros [= <-].
Qed.

Lemma os_mkdir_runs (q : string) (w : World) :
  w_fs w !! q = None → check_parent q (w_fs w) = None →
  os_mkdir q w = (Ok tt, log_event (EvMkdir q) (set_fs <[q := Dir]> w)).
Proof. unfold os_mkdir. by intros -> ->. Qed.

(** [open(q, 'w')], when it returns: [q] is a regular file, empty, and
    nothing else moved. *)
Lemma check_parent_error (q : string) (fs : gmap string node) (e : exn) :
  check_parent q fs = Some e → is_os_error e = true.
Proof.
  unfold check_parent. destruct (split_last q) as [[d n]|]; [|done].
  case_bool_decide; [done|].
  destruct (fs !! d) as [[i|]|]; [|done|]; by intros [= <-].
Qed.

Lemma check_open_None (q : string) (fs : gmap string node) :
  check_open q fs = None ↔
  q ≠ "" ∧ ends_with_slash q = false ∧ check_parent q fs = None.
Proof.
  unfold check_open. case_bool_decide as Hq.
  - split; [done|]. by intros [? _].
  - destruct (ends_with_slash q).
    + split; [done|]. by intros (_ & ? & _).
    + split; [done|]. by intros (_ & _ & ?).
Qed.

Lemma check_open_error (q : string) (fs : gmap string node) (e : exn) :
  check_open q fs = Some e → is_os_error e = true.
Proof.
  unfold check_open. case_bool_decide; [by intros [= <-]|].
  destruct (ends_with_slash q); [|apply check_parent_error].
  destruct (check_parent (drop_last q) fs) as [e'|] eqn:He; intros [= <-];
    [|done].
  apply check_parent_error in He. by destruct e'.
Qed.

Lemma open_w_Ok (q : string) (w w' : World) (f : file) :
  open_w q w = (Ok f, w') →
  f_name f = q ∧
  w_fs w' !! q = Some (Reg (f_ino f)) ∧
  w_data w' !! f_ino f = Some "" ∧
  (∀ q', q' ≠ q → w_fs w' !! q' = w_fs w !! q') ∧
  w_fs w !! q ≠ Some Dir ∧ check_parent q (w_fs w) = None ∧
  w_environ w' = w_environ w ∧ w_trace w' = w_trace w ∧
  w_heap w' = w_heap w ∧ w_procs w' = w_procs w ∧ w_rng w' = w_rng w ∧
  q ≠ "" ∧ ends_with_slash q = false.
Proof.
  unfold open_w, create_file.
  destruct (check_open q (w_fs w)) eqn:Hco; [done|].
  apply check_open_None in Hco as (Hne & Hsl & Hpar).
  destruct (w_fs w !! q) as [[i|]|] eqn:Hq; [| done |].
  - intros [= <- <-]. cbn. rewrite Hq, lookup_insert_eq. done.
  - intros [= <- <-]. cbn. rewrite !lookup_insert_eq. split_and!; try done.
    intros q' Hq'. by rewrite lookup_insert_ne.
Qed.

Lemma open_w_runs (q : string) (w : World) :
  can_open q (w_fs w) → is_ok (open_w q w).1 = true.
Proof.
  intros (Hne & Hsl & Hpar & Hq). unfold open_w, create_file.
  rewrite (proj2 (check_open_None q (w_fs w))) by done.
  by destruct (w_fs w !! q) as [[i|]|].
Qed.

(** [open(q, 'w')] on a path that cannot be opened raises, and changes
    nothing. *)
Lemma open_w_refuses (q : string) (w : World) :
  ¬ can_open q (w_fs w) →
  ∃ e, open_w q w = (Raise e, w) ∧ is_os_error e = true.
Proof.
  intros Hnot. unfold open_w.
  destruct (check_open q (w_fs w)) as [e|] eqn:Hco.
  - exists e. split; [done|]. by apply check_open_error in Hco.
  - apply check_open_None in Hco as (Hne & Hsl & Hpar).
    destruct (w_fs w !! q) as [[i|]|] eqn:Hq.
    + destruct Hnot. split_and!; try done. by rewrite Hq.
    + by eexists.
    + destruct Hnot. split_and!; try done. by rewrite Hq.
Qed.

Lemma check_parent_in (d n : string) (fs : gmap string node) :
  has_slash n = false → fs !! d = Some Dir →
  check_parent (d +:+ "/" +:+ n) fs = None.
Proof.
  intros Hn Hd. unfold check_parent. rewrite split_last_app by done.
  case_bool_decide; [done|]. by rewrite Hd.
Qed.

Lemma arch_path_assoc (p arch : string) :
  p +:+ "/dalvik-cache/" +:+ arch = (p +:+ "/dalvik-cache") +:+ "/" +:+ arch.
Proof. by rewrite app_assoc_s. Qed.

(** What the scratch area looks like once it is made. *)
Lemma scratch_Ok (w w1 : World) (p : string) (lf : file) :
  scratch_setup w = (Ok (p, lf), w1) →
  (∃ k, p = "/tmp/bisection_search_" +:+ random_name k) ∧
  w_fs w !! p = None ∧
  w_fs w1 !! p = Some Dir ∧
  w_fs w1 !! (p +:+ "/dalvik-cache") = Some Dir ∧
  cache_ready p (w_fs w1) ∧
  f_name lf = p +:+ "/log" ∧
  w_fs w1 !! (p +:+ "/log") = Some (Reg (f_ino lf)) ∧
  w_environ w1 = w_environ w ∧
  w_trace w1 =
    w_trace w ++ EvMkdir p :: EvMkdir (p +:+ "/dalvik-cache") ::
                 map EvMkdir (_DexArchCachePaths p).
Proof.
  unfold scratch_setup. rewrite bind_unfold.
  destruct (mkdtemp _ _ w) as [[p'|e] w1'] eqn:Hmk; [|done].
  apply mkdtemp_Ok in Hmk as (k & Hp & Hnew & ->).
  rewrite bind_unfold.
  destruct (open_w _ _) as [[lf'|e] w2] eqn:Hopen; [|done].
  apply open_w_Ok in Hopen
    as (Hname & Hlog & _ & Hfs2 & _ & _ & Henv2 & Htr2 & _).
  rewrite bind_unfold.
  destruct (os_mkdir _ w2) as [[[]|e] w3] eqn:Hdc; [|done].
  apply os_mkdir_Ok in Hdc as (_ & _ & ->).
  unfold _DexArchCachePaths, DALVIK_CACHE_ARCHS. cbn [map].
  rewrite bind_unfold, for_cons.
  destruct (os_mkdir _ _) as [[[]|e] w4] eqn:H1; [|done].
  apply os_mkdir_Ok in H1 as (_ & _ & ->). rewrite for_cons.
  destruct (os_mkdir _ _) as [[[]|e] w5] eqn:H2; [|done].
  apply os_mkdir_Ok in H2 as (_ & _ & ->). rewrite for_cons.
  destruct (os_mkdir _ _) as [[[]|e] w6] eqn:H3; [|done].
  apply os_mkdir_Ok in H3 as (_ & _ & ->). rewrite for_cons.
  destruct (os_mkdir _ _) as [[[]|e] w7] eqn:H4; [|done].
  apply os_mkdir_Ok in H4 as (_ & _ & ->).
  intros [= <- <- <-]. cbn in Hfs2, Henv2, Htr2.
  assert (Hsub : ∀ b, b ≠ "" → p' +:+ b ≠ p') by apply app_neq_self.
  assert (Hlog' : p' +:+ "/log" ≠ p' +:+ "/dalvik-cache")
    by (by intros ?%(inj (String.app p'))).
  assert (Harch : ∀ a, p' +:+ "/log" ≠ p' +:+ "/dalvik-cache/" +:+ a)
    by (by intros a ?%(inj (String.app p'))).
  split_and!.
  - by exists k.
  - done.
  - cbn. rewrite !lookup_insert_ne by (apply Hsub; done).
    rewrite Hfs2 by (apply not_eq_sym, Hsub; done). cbn.
    by rewrite lookup_insert_eq.
  - cbn. repeat (rewrite lookup_insert; case_decide; [done|]). congruence.
  - intros d Hd. cbn.
    repeat (apply elem_of_cons in Hd as [->|Hd]);
      [..|by apply elem_of_nil in Hd];
      repeat (rewrite lookup_insert; case_decide; [done|]); congruence.
  - done.
  - cbn. rewrite !lookup_insert_ne by (apply not_eq_sym; auto). done.
  - cbn. done.
  - cbn. rewrite Htr2. cbn. by rewrite <- !app_assoc.
Qed.

Lemma wf_absent_child (fs : gmap string node) (d n : string) :
  fs_wf fs → fs !! d = None → d ≠ "" → has_slash n = false →
  fs !! (d +:+ "/" +:+ n) = None.
Proof.
  intros Hwf Hd Hne Hn.
  destruct (fs !! (d +:+ "/" +:+ n)) as [x|] eqn:Hx; [|done].
  destruct (Hwf (d +:+ "/" +:+ n) d n) as [?|Hdir];
    [by rewrite Hx | by apply split_last_app | done | congruence].
Qed.

Lemma tmp_path_parent (n : string) (fs : gmap string node) :
  has_slash n = false → fs !! "/tmp" = Some Dir →
  check_parent ("/tmp/bisection_search_" +:+ n) fs = None.
Proof.
  intros Hn Htmp.
  change ("/tmp/bisection_search_" +:+ n)
    with ("/tmp" +:+ "/" +:+ ("bisection_search_" +:+ n)).
  apply check_parent_in; [|done]. by rewrite has_slash_app, Hn.
Qed.

(** In a well-formed file system with a free name under [/tmp], the scratch
    area gets made. *)
Lemma scratch_runs (w : World) (k : nat) :
  fs_wf (w_fs w) → w_fs w !! "/tmp" = Some Dir →
  (w_rng w ≤ k < w_rng w + TMP_MAX)%nat →
  w_fs w !! ("/tmp/bisection_search_" +:+ random_name k) = None →
  is_ok (scratch_setup w).1 = true.
Proof.
  intros Hwf Htmp Hk Hfree. unfold scratch_setup. rewrite bind_unfold.
  assert (Hmk : is_ok (mkdtemp "/tmp/" "bisection_search_" w).1 = true).
  { apply (try_names_finds _ _ _ _ _ k); [apply os_mkdir_exclusive|done|..].
    - change (os_path_join "/tmp/" ("bisection_search_" +:+ random_name k))
        with ("/tmp/bisection_search_" +:+ random_name k).
      rewrite bind_unfold, os_mkdir_runs; [done|done|].
      apply tmp_path_parent; [apply random_name_no_slash|done].
    - intros j v <-.
      change (os_path_join "/tmp/" ("bisection_search_" +:+ random_name j))
        with ("/tmp/bisection_search_" +:+ random_name j).
      rewrite bind_unfold. unfold os_mkdir.
      rewrite tmp_path_parent by (apply random_name_no_slash || done).
      cbn [w_fs with_rng].
      destruct (w_fs w !! ("/tmp/bisection_search_" +:+ random_name j));
        [right; by eexists | by left]. }
  destruct (mkdtemp _ _ w) as [[p|e] w1] eqn:Hmk'; [|done]. clear Hmk.
  apply mkdtemp_Ok in Hmk' as (k' & Hp & Hnew & ->).
  assert (Hp0 : p ≠ "") by (by rewrite Hp).
  assert (Hsub : ∀ b, b ≠ "" → p +:+ b ≠ p) by apply app_neq_self.
  assert (Hin : ∀ b, b ≠ "" →
            <[p:=Dir]> (w_fs w) !! (p +:+ b) = w_fs w !! (p +:+ b)).
  { intros b Hb. apply lookup_insert_ne, not_eq_sym, Hsub. done. }
  assert (Hlog0 : w_fs w !! (p +:+ "/log") = None)
    by (by apply (wf_absent_child _ p "log")).
  assert (Hdc0 : w_fs w !! (p +:+ "/dalvik-cache") = None)
    by (by apply (wf_absent_child _ p "dalvik-cache")).
  assert (Harch0 : ∀ a, has_slash a = false →
            w_fs w !! (p +:+ "/dalvik-cache/" +:+ a) = None).
  { intros a Ha. rewrite arch_path_assoc. apply wf_absent_child; try done.
    intros Heq. by destruct p. }
  rewrite bind_unfold.
  assert (Hop : is_ok (open_w (p +:+ "/log")
            (log_event (EvMkdir p) (set_fs <[p:=Dir]> (with_rng (S k') w)))).1
          = true).
  { apply open_w_runs. cbn. split_and!.
    - by destruct p.
    - by rewrite ends_with_slash_app.
    - apply (check_parent_in p "log"); [done|]. by rewrite lookup_insert_eq.
    - by rewrite Hin, Hlog0. }
  destruct (open_w _ _) as [[lf|e] w2] eqn:Hopen; [|done]. clear Hop.
  apply open_w_Ok in Hopen as (_ & _ & _ & Hfs2 & _). cbn in Hfs2.
  assert (Hlog' : p +:+ "/dalvik-cache" ≠ p +:+ "/log")
    by (by intros ?%(inj (String.app p))).
  assert (Harch : ∀ a, p +:+ "/dalvik-cache/" +:+ a ≠ p +:+ "/log")
    by (by intros a ?%(inj (String.app p))).
  assert (Hdc2 : w_fs w2 !! (p +:+ "/dalvik-cache") = None).
  { rewrite Hfs2 by done. by rewrite Hin. }
  assert (Harch2 : ∀ a, has_slash a = false →
            w_fs w2 !! (p +:+ "/dalvik-cache/" +:+ a) = None).
  { intros a Ha. rewrite Hfs2 by done. rewrite lookup_insert_ne.
    - by apply Harch0.
    - apply not_eq_sym, Hsub. done. }
  assert (Hp2 : w_fs w2 !! p = Some Dir).
  { rewrite Hfs2 by (apply not_eq_sym, Hsub; done). apply lookup_insert_eq. }
  rewrite bind_unfold, os_mkdir_runs;
    [|done|by apply (check_parent_in p "dalvik-cache")].
  unfold _DexArchCachePaths, DALVIK_CACHE_ARCHS. cbn [map].
  assert (Hne : ∀ a b, a ≠ b →
            p +:+ "/dalvik-cache/" +:+ a ≠ p +:+ "/dalvik-cache/" +:+ b).
  { intros a b Hab Heq. apply (inj (String.app p)) in Heq.
    by apply (inj (String.app "/dalvik-cache/")) in Heq. }
  assert (Hdcne : ∀ a, p +:+ "/dalvik-cache" ≠ p +:+ "/dalvik-cache/" +:+ a).
  { intros a Heq. apply (inj (String.app p)) in Heq.
    change ("/dalvik-cache/" +:+ a) with ("/dalvik-cache" +:+ String slash a)
      in Heq.
    by apply (app_neq_self "/dalvik-cache" (String slash a)). }
  rewrite bind_unfold.
  repeat
    (rewrite for_cons, os_mkdir_runs;
     [| cbn; rewrite ?lookup_insert_ne by (apply Hne || apply Hdcne; done);
        by apply Harch2
      | cbn; rewrite arch_path_assoc; apply check_parent_in; [done|];
        rewrite <- ?arch_path_assoc;
        rewrite ?lookup_insert_ne
          by (apply not_eq_sym, Hdcne);
        apply lookup_insert_eq ]).
  done.
Qed.

End host_init.

(** ** Files of the host environment *)

Section host_files.
Context `{OS}.

Lemma file_writelines_spec (f : file) (l : list string) (w : World) :
  ∃ w', file_writelines f l w = (Ok tt, w') ∧
        content f w' = content f w +:+ concat_all l ∧
        w_fs w' = w_fs w ∧ w_trace w' = w_trace w ∧
        w_heap w' = w_heap w.
Proof.
  unfold file_writelines. revert w.
  induction l as [|x l IH]; intros w.
  - exists w. by rewrite app_nil_r_s.
  - rewrite for_cons. unfold file_write at 1, modify.
    destruct (IH (set_data
                (λ d, <[f_ino f := default "" (d !! f_ino f) +:+ x]> d) w))
      as (w' & Hrun & Hc & Hfs & Htr & Hh).
    exists w'. split_and!; try done.
    rewrite Hc. unfold content. cbn. rewrite lookup_insert_eq. cbn.
    by rewrite app_assoc_s.
Qed.

Lemma split_last_neq (p d n : string) : split_last p = Some (d, n) → d ≠ p.
Proof.
  intros [-> _]%split_last_Some Heq. symmetry in Heq.
  by apply app_neq_self in Heq.
Qed.

Lemma check_parent_insert_self (p : string) (x : node)
    (fs : gmap string node) :
  check_parent p (<[p := x]> fs) = check_parent p fs.
Proof.
  unfold check_parent. destruct (split_last p) as [[d n]|] eqn:Hp; [|done].
  apply split_last_neq in Hp. by rewrite lookup_insert_ne.
Qed.

(** A file that [open(q, 'w')] made can be opened again. *)
Lemma open_w_reopen (q : string) (w w' : World) (f : file) :
  open_w q w = (Ok f, w') → can_open q (w_fs w').
Proof.
  unfold open_w, create_file. destruct (check_open q (w_fs w)) eqn:Hco;
    [done|].
  apply check_open_None in Hco as (Hne & Hsl & Hc).
  destruct (w_fs w !! q) as [[i|]|] eqn:Hq; [| done |].
  - intros [= <- <-]. cbn. split_and!; try done. by rewrite Hq.
  - intros [= <- <-]. cbn. split_and!; try done.
    + by rewrite check_parent_insert_self.
    + by rewrite lookup_insert_eq.
Qed.

Lemma open_excl_Ok (q : string) (w w' : World) (f : file) :
  open_excl q w = (Ok f, w') →
  f_name f = q ∧ w_fs w !! q = None ∧
  w_fs w' !! q = Some (Reg (f_ino f)) ∧
  w_data w' !! f_ino f = Some "" ∧
  (∀ q', q' ≠ q → w_fs w' !! q' = w_fs w !! q') ∧
  check_parent q (w_fs w') = None.
Proof.
  unfold open_excl, create_file.
  destruct (check_parent q (w_fs w)) eqn:Hc; [done|].
  destruct (w_fs w !! q) as [x|] eqn:Hq; [done|].
  intros [= <- <-]. cbn. rewrite !lookup_insert_eq, check_parent_insert_self.
  split_and!; try done. intros q' Hq'. by rewrite lookup_insert_ne.
Qed.

(** [HostTestEnv.WriteLines] on a path that can be opened for writing. *)
Lemma host_WriteLines_spec (self : HostTestEnv.t) q lines w :
  can_open q (w_fs w) →
  ∃ w', HostTestEnv.WriteLines self q lines w = (Ok tt, w') ∧
        read_path q w' = Some (concat_all (map (λ l, l +:+ nl) lines)) ∧
        (∀ q', q' ≠ q → w_fs w' !! q' = w_fs w !! q').
Proof.
  intros Hcan. unfold HostTestEnv.WriteLines. rewrite bind_unfold.
  pose proof (open_w_runs q w Hcan) as Hok.
  destruct (open_w q w) as [[f|e] w1] eqn:Hopen; [|done].
  apply open_w_Ok in Hopen as (_ & Hq & Hdata & Hfs & _).
  destruct (file_writelines_spec f (map (λ l, l +:+ nl) lines) w1)
    as (w' & Hrun & Hc & Hfs' & _).
  exists w'. split_and!; [done| |by intros q' Hq'; rewrite Hfs', Hfs].
  unfold read_path. rewrite Hfs', Hq.
  unfold content in Hc. by rewrite Hc, Hdata.
Qed.

Lemma host_CreateFile_named (self : HostTestEnv.t) name w p w' :
  HostTestEnv.CreateFile self (Some name) w = (Ok p, w') →
  p = HostTestEnv._env_path self +:+ "/" +:+ name ∧
  read_path p w' = Some "" ∧
  can_open p (w_fs w') ∧
  (∀ q, q ≠ p → w_fs w' !! q = w_fs w !! q).
Proof.
  unfold HostTestEnv.CreateFile. rewrite bind_unfold.
  destruct (open_w _ w) as [[f|e] w1] eqn:Hopen; [|done].
  intros [= <- <-].
  pose proof (open_w_reopen _ _ _ _ Hopen) as Hcan.
  apply open_w_Ok in Hopen as (Hname & Hq & Hdata & Hfs & _).
  rewrite Hname. split_and!; try done.
  unfold read_path. by rewrite Hq, Hdata.
Qed.

Lemma NamedTemporaryFile_Ok (dir : string) (w w' : World) (f : file) :
  NamedTemporaryFile dir w = (Ok f, w') →
  ∃ k, f_name f = os_path_join dir ("tmp" +:+ random_name k) ∧
       w_fs w !! f_name f = None ∧
       read_path (f_name f) w' = Some "" ∧
       check_parent (f_name f) (w_fs w') = None ∧
       w_fs w' !! f_name f ≠ Some Dir ∧
       (∀ q, q ≠ f_name f → w_fs w' !! q = w_fs w !! q).
Proof.
  intros (k & _ & Hc)%try_names_Ok; [|apply open_excl_exclusive].
  apply open_excl_Ok in Hc as (Hname & Hnew & Hq & Hdata & Hfs & Hpar).
  exists k. rewrite Hname. split_and!; try done.
  - unfold read_path. by rewrite Hq, Hdata.
  - by rewrite Hq.
Qed.

(** The paths [tempfile] tries name files. *)
Lemma temp_path_names_file (dir : string) (k : nat) :
  os_path_join dir ("tmp" +:+ random_name k) ≠ "" ∧
  ends_with_slash (os_path_join dir ("tmp" +:+ random_name k)) = false.
Proof.
  assert (Hb : ends_with_slash ("tmp" +:+ random_name k) = false).
  { apply has_slash_ends. by rewrite has_slash_app, random_name_no_slash. }
  unfold os_path_join. case_bool_decide as Hd; [done|].
  destruct (ends_with_slash dir).
  - split; [by destruct dir|]. by rewrite ends_with_slash_app.
  - split; [by destruct dir|]. by rewrite !ends_with_slash_app.
Qed.

Lemma host_CreateFile_unnamed (self : HostTestEnv.t) w p w' :
  HostTestEnv.CreateFile self None w = (Ok p, w') →
  (∃ k, p = os_path_join (HostTestEnv._env_path self)
                         ("tmp" +:+ random_name k)) ∧
  w_fs w !! p = None ∧
  read_path p w' = Some "" ∧
  can_open p (w_fs w') ∧
  (∀ q, q ≠ p → w_fs w' !! q = w_fs w !! q).
Proof.
  unfold HostTestEnv.CreateFile. rewrite bind_unfold.
  destruct (NamedTemporaryFile _ w) as [[f|e] w1] eqn:Hopen; [|done].
  intros [= <- <-].
  apply NamedTemporaryFile_Ok in Hopen
    as (k & Hname & Hnew & Hread & Hpar & Hdir & Hfs).
  split; [by exists k|]. split_and!; try done.
  rewrite Hname in Hpar, Hdir |- *.
  destruct (temp_path_names_file (HostTestEnv._env_path self) k) as [Hne Hsl].
  by split_and!.
Qed.

Lemma ends_with_slash_split (a : string) :
  ends_with_slash a = true → ∃ a', a = a' +:+ "/".
Proof.
  induction a as [|c a IH]; [done|]. cbn.
  destruct a as [|c' a].
  - intros ->%bool_decide_eq_true. by exists "".
  - intros [a' ->]%IH. by exists (String c a').
Qed.

Lemma basename_join (a b : string) :
  has_slash b = false → basename (os_path_join a b) = b.
Proof.
  intros Hb. unfold os_path_join. case_bool_decide.
  - by apply basename_no_slash.
  - destruct (ends_with_slash a) eqn:Ha.
    + apply ends_with_slash_split in Ha as [a' ->].
      rewrite app_assoc_s. by apply basename_app.
    + by apply basename_app.
Qed.

(** The path [DeviceTestEnv.CreateFile] returns, when it returns. *)
Lemma device_CreateFile_Ok (self : DeviceTestEnv.t) name w p w' :
  DeviceTestEnv.CreateFile self name w = (Ok p, w') →
  match name with
  | Some name => p = DeviceTestEnv._device_env_path self +:+ "/" +:+ name
  | None => ∃ k, p = DeviceTestEnv._device_env_path self +:+ "/" +:+
                     ("tmp" +:+ random_name k)
  end.
Proof.
  unfold DeviceTestEnv.CreateFile. rewrite bind_unfold.
  destruct (NamedTemporaryFile _ w) as [[f|e] w1] eqn:Hopen; [|done].
  apply NamedTemporaryFile_Ok in Hopen as (k & Hname & _).
  unfold finally_. rewrite bind_unfold.
  destruct (DeviceTestEnv._AdbPush _ _ _ _) as [[[]|e] w2].
  - unfold mret, M_ret. destruct (close_delete f w2) as [[[]|e] w3]; [|done].
    intros [= <- <-]. destruct name as [name|]; [done|]. exists k.
    rewrite Hname, basename_join; [done|].
    by rewrite has_slash_app, random_name_no_slash.
  - by destruct (close_delete f w2) as [[[]|?] w3].
Qed.

End host_files.

(** ** The contract of the command runner *)

Section runner_contract.
Context `{OS}.

Lemma completes_or_exceeds (c : child) (timeout : N) :
  (∃ d, completes_within c timeout d) ∨ exceeds c timeout.
Proof.
  unfold completes_within, exceeds. destruct (c_duration c) as [d|]; [|by right].
  destruct (N.le_gt_cases d timeout); [left; eauto | by right].
Qed.

Lemma timeout_contract_run cmd env logfile timeout w :
  exceeds (spawn cmd env w) timeout →
  timeout_contract cmd env logfile timeout w
    (_RunCommandForOutputAndLog cmd env logfile timeout w).
Proof.
  intros Hex. rewrite run_timeout by done. unfold timeout_contract. cbn.
  split_and!; try done.
  - eexists. split; [apply lookup_snoc_length|done].
  - unfold content. cbn. rewrite lookup_insert_eq. cbn.
    reflexivity.
  - unfold content at 1. cbn. rewrite lookup_insert_eq. cbn.
    apply last_line_transcript.
Qed.

Lemma completion_contract_run cmd env logfile timeout d w :
  completes_within (spawn cmd env w) timeout d →
  completion_contract cmd env logfile d w
    (_RunCommandForOutputAndLog cmd env logfile timeout w).
Proof.
  intros Hc. rewrite (run_completes _ _ _ _ _ d) by done.
  unfold completion_contract. cbn. split_and!; try done.
  unfold content. cbn. rewrite lookup_insert_eq. cbn.
  reflexivity.
Qed.

(** The runner always returns, and touches neither the file system nor the
    dict objects. *)
Lemma run_frame cmd env logfile timeout w :
  is_ok (_RunCommandForOutputAndLog cmd env logfile timeout w).1 = true ∧
  w_fs (_RunCommandForOutputAndLog cmd env logfile timeout w).2 = w_fs w ∧
  w_heap (_RunCommandForOutputAndLog cmd env logfile timeout w).2 = w_heap w ∧
  ∃ rest,
    w_trace (_RunCommandForOutputAndLog cmd env logfile timeout w).2
    = w_trace w ++ EvPopen cmd env :: rest ∧
    (rest = [] ∨ rest = [EvKill (length (w_procs w))]).
Proof.
  destruct (completes_or_exceeds (spawn cmd env w) timeout) as [[d Hc]|Hex].
  - rewrite (run_completes _ _ _ _ _ d) by done. cbn. split_and!; try done.
    exists []. by split; [|left].
  - rewrite run_timeout by done. cbn. split_and!; try done.
    exists [EvKill (length (w_procs w))]. by split; [|right].
Qed.

End runner_contract.

(** ** The claims about the command runner *)

Section runner_claims.
Context `{OS}.

(** C1. A command that is still running when the timeout expires is killed;
    [_RunCommandForOutputAndLog] returns what the command printed until
    then together with the exit code 1, whatever the status of the child
    itself (here that of a killed process), and the log gets one block
    whose last line reads [Return code: TIMEOUT], a token no return code
    is ever printed as.  [RunCommand] of the host environment (whose cache
    directories exist) and of the device environment (whose cache clearing
    went through) end in that call, and so return the same. *)
Theorem timeout_is_reported :
  (∀ cmd env logfile timeout w,
     exceeds (spawn cmd env w) timeout →
     timeout_contract cmd env logfile timeout w
       (_RunCommandForOutputAndLog cmd env logfile timeout w)) ∧
  (∀ (self : HostTestEnv.t) cmd eu w,
     cache_ready (HostTestEnv._env_path self) (w_fs w) →
     (∀ env w1, exceeds (spawn cmd env w1) 60) →
     ∃ env w1,
       w_data w1 = w_data w ∧
       timeout_contract cmd env (HostTestEnv._logfile self) 60 w1
         (HostTestEnv.RunCommand self cmd eu w)) ∧
  (∀ (self : DeviceTestEnv.t) cmd eu w,
     is_ok (DeviceTestEnv._EmptyDexCache self (after_default eu w)).1 = true →
     (∀ env w1,
        exceeds (spawn (device_argv self cmd (overrides eu w)) env w1) 60) →
     ∃ env w1,
       timeout_contract (device_argv self cmd (overrides eu w)) env
         (DeviceTestEnv._logfile self) 60 w1
         (DeviceTestEnv.RunCommand self cmd eu w)) ∧
  (∀ z : Z, pretty z ≠ "TIMEOUT").
Proof.
  split_and!.
  - intros. by apply timeout_contract_run.
  - intros self cmd eu w Hready Hslow.
    destruct (host_RunCommand_run self cmd eu w Hready)
      as (fs' & removed & _ & ->).
    eexists _, _. split; [|apply timeout_contract_run, Hslow].
    apply after_default_data.
  - intros self cmd eu w Hok Hslow.
    destruct (DeviceTestEnv._EmptyDexCache self (after_default eu w))
      as [[[]|e] w1] eqn:Hclear; [|done].
    destruct (device_RunCommand_run self cmd eu w w1 Hclear)
      as (l & _ & _ & ->).
    eexists _, _. apply timeout_contract_run, Hslow.
  - apply TIMEOUT_not_a_code.
Qed.

(** C2. A command that exits by itself within the timeout: the runner
    returns the pair of everything it printed and its own exit code, as a
    value, whatever the code is; nothing is raised. *)
Theorem completion_is_returned :
  (∀ cmd env logfile timeout d w,
     completes_within (spawn cmd env w) timeout d →
     completion_contract cmd env logfile d w
       (_RunCommandForOutputAndLog cmd env logfile timeout w)) ∧
  (∀ (self : HostTestEnv.t) cmd eu w,
     cache_ready (HostTestEnv._env_path self) (w_fs w) →
     (∀ env w1, ∃ d, completes_within (spawn cmd env w1) 60 d) →
     ∃ env w1 d,
       w_data w1 = w_data w ∧
       completes_within (spawn cmd env w1) 60 d ∧
       completion_contract cmd env (HostTestEnv._logfile self) d w1
         (HostTestEnv.RunCommand self cmd eu w)) ∧
  (∀ (self : DeviceTestEnv.t) cmd eu w,
     is_ok (DeviceTestEnv._EmptyDexCache self (after_default eu w)).1 = true →
     (∀ env w1, ∃ d,
        completes_within
          (spawn (device_argv self cmd (overrides eu w)) env w1) 60 d) →
     ∃ env w1 d,
       completion_contract (device_argv self cmd (overrides eu w)) env
         (DeviceTestEnv._logfile self) d w1
         (DeviceTestEnv.RunCommand self cmd eu w)).
Proof.
  split_and!.
  - intros. by apply (completion_contract_run _ _ _ timeout).
  - intros self cmd eu w Hready Hfast.
    destruct (host_RunCommand_run self cmd eu w Hready)
      as (fs' & removed & _ & ->).
    edestruct Hfast as [d Hd]. eexists _, _, d.
    split; [apply after_default_data|]. split; [exact Hd|].
    by apply (completion_contract_run _ _ _ 60).
  - intros self cmd eu w Hok Hfast.
    destruct (DeviceTestEnv._EmptyDexCache self (after_default eu w))
      as [[[]|e] w1] eqn:Hclear; [|done].
    destruct (device_RunCommand_run self cmd eu w w1 Hclear)
      as (l & _ & _ & ->).
    edestruct Hfast as [d Hd]. eexists _, _, d.
    apply (completion_contract_run _ _ _ 60), Hd.
Qed.

(** C3. Every call of [_RunCommandForOutputAndLog] returns, and adds one
    block to the log and nothing else to any file: the line [Command:], the
    arguments each between double quotes and joined by spaces, the output it
    returns, and the line [Return code: ...] with [TIMEOUT] or the code it
    returns.  The child was started with the argument list itself. *)
Theorem one_transcript_per_call cmd env logfile timeout w :
  let out := _RunCommandForOutputAndLog cmd env logfile timeout w in
  ∃ output ret_code status rest,
    out.1 = Ok (output, ret_code) ∧
    content logfile out.2 =
      content logfile w +:+
      "Command:" +:+ nl +:+
      join " " (map (λ segment, dq +:+ segment +:+ dq) cmd) +:+ nl +:+
      output +:+ nl +:+
      "Return code: " +:+ status +:+ nl ∧
    (status = "TIMEOUT" ∧ ret_code = Some 1 ∨
     ∃ z, status = pretty z ∧ ret_code = Some z) ∧
    (∀ i, i ≠ f_ino logfile → w_data out.2 !! i = w_data w !! i) ∧
    w_fs out.2 = w_fs w ∧
    w_trace out.2 = w_trace w ++ EvPopen cmd env :: rest ∧
    (rest = [] ∨ rest = [EvKill (length (w_procs w))]).
Proof.
  intros out. subst out.
  destruct (completes_or_exceeds (spawn cmd env w) timeout) as [[d Hc]|Hex].
  - rewrite (run_completes _ _ _ _ _ d) by done. cbn.
    exists (c_output (spawn cmd env w) d), (Some (c_exit (spawn cmd env w))),
      (pretty (c_exit (spawn cmd env w))), [].
    split_and!; try done.
    + unfold content at 1. cbn. by rewrite lookup_insert_eq.
    + right. by eexists.
    + intros i Hi. by rewrite lookup_insert_ne.
    + by left.
  - rewrite run_timeout by done. cbn.
    exists (c_output (spawn cmd env w) timeout), (Some 1), "TIMEOUT",
      [EvKill (length (w_procs w))].
    split_and!; try done.
    + unfold content at 1. cbn. by rewrite lookup_insert_eq.
    + by left.
    + intros i Hi. by rewrite lookup_insert_ne.
    + by right.
Qed.

End runner_claims.

(** The cache directories of the sample host environment exist. *)
Lemma sample_cache_ready :
  cache_ready (HostTestEnv._env_path Sample.host) (w_fs Sample.w_host).
Proof.
  intros d Hd. unfold _DexArchCachePaths, DALVIK_CACHE_ARCHS in Hd.
  cbn [map] in Hd.
  repeat (apply elem_of_cons in Hd as [->|Hd]); try (vm_compute; reflexivity).
  by apply elem_of_nil in Hd.
Qed.

(** [sleep 100] under the sixty seconds of [RunCommand], run directly and
    through the sample host environment. *)
Lemma timeout_is_reported_witness :
  @timeout_contract Sample.os ["sleep"; "100"] []
    (HostTestEnv._logfile Sample.host) 60 Sample.w_host
    (@_RunCommandForOutputAndLog Sample.os ["sleep"; "100"] []
       (HostTestEnv._logfile Sample.host) 60 Sample.w_host) ∧
  ∃ env w1,
    w_data w1 = w_data Sample.w_host ∧
    @timeout_contract Sample.os ["sleep"; "100"] env
      (HostTestEnv._logfile Sample.host) 60 w1
      (@HostTestEnv.RunCommand Sample.os Sample.host ["sleep"; "100"] None
         Sample.w_host).
Proof.
  split.
  - apply (proj1 (@timeout_is_reported Sample.os)). reflexivity.
  - apply (proj1 (proj2 (@timeout_is_reported Sample.os))).
    + exact sample_cache_ready.
    + intros env w1. reflexivity.
Defined.

(** [false], which exits at once with status 1. *)
Lemma completion_is_returned_witness :
  @completion_contract Sample.os ["false"] []
    (HostTestEnv._logfile Sample.host) 0 Sample.w_host
    (@_RunCommandForOutputAndLog Sample.os ["false"] []
       (HostTestEnv._logfile Sample.host) 60 Sample.w_host) ∧
  ∃ env w1 d,
    w_data w1 = w_data Sample.w_host ∧
    completes_within (@spawn Sample.os ["false"] env w1) 60 d ∧
    @completion_contract Sample.os ["false"] env
      (HostTestEnv._logfile Sample.host) d w1
      (@HostTestEnv.RunCommand Sample.os Sample.host ["false"] None
         Sample.w_host).
Proof.
  split.
  - apply (proj1 (@completion_is_returned Sample.os)). split; [reflexivity|].
    by vm_compute.
  - apply (proj1 (proj2 (@completion_is_returned Sample.os))).
    + exact sample_cache_ready.
    + intros env w1. exists 0%N. split; [reflexivity|]. by vm_compute.
Defined.

(** ** The claims about the host environment *)

Section host_claims.
Context `{OS}.

Lemma after_default_trace eu w : w_trace (after_default eu w) = w_trace w.
Proof. unfold after_default. by destruct (dict_truthy _). Qed.

Lemma arch_no_slash (a : string) :
  a ∈ DALVIK_CACHE_ARCHS → has_slash a = false.
Proof.
  unfold DALVIK_CACHE_ARCHS. intros Ha.
  repeat (apply elem_of_cons in Ha as [->|Ha]); try done.
  by apply elem_of_nil in Ha.
Qed.

Lemma elem_of_arch_paths (env_path d : string) :
  d ∈ _DexArchCachePaths env_path ↔
  ∃ a, a ∈ DALVIK_CACHE_ARCHS ∧ d = env_path +:+ "/dalvik-cache/" +:+ a.
Proof.
  unfold _DexArchCachePaths. rewrite list_elem_of_In, in_map_iff.
  split; intros (a & Ha & Hb); exists a.
  - by rewrite list_elem_of_In.
  - by rewrite <- list_elem_of_In.
Qed.

(** What lies below a subdirectory of an arch directory is not directly
    inside any arch directory. *)
Lemma not_directly_deeper (env_path d below : string) :
  d ∈ _DexArchCachePaths env_path → has_slash below = true →
  ¬ directly_in (_DexArchCachePaths env_path) (d +:+ "/" +:+ below).
Proof.
  intros (a & Ha & ->)%elem_of_arch_paths Hbelow
         (d' & n & (b & Hb & ->)%elem_of_arch_paths & Hn & Heq).
  destruct (split_last below) as [[r1 r2]|] eqn:Hs;
    [|apply split_last_None in Hs; congruence].
  apply split_last_Some in Hs as [-> Hr2].
  assert (split_last
            (((env_path +:+ "/dalvik-cache/" +:+ a) +:+ "/" +:+ r1)
             +:+ "/" +:+ r2)
          = Some ((env_path +:+ "/dalvik-cache/" +:+ b), n)) as Hsplit.
  { rewrite <- (split_last_app _ n) by done. f_equal. rewrite <- Heq.
    by rewrite !app_assoc_s. }
  rewrite split_last_app in Hsplit by done. injection Hsplit as Hd _.
  rewrite !app_assoc_s in Hd.
  apply (inj (String.app env_path)), (inj (String.app "/dalvik-cache/")) in Hd.
  apply arch_no_slash in Hb. rewrite <- Hd in Hb.
  rewrite has_slash_app in Hb. cbn in Hb. by rewrite orb_true_r in Hb.
Qed.

Lemma cleared_before_run_intro (self : HostTestEnv.t) cmd eu w :
  cache_ready (HostTestEnv._env_path self) (w_fs w) →
  cleared_before_run self cmd eu w.
Proof.
  intros Hready.
  destruct (host_RunCommand_run self cmd eu w Hready)
    as (fs' & removed & (Ha & Hb & Hc) & Hrun).
  set (env := dict_update (HostTestEnv._shell_env self) (overrides eu w))
    in Hrun.
  set (w1 := unlinked removed fs' (after_default eu w)) in Hrun.
  destruct (run_frame cmd env (HostTestEnv._logfile self) 60 w1)
    as (_ & Hfs & _ & rest & Htrace & Hrest).
  exists fs', removed, env, rest. cbv zeta. rewrite Hrun. split_and!.
  - done.
  - rewrite Htrace. unfold w1. cbn.
    by rewrite after_default_trace, <- app_assoc.
  - destruct Hrest as [->| ->]; [by left|right; by eexists].
  - done.
  - intros p Hr Hin. split; [by apply Ha|]. by apply Hc.
  - intros p Hp. by apply Hc.
  - done.
  - intros p Hp. rewrite Hb; [done|]. rewrite Hp. by intros [? _].
  - intros d below Hd Hbelow. apply Hb. intros [_ Hin].
    by apply (not_directly_deeper _ _ _ Hd Hbelow).
  - by rewrite Hfs.
Qed.

(** The cache directories outlive a run, so that they are there for the
    next one, as they are after construction ([init_Ok] below). *)
Lemma host_RunCommand_keeps_ready (self : HostTestEnv.t) cmd eu w :
  cache_ready (HostTestEnv._env_path self) (w_fs w) →
  cache_ready (HostTestEnv._env_path self)
              (w_fs (HostTestEnv.RunCommand self cmd eu w).2).
Proof.
  intros Hready.
  destruct (cleared_before_run_intro self cmd eu w Hready)
    as (fs' & removed & env & rest & _ & _ & _ & _ & _ & _ & _ & Hdirs & _ & ->).
  intros d Hd. by apply Hdirs, Hready.
Qed.

(** In a sequence of runs every one clears the cache before its command. *)
Lemma every_call_clears (self : HostTestEnv.t) calls w :
  cache_ready (HostTestEnv._env_path self) (w_fs w) →
  Forall2 (λ call wi, cleared_before_run self call.1 call.2 wi)
          calls (run_sequence self calls w).
Proof.
  revert w. induction calls as [|[cmd eu] calls IH]; intros w Hready; cbn.
  - constructor.
  - constructor; [by apply cleared_before_run_intro|].
    by apply IH, host_RunCommand_keeps_ready.
Qed.

(** C4. On a host environment whose cache directories exist, every
    [RunCommand] first unlinks the regular files directly inside each of
    the four arch cache directories (arm, arm64, x86, x86_64), all of them
    and only them, and then starts the command; directories and whatever
    is below a subdirectory are left as they were. *)
Theorem cache_emptied_before_run (self : HostTestEnv.t) cmd eu w :
  cache_ready (HostTestEnv._env_path self) (w_fs w) →
  cleared_before_run self cmd eu w.
Proof. apply cleared_before_run_intro. Qed.

Lemma host_bindings_wf x64 env_path android_root old_path :
  dict_wf (host_bindings x64 env_path android_root old_path).
Proof. unfold dict_wf. cbn. apply (bool_decide_unpack _). by vm_compute. Qed.

(** What the constructor returns, when it returns. *)
Lemma init_Ok (x64 : bool) (w0 w0' : World) (self : HostTestEnv.t) :
  HostTestEnv.__init__ x64 w0 = (Ok self, w0') →
  ∃ android_root old_path,
    dict_get "ANDROID_HOST_OUT" (w_environ w0) = Some android_root ∧
    dict_get "PATH" (w_environ w0) = Some old_path ∧
    HostTestEnv._shell_env self =
      dict_update (w_environ w0)
        (host_bindings x64 (HostTestEnv._env_path self)
                       android_root old_path) ∧
    (∃ k, HostTestEnv._env_path self
          = "/tmp/bisection_search_" +:+ random_name k) ∧
    w_fs w0 !! HostTestEnv._env_path self = None ∧
    w_fs w0' !! HostTestEnv._env_path self = Some Dir ∧
    cache_ready (HostTestEnv._env_path self) (w_fs w0').
Proof.
  rewrite init_split.
  destruct (scratch_setup w0) as [[[p lf]|e] w1] eqn:Hs; [|done].
  apply scratch_Ok in Hs as (Hk & Hnew & Hp & _ & Hready & _ & _ & Henv & _).
  unfold shell_setup. rewrite Henv.
  destruct (dict_get "ANDROID_HOST_OUT" (w_environ w0)) as [root|]; [|done].
  destruct (dict_get "PATH" (w_environ w0)) as [old|]; [|done].
  intros [= <- <-]. by exists root, old.
Qed.

(** C5. For a host environment made by the constructor, and any override
    map, the environment the command is started with gives a variable the
    value of the override map if it binds it, else the value the
    constructor bound it to if it is one of ANDROID_DATA, ANDROID_ROOT,
    LD_LIBRARY_PATH, DYLD_LIBRARY_PATH, PATH and LD_USE_LOAD_BIAS, else the
    value inherited from the host environment. *)
Theorem override_precedence x64 w0 w0' (self : HostTestEnv.t) cmd eu w :
  HostTestEnv.__init__ x64 w0 = (Ok self, w0') →
  cache_ready (HostTestEnv._env_path self) (w_fs w) →
  dict_wf (overrides eu w) →
  child_env_layers x64 w0 self cmd eu w.
Proof.
  intros (root & old & Hroot & Hold & Henv & _)%init_Ok Hready Hwf.
  destruct (host_RunCommand_run self cmd eu w Hready)
    as (fs' & removed & _ & Hrun).
  set (env := dict_update (HostTestEnv._shell_env self) (overrides eu w))
    in Hrun.
  destruct (run_frame cmd env (HostTestEnv._logfile self) 60
              (unlinked removed fs' (after_default eu w)))
    as (_ & _ & _ & rest & Htrace & Hrest).
  exists root, old, env, removed, rest. split_and!; try done.
  - rewrite Hrun, Htrace. cbn. by rewrite after_default_trace, <- app_assoc.
  - destruct Hrest as [->| ->]; [by left|right; by eexists].
  - intros var. unfold env. rewrite dict_get_update by done.
    destruct (dict_get var (overrides eu w)); [done|].
    rewrite Henv. apply dict_get_update, host_bindings_wf.
Qed.

End host_claims.

(** The sample host environment, with its stale file and its
    subdirectory. *)
Lemma cache_emptied_before_run_witness :
  @cleared_before_run Sample.os Sample.host ["false"] None Sample.w_host.
Proof.
  apply (@cache_emptied_before_run Sample.os). exact sample_cache_ready.
Defined.

Lemma sample_host_made :
  @HostTestEnv.__init__ Sample.os false Sample.w0
  = (Ok Sample.host,
     (@HostTestEnv.__init__ Sample.os false Sample.w0).2).
Proof. by vm_compute. Qed.

(** A run of the sample host environment under the caller's dict
    [{'ART_FLAG': '1'}]. *)
Lemma override_precedence_witness :
  @child_env_layers Sample.os false Sample.w0 Sample.host ["false"] (Some 0%nat)
    Sample.w_host.
Proof.
  apply (@override_precedence Sample.os false Sample.w0
           (@HostTestEnv.__init__ Sample.os false Sample.w0).2 Sample.host).
  - exact sample_host_made.
  - exact sample_cache_ready.
  - unfold dict_wf. apply (bool_decide_unpack _). by vm_compute.
Defined.

(** ** The claims about files and construction *)

Section file_claims.
Context `{OS}.

Lemma written_back_intro (self : HostTestEnv.t) q lines w :
  can_open q (w_fs w) → written_back self q lines w.
Proof.
  intros Hcan.
  destruct (host_WriteLines_spec self q lines w Hcan)
    as (w' & Hrun & Hread & Hfs).
  exists w'. split_and!; try done.
  intros text Htext. rewrite Hread in Htext. injection Htext as <-. split.
  - intros <-. by apply lines_of_clean.
  - apply lines_of_concat.
Qed.

(** C6, as the code has it.  [WriteLines] on a path that can be opened for
    writing replaces the content of the file, whatever it was, by the given
    lines, in order, each followed by one line feed; on any other path it
    raises the error of [open] and changes nothing.  After [CreateFile] the
    path it returned is a path that can be opened.  The file read back line
    by line gives the lines written when none of them has a line feed
    inside, and only then. *)
Theorem lines_written_are_read_back (self : HostTestEnv.t) lines :
  (∀ q w, can_open q (w_fs w) → written_back self q lines w) ∧
  (∀ q w, ¬ can_open q (w_fs w) →
          ∃ e, HostTestEnv.WriteLines self q lines w = (Raise e, w) ∧
               is_os_error e = true) ∧
  (∀ name w p w1,
     HostTestEnv.CreateFile self name w = (Ok p, w1) →
     written_back self p lines w1).
Proof.
  split_and!.
  - intros. by apply written_back_intro.
  - intros q w Hnot. destruct (open_w_refuses q w Hnot) as (e & Hopen & He).
    exists e. split; [|done].
    unfold HostTestEnv.WriteLines. by rewrite bind_unfold, Hopen.
  - intros [name|] w p w1 Hc.
    + apply host_CreateFile_named in Hc as (_ & _ & Hcan & _).
      by apply written_back_intro.
    + apply host_CreateFile_unnamed in Hc as (_ & _ & _ & Hcan & _).
      by apply written_back_intro.
Qed.

Lemma os_mkdir_raises q w e w' :
  os_mkdir q w = (Raise e, w') → is_os_error e = true.
Proof.
  unfold os_mkdir, check_parent.
  destruct (split_last q) as [[d n]|].
  - case_bool_decide.
    + destruct (w_fs w !! q); [by intros [= <- _]|done].
    + destruct (w_fs w !! d) as [[i|]|]; try by intros [= <- _].
      destruct (w_fs w !! q); [by intros [= <- _]|done].
  - destruct (w_fs w !! q); [by intros [= <- _]|done].
Qed.

Lemma open_w_raises q w e w' :
  open_w q w = (Raise e, w') → is_os_error e = true.
Proof.
  unfold open_w, create_file.
  destruct (check_open q (w_fs w)) as [e'|] eqn:Hco.
  - intros [= <- _]. by apply check_open_error in Hco.
  - destruct (w_fs w !! q) as [[i|]|]; try done. by intros [= <- _].
Qed.

Lemma try_names_raises {A} (create : string → M A) dir pre fuel w e w' :
  (∀ q w e w', create q w = (Raise e, w') → is_os_error e = true) →
  try_names fuel dir pre create w = (Raise e, w') → is_os_error e = true.
Proof.
  intros Hcreate. revert w. induction fuel as [|n IH]; intros w.
  - by intros [= <- _].
  - cbn [try_names]. rewrite bind_unfold. unfold next_name, try_except.
    destruct (create _ (tick_rng w)) as [[a|e1] w1] eqn:Hc; [done|].
    pose proof (Hcreate _ _ _ _ Hc) as He1.
    destruct e1; try done; try by intros [= <- _].
    apply IH.
Qed.

Lemma for_mkdir_raises (l : list string) w e w' :
  for_ l os_mkdir w = (Raise e, w') → is_os_error e = true.
Proof.
  revert w. induction l as [|q l IH]; intros w; [done|].
  rewrite for_cons.
  destruct (os_mkdir q w) as [[[]|e1] w1] eqn:Hq.
  - apply IH.
  - intros [= <- _]. by apply os_mkdir_raises in Hq.
Qed.

Lemma scratch_raises w e w' :
  scratch_setup w = (Raise e, w') → is_os_error e = true.
Proof.
  unfold scratch_setup. rewrite bind_unfold.
  destruct (mkdtemp _ _ w) as [[p|e1] w1] eqn:Hmk.
  - rewrite bind_unfold.
    destruct (open_w _ w1) as [[lf|e2] w2] eqn:Hop.
    + rewrite bind_unfold.
      destruct (os_mkdir _ w2) as [[[]|e3] w3] eqn:Hdc.
      * rewrite bind_unfold.
        destruct (for_ _ _ w3) as [[[]|e4] w4] eqn:Hfor; [done|].
        intros [= <- _]. by apply for_mkdir_raises in Hfor.
      * intros [= <- _]. by apply os_mkdir_raises in Hdc.
    + intros [= <- _]. by apply open_w_raises in Hop.
  - intros [= <- _]. apply try_names_raises in Hmk; [done|].
    intros q w0 e0 w0'. rewrite bind_unfold.
    destruct (os_mkdir q w0) as [[[]|e5] w5] eqn:Hq; [done|].
    intros [= <- _]. by apply os_mkdir_raises in Hq.
Qed.

(** C7, as the code has it.  Constructing a host environment while
    ANDROID_HOST_OUT is not set never returns an environment: it fails, and
    when the scratch area can be made it fails with the [FatalError] that
    names the variable, but only after the scratch directory, the log
    file, the cache root and the four arch directories have been made;
    they stay behind. *)
Theorem unset_root_fails_after_setup (x64 : bool) (w : World) :
  dict_get "ANDROID_HOST_OUT" (w_environ w) = None →
  fails_after_setup x64 w.
Proof.
  intros Hunset. unfold fails_after_setup. rewrite init_split.
  destruct (scratch_setup w) as [[[p lf]|e] w1] eqn:Hs.
  - pose proof (scratch_Ok _ _ _ _ Hs)
      as (_ & Hnew & Hp & Hdc & Hready & _ & Hlog & Henv & Htrace).
    unfold shell_setup. rewrite Henv, Hunset.
    eexists _, w1. split_and!; [done| |done].
    right. split; [done|]. by exists p, (f_ino lf).
  - exists e, w1. split_and!; [done| |].
    + left. by apply scratch_raises in Hs.
    + intros Hwf Htmp (k & Hk & Hfree).
      pose proof (scratch_runs w k Hwf Htmp Hk Hfree) as Hok.
      by rewrite Hs in Hok.
Qed.


Lemma check_call_outcome args f w :
  w_trace (check_call args f w).2 = w_trace w ++ [EvCheckCall args] ∧
  ((check_call args f w).1 = Ok tt ∨
   ∃ code, code ≠ 0 ∧
           (check_call args f w).1 = Raise (CalledProcessError code args)).
Proof.
  unfold check_call. destruct (run_tool args w) as [out code]. cbn.
  destruct (decide (code = 0)); cbn; (split; [done|]); [by left|].
  right. by exists code.
Qed.

(** The temporary file [NamedTemporaryFile] makes, and the world with it. *)
Lemma NamedTemporaryFile_world (dir : string) (w w' : World) (f : file) :
  NamedTemporaryFile dir w = (Ok f, w') →
  ∃ k, f_name f = os_path_join dir ("tmp" +:+ random_name k) ∧
       w_fs w !! f_name f = None ∧
       w' = set_data <[f_ino f := ""]>
              (set_fs <[f_name f := Reg (f_ino f)]> (with_rng (S k) w)).
Proof.
  intros Hrun. unfold NamedTemporaryFile in Hrun.
  apply try_names_Ok in Hrun as (k & _ & Hopen);
    [|apply open_excl_exclusive].
  exists k. revert Hopen. unfold open_excl, create_file.
  destruct (check_parent _ _); [done|]. cbn [w_fs with_rng].
  destruct (w_fs w !! _) eqn:Hfree; [done|].
  intros [= <- <-]. done.
Qed.

(** Closing the temporary file after an [adb] call. *)
Lemma push_then_close (f : file) (args : list string) (lf : file)
    (w0 w2 : World) :
  w_fs w2 = <[f_name f := Reg (f_ino f)]> (w_fs w0) →
  w_fs w0 !! f_name f = None →
  ∃ w3, os_unlink (f_name f) (check_call args lf w2).2 = (Ok tt, w3) ∧
        w_fs w3 = w_fs w0 ∧
        w_trace w3 = w_trace w2 ++ [EvCheckCall args; EvUnlink (f_name f)].
Proof.
  intros Hfs Hfree.
  destruct (check_call_frame args lf w2) as (_ & Hfs' & _).
  destruct (check_call_outcome args lf w2) as [Htr _].
  unfold os_unlink. rewrite Hfs', Hfs, lookup_insert_eq.
  eexists. split; [done|]. cbn. rewrite Hfs', Hfs, Htr. split.
  - by rewrite delete_insert_id.
  - by rewrite <- app_assoc.
Qed.



End file_claims.

Lemma sample_input_can_open :
  can_open (Sample.scratch +:+ "/input.txt") (w_fs Sample.w_host).
Proof. by vm_compute. Qed.

(** [input.txt] in the sample host environment, written with three lines;
    the scratch directory itself, which cannot be written. *)
Lemma lines_written_are_read_back_witness :
  written_back Sample.host (Sample.scratch +:+ "/input.txt")
    ["a"; "b"; "c"] Sample.w_host ∧
  (∃ e, HostTestEnv.WriteLines Sample.host Sample.scratch ["a"; "b"; "c"]
          Sample.w_host = (Raise e, Sample.w_host) ∧
        is_os_error e = true) ∧
  written_back Sample.host (Sample.scratch +:+ "/input.txt")
    ["a"; "b"; "c"]
    (@HostTestEnv.CreateFile Sample.os Sample.host (Some "input.txt")
       Sample.w_host).2.
Proof.
  split_and!.
  - apply (proj1 (@lines_written_are_read_back Sample.os Sample.host
                    ["a"; "b"; "c"])).
    apply sample_input_can_open.
  - apply (proj1 (proj2 (@lines_written_are_read_back Sample.os Sample.host
                           ["a"; "b"; "c"]))).
    intros (_ & _ & _ & Hdir). by apply Hdir.
  - apply (proj2 (proj2 (@lines_written_are_read_back Sample.os Sample.host
                           ["a"; "b"; "c"])) (Some "input.txt") Sample.w_host).
    by vm_compute.
Defined.

(** C6 as the spec has it fails: a line with a line feed inside is
    written as it is, and comes back as two lines. *)
Lemma line_feed_splits_a_line :
  let p := Sample.scratch +:+ "/input.txt" in
  let lines := ["a" +:+ nl +:+ "b"] in
  let r1 := @HostTestEnv.CreateFile Sample.os Sample.host (Some "input.txt")
              Sample.w_host in
  let r2 := HostTestEnv.WriteLines Sample.host p lines r1.2 in
  r1.1 = Ok p ∧ r2.1 = Ok tt ∧
  read_path p r2.2 = Some ("a" +:+ nl +:+ "b" +:+ nl) ∧
  lines_of "" ("a" +:+ nl +:+ "b" +:+ nl) = ["a"; "b"] ∧
  ["a"; "b"] ≠ lines.
Proof. by vm_compute. Qed.

(** C7 as the spec has it fails: on the sample machine without
    ANDROID_HOST_OUT the constructor raises the [FatalError] after it has
    made the scratch directory and the five directories below it. *)
Lemma directories_made_before_failure :
  let out := @HostTestEnv.__init__ Sample.os false Sample.w_unset in
  out.1 = Raise (FatalError "ANDROID_HOST_OUT environmental variable not set.") ∧
  w_fs Sample.w_unset !! Sample.scratch = None ∧
  w_fs out.2 !! Sample.scratch = Some Dir ∧
  w_trace out.2 =
    [EvMkdir Sample.scratch;
     EvMkdir (Sample.scratch +:+ "/dalvik-cache");
     EvMkdir (Sample.scratch +:+ "/dalvik-cache/arm");
     EvMkdir (Sample.scratch +:+ "/dalvik-cache/arm64");
     EvMkdir (Sample.scratch +:+ "/dalvik-cache/x86");
     EvMkdir (Sample.scratch +:+ "/dalvik-cache/x86_64")].
Proof. by vm_compute. Qed.

Lemma unset_root_fails_after_setup_witness :
  @fails_after_setup Sample.os false Sample.w_unset.
Proof.
  apply (@unset_root_fails_after_setup Sample.os). reflexivity.
Defined.



(** ** The claims about the device environment *)

Section device_claims.
Context `{OS}.

Lemma check_call_trace args f w :
  w_trace (check_call args f w).2 = w_trace w ++ [EvCheckCall args].
Proof.
  unfold check_call. destruct (run_tool args w) as [out code]. cbn.
  by destruct (decide (code = 0)).
Qed.

Lemma for_check_call_trace (l : list string) (g : string → list string) f w :
  ∃ pre,
    w_trace (for_ l (λ x, check_call (g x) f) w).2 = w_trace w ++ pre ∧
    Forall (λ e, ∃ args, e = EvCheckCall args) pre.
Proof.
  revert w. induction l as [|x l IH]; intros w.
  - exists []. by rewrite app_nil_r.
  - rewrite for_cons. pose proof (check_call_trace (g x) f w) as Ht.
    destruct (check_call (g x) f w) as [[[]|e] w1]; cbn in Ht.
    + destruct (IH w1) as (pre & -> & Hpre). exists (EvCheckCall (g x) :: pre).
      rewrite Ht, <- app_assoc. split; [done|]. constructor; [by eexists|done].
    + exists [EvCheckCall (g x)]. split; [done|].
      constructor; [by eexists|done].
Qed.

Lemma device_overrides_items (self : DeviceTestEnv.t) (d : pydict) :
  device_overrides self d =
  if dict_contains "ANDROID_DATA" d then d
  else d ++ [("ANDROID_DATA", DeviceTestEnv._device_env_path self)].
Proof.
  unfold device_overrides, dict_contains. case_bool_decide as Hd; [done|].
  apply dict_set_absent. destruct (dict_get "ANDROID_DATA" d); [|done].
  destruct Hd. by eexists.
Qed.

(** C9. Once the cache clearing went through, [DeviceTestEnv.RunCommand]
    runs [adb shell] on the remote command, as [remote_command_line]
    spells it, whose inline assignments are those of the override map
    followed by ANDROID_DATA bound to the remote scratch directory when
    the map did not bind it, and those of the map as it is, with the value
    of the caller, when it did. *)
Theorem android_data_is_injected (self : DeviceTestEnv.t) cmd eu w :
  is_ok (DeviceTestEnv._EmptyDexCache self (after_default eu w)).1 = true →
  data_root_injected self cmd eu w.
Proof.
  intros Hok. unfold data_root_injected. cbv zeta.
  rewrite <- device_overrides_items.
  destruct (for_check_call_trace
              (_DexArchCachePaths (DeviceTestEnv._device_env_path self))
              (λ p, shlex_split
                      ("adb shell if [ -d " +:+ dq +:+ p +:+ dq +:+
                       " ]; then rm -f " +:+ dq +:+ p +:+ dq +:+ "/*; fi"))
              (DeviceTestEnv._logfile self) (after_default eu w))
    as (pre & Hpre & Hall).
  change (for_ _ _ (after_default eu w))
    with (DeviceTestEnv._EmptyDexCache self (after_default eu w)) in Hpre.
  destruct (DeviceTestEnv._EmptyDexCache self (after_default eu w))
    as [[[]|e] w1] eqn:Hclear; [|done].
  destruct (device_RunCommand_run self cmd eu w w1 Hclear)
    as (l & _ & _ & Hrun).
  assert (Htext :
    DeviceTestEnv.adb_shell_command
      (join " " (map (λ kv, kv.1 +:+ "=" +:+ kv.2)
                     (device_overrides self (overrides eu w))))
      (_CommandListToCommandString cmd)
    = remote_command_line
        (map (λ kv, kv.1 +:+ "=" +:+ kv.2)
             (device_overrides self (overrides eu w))) cmd).
  { unfold DeviceTestEnv.adb_shell_command, remote_command_line,
      _CommandListToCommandString.
    reflexivity. }
  rewrite Htext in Hrun.
  set (args := shlex_split _) in Hrun |- *.
  destruct (run_frame args (DeviceTestEnv._shell_env self)
              (DeviceTestEnv._logfile self) 60
              (device_start self l (overrides eu w) w1))
    as (_ & _ & _ & rest & Htrace & Hrest).
  exists pre, rest. split_and!.
  - rewrite Hrun, Htrace. cbn in Hpre.
    assert (w_trace (device_start self l (overrides eu w) w1) = w_trace w1)
      as -> by (unfold device_start; by destruct (dict_contains _ _)).
    by rewrite Hpre, after_default_trace, <- app_assoc.
  - intros Hno. rewrite device_overrides_items, Hno.
    by rewrite map_app.
  - intros Hyes. by rewrite device_overrides_items, Hyes.
  - done.
  - destruct Hrest as [->|Hrest]; [by left|right; by eexists].
  - unfold device_overrides, dict_contains.
    case_bool_decide as Hd.
    + destruct Hd as [v Hv]. by rewrite Hv.
    + rewrite dict_get_set, decide_True by done.
      destruct (dict_get "ANDROID_DATA" (overrides eu w)); [|done].
      destruct Hd. by eexists.
  - intros k Hk. unfold device_overrides.
    destruct (dict_contains _ _); [done|].
    by rewrite dict_get_set, decide_False.
Qed.

(** C10. [DeviceTestEnv.RunCommand] writes into the dict object of the
    caller: called (with the cache clearing going through) on a dict that
    is not empty and does not bind ANDROID_DATA, it returns with that very
    object binding ANDROID_DATA to the remote scratch directory. *)
Theorem caller_dict_is_mutated (self : DeviceTestEnv.t) cmd l d w :
  w_heap w !! l = Some d →
  d ≠ [] →
  dict_get "ANDROID_DATA" d = None →
  is_ok (DeviceTestEnv._EmptyDexCache self w).1 = true →
  caller_dict_updated self cmd l d w.
Proof.
  intros Hl Hd Hfree Hok.
  assert (Hov : overrides (Some l) w = d) by (cbn; by rewrite Hl).
  assert (Htruthy : dict_truthy d = true) by (by destruct d).
  assert (Hw : after_default (Some l) w = w).
  { unfold after_default. by rewrite Hov, Htruthy. }
  pose proof (device_EmptyDexCache_frame self w) as (Hheap & _).
  destruct (DeviceTestEnv._EmptyDexCache self w) as [[[]|e] w1] eqn:Hclear;
    [|done].
  rewrite <- Hw in Hclear.
  destruct (device_RunCommand_run self cmd (Some l) w w1 Hclear)
    as (l0 & _ & Hsame & Hrun).
  rewrite Hov in Hsame, Hrun. injection (Hsame Htruthy) as <-.
  unfold caller_dict_updated. cbv zeta. rewrite Hrun.
  set (args := shlex_split _).
  destruct (run_frame args (DeviceTestEnv._shell_env self)
              (DeviceTestEnv._logfile self) 60 (device_start self l d w1))
    as (Hret & _ & -> & _).
  split; [done|]. unfold device_start. rewrite device_overrides_items.
  unfold dict_contains. rewrite Hfree.
  rewrite bool_decide_eq_false_2 by (by intros [? ?]).
  cbn in Hheap |- *. rewrite Hheap. split.
  - by rewrite lookup_insert_eq.
  - intros l' Hl'. by rewrite lookup_insert_ne.
Qed.

(** An empty dict of the caller, like [None], is left alone: the method
    works on a new dict object. *)
Lemma caller_empty_dict_untouched (self : DeviceTestEnv.t) cmd l w :
  w_heap w !! l = Some [] →
  w_heap (DeviceTestEnv.RunCommand self cmd (Some l) w).2 !! l = Some [].
Proof.
  intros Hl.
  assert (Hov : overrides (Some l) w = []) by (cbn; by rewrite Hl).
  assert (Hw : after_default (Some l) w
               = set_heap <[fresh (dom (w_heap w)) := []]> w).
  { unfold after_default. by rewrite Hov. }
  assert (Hfresh : fresh (dom (w_heap w)) ≠ l).
  { intros Heq. pose proof (is_fresh (dom (w_heap w))) as Hf.
    rewrite Heq in Hf. apply Hf, elem_of_dom. by eexists. }
  pose proof (device_EmptyDexCache_frame self (after_default (Some l) w))
    as (Hheap & _).
  destruct (DeviceTestEnv._EmptyDexCache self (after_default (Some l) w))
    as [[[]|e] w1] eqn:Hclear.
  - destruct (device_RunCommand_run self cmd (Some l) w w1 Hclear)
      as (l0 & Hdef & _ & ->).
    destruct (run_frame
                (shlex_split
                   (DeviceTestEnv.adb_shell_command
                      (join " " (map (λ kv, kv.1 +:+ "=" +:+ kv.2)
                         (device_overrides self (overrides (Some l) w))))
                      (_CommandListToCommandString cmd)))
                (DeviceTestEnv._shell_env self)
                (DeviceTestEnv._logfile self) 60
                (device_start self l0 (overrides (Some l) w) w1))
      as (_ & _ & -> & _).
    assert (l0 = fresh (dom (w_heap w))) as ->.
    { revert Hdef. unfold default_env_updates, deref, new_dict.
      rewrite bind_unfold. rewrite Hl. cbn. by intros [= <-]. }
    unfold device_start. rewrite Hov. cbn in Hheap |- *.
    rewrite lookup_insert_ne by done. rewrite Hheap, Hw. cbn.
    by rewrite lookup_insert_ne.
  - destruct (device_RunCommand_fails self cmd (Some l) w e w1 Hclear)
      as [-> Hh].
    cbn in Hheap |- *. rewrite Hheap, Hw. cbn. by rewrite lookup_insert_ne.
Qed.

End device_claims.

(** The sample device environment, run with the caller's dict
    [{'ART_FLAG': '1'}]. *)
Lemma android_data_is_injected_witness :
  @data_root_injected Sample.os Sample.device ["dalvikvm"] (Some 0%nat)
    Sample.w_host.
Proof.
  apply (@android_data_is_injected Sample.os). by vm_compute.
Defined.

Lemma caller_dict_is_mutated_witness :
  @caller_dict_updated Sample.os Sample.device ["dalvikvm"] 0
    [("ART_FLAG", "1")] Sample.w_host.
Proof.
  apply (@caller_dict_is_mutated Sample.os); by vm_compute.
Defined.

(** ** The sample machine at work *)

Example quoted_command :
  _CommandListToCommandString ["cat"; "input.txt"]
  = dq +:+ "cat" +:+ dq +:+ " " +:+ dq +:+ "input.txt" +:+ dq.
Proof. reflexivity. Qed.

Example sample_false_returns_its_code :
  (@HostTestEnv.RunCommand Sample.os Sample.host ["false"] None
     Sample.w_host).1
  = Ok ("", Some 1).
Proof. by vm_compute. Qed.

Example sample_sleep_times_out :
  let out := @HostTestEnv.RunCommand Sample.os Sample.host ["sleep"; "100"]
               None Sample.w_host in
  out.1 = Ok ("tick" +:+ nl, Some 1) ∧
  content (HostTestEnv._logfile Sample.host) out.2 =
    "earlier" +:+ nl +:+
    "Command:" +:+ nl +:+
    dq +:+ "sleep" +:+ dq +:+ " " +:+ dq +:+ "100" +:+ dq +:+ nl +:+
    "tick" +:+ nl +:+ nl +:+
    "Return code: TIMEOUT" +:+ nl.
Proof. by vm_compute. Qed.

Example sample_cache_is_emptied :
  let out := @HostTestEnv.RunCommand Sample.os Sample.host ["false"] None
               Sample.w_host in
  w_fs out.2 !! (Sample.scratch +:+ "/dalvik-cache/arm/boot.oat") = None ∧
  w_fs out.2 !! (Sample.scratch +:+ "/dalvik-cache/arm/sub") = Some Dir ∧
  w_fs out.2 !! (Sample.scratch +:+ "/dalvik-cache/arm/sub/keep.oat")
    = Some (Reg 2) ∧
  w_fs out.2 !! (Sample.scratch +:+ "/log") = Some (Reg 0) ∧
  w_trace out.2 =
    [EvUnlink (Sample.scratch +:+ "/dalvik-cache/arm/boot.oat");
     EvPopen ["false"] (HostTestEnv._shell_env Sample.host)].
Proof. by vm_compute. Qed.

Example sample_device_assignments :
  let out := @DeviceTestEnv.RunCommand Sample.os Sample.device ["dalvikvm"]
               (Some 0%nat) Sample.w_host in
  w_heap out.2 !! 0%nat =
    Some [("ART_FLAG", "1");
          ("ANDROID_DATA", "/data/local/tmp/bisection_search_aaaaaaaa")] ∧
  nth 5 (match last (w_trace out.2) with
         | Some (EvPopen args _) => args
         | _ => []
         end) ""
  = "ART_FLAG=1" ∧
  nth 6 (match last (w_trace out.2) with
         | Some (EvPopen args _) => args
         | _ => []
         end) ""
  = "ANDROID_DATA=/data/local/tmp/bisection_search_aaaaaaaa".
Proof. by vm_compute. Qed.

(** A line with a line feed inside is read back as two. *)
Example line_feed_inside_a_line :
  lines_of "" (concat_all (map (λ line, line +:+ nl) ["a" +:+ nl +:+ "b"]))
  = ["a"; "b"].
Proof. reflexivity. Qed.

(** ** Further properties of the module *)

(** *** Strings *)

Lemma length_app_s (a b : string) :
  String.length (a +:+ b) = (String.length a + String.length b)%nat.
Proof.
  induction a as [|c a IH]; [done|]. rewrite app_cons_s. cbn. by rewrite IH.
Qed.

Lemma app_inj_r (a b s : string) : a +:+ s = b +:+ s → a = b.
Proof.
  revert b. induction a as [|c a IH]; intros [|c' b] Heq.
  - done.
  - apply (f_equal String.length) in Heq.
    rewrite app_nil_l_s, app_cons_s in Heq. cbn in Heq.
    rewrite length_app_s in Heq. lia.
  - apply (f_equal String.length) in Heq.
    rewrite app_nil_l_s, app_cons_s in Heq. cbn in Heq.
    rewrite length_app_s in Heq. lia.
  - rewrite !app_cons_s in Heq. injection Heq as -> Heq.
    by rewrite (IH b Heq).
Qed.

Section lookup_and_paths.
Context `{OS}.

(** X1. [GetEnvVariableOrError] reads the environment and nothing else: it
    returns the value of a variable that is set, be it the empty string,
    and raises [FatalError] for one that is not; the message of the error
    tells which variable it was, two variables never sharing one. *)
Theorem env_variable_or_error (name : string) (w : World) :
  (GetEnvVariableOrError name w).2 = w ∧
  match dict_get name (w_environ w) with
  | Some value => (GetEnvVariableOrError name w).1 = Ok value
  | None =>
      ∃ msg,
        (GetEnvVariableOrError name w).1 = Raise (FatalError msg) ∧
        ∀ name' w',
          (GetEnvVariableOrError name' w').1 = Raise (FatalError msg) →
          name' = name
  end.
Proof.
  unfold GetEnvVariableOrError. rewrite !bind_unfold. unfold os_environ_get.
  destruct (dict_get name (w_environ w)) as [v|]; [done|].
  split; [done|]. eexists. split; [done|].
  intros name' w'. rewrite bind_unfold.
  destruct (dict_get name' (w_environ w')); [done|].
  cbn. intros [= Heq]. by apply app_inj_r in Heq.
Qed.

Lemma arch_paths_ne (p a b : string) :
  a ≠ b → p +:+ "/dalvik-cache/" +:+ a ≠ p +:+ "/dalvik-cache/" +:+ b.
Proof.
  intros Hab Heq. apply (inj (String.app p)) in Heq.
  by apply (inj (String.app "/dalvik-cache/")) in Heq.
Qed.

Lemma arch_not_nested (p d : string) :
  d ∈ _DexArchCachePaths p → ¬ directly_in (_DexArchCachePaths p) d.
Proof.
  intros (a & Ha & ->)%elem_of_arch_paths
         (d' & n & (b & Hb & ->)%elem_of_arch_paths & Hn & Heq).
  rewrite !app_assoc_s in Heq.
  apply (inj (String.app p)), (inj (String.app "/dalvik-cache/")) in Heq.
  apply arch_no_slash in Ha. rewrite Heq, has_slash_app in Ha.
  cbn in Ha. by rewrite orb_true_r in Ha.
Qed.

(** X2. [_DexArchCachePaths] gives four different directories, each
    directly inside [dalvik-cache] of the given path, and none of them
    inside another. *)
Theorem arch_cache_paths_layout (p : string) :
  length (_DexArchCachePaths p) = 4%nat ∧
  NoDup (_DexArchCachePaths p) ∧
  Forall (directly_in [p +:+ "/dalvik-cache"]) (_DexArchCachePaths p) ∧
  Forall (λ d, ¬ directly_in (_DexArchCachePaths p) d) (_DexArchCachePaths p).
Proof.
  split_and!.
  - reflexivity.
  - unfold _DexArchCachePaths, DALVIK_CACHE_ARCHS. cbn [map].
    repeat (apply NoDup_cons; split;
            [rewrite ?not_elem_of_cons; split_and?;
             try (by apply arch_paths_ne); apply not_elem_of_nil|]).
    apply NoDup_nil_2.
  - apply Forall_forall. intros d (a & Ha & ->)%elem_of_arch_paths.
    exists (p +:+ "/dalvik-cache"), a. split_and!.
    + by left.
    + by apply arch_no_slash.
    + by rewrite app_assoc_s.
  - apply Forall_forall. intros d Hd. by apply arch_not_nested.
Qed.

End lookup_and_paths.

(** *** The logged command line *)

Lemma quoted_prefix (x y r1 r2 : string) :
  contains dq_char x = false → contains dq_char y = false →
  x +:+ dq +:+ r1 = y +:+ dq +:+ r2 → x = y ∧ r1 = r2.
Proof.
  revert y. induction x as [|c x IH]; intros [|c' y] Hx Hy Heq.
  - rewrite !app_nil_l_s in Heq. by apply (inj (String.app dq)) in Heq.
  - rewrite app_nil_l_s, app_cons_s in Heq. injection Heq as <- _.
    cbn in Hy. by rewrite decide_True in Hy.
  - rewrite app_nil_l_s, app_cons_s in Heq. injection Heq as -> _.
    cbn in Hx. by rewrite decide_True in Hx.
  - rewrite !app_cons_s in Heq. injection Heq as -> Heq.
    cbn in Hx, Hy. destruct (decide (c' = dq_char)); [done|].
    destruct (IH y Hx Hy Heq) as [-> ->]. done.
Qed.

Lemma command_string_cons (x : string) (r : list string) :
  _CommandListToCommandString (x :: r) =
  dq +:+ x +:+ dq +:+
  match r with
  | [] => ""
  | _ => " " +:+ _CommandListToCommandString r
  end.
Proof.
  unfold _CommandListToCommandString. destruct r as [|y r]; cbn [map join].
  - by rewrite app_nil_r_s.
  - by rewrite !app_assoc_s.
Qed.

(** X3. The command line written to the log tells the arguments apart as
    long as no argument holds a double quote: two such argument lists with
    the same line are the same list.  Nothing is escaped, so with a double
    quote inside an argument they need not be. *)
Theorem command_string_determines_arguments :
  (∀ l1 l2,
     Forall (λ a, contains dq_char a = false) l1 →
     Forall (λ a, contains dq_char a = false) l2 →
     _CommandListToCommandString l1 = _CommandListToCommandString l2 →
     l1 = l2) ∧
  (∃ l1 l2,
     l1 ≠ l2 ∧
     _CommandListToCommandString l1 = _CommandListToCommandString l2).
Proof.
  split.
  - intros l1. induction l1 as [|x r1 IH]; intros [|y r2] H1 H2 Heq.
    + done.
    + by rewrite command_string_cons in Heq.
    + by rewrite command_string_cons in Heq.
    + rewrite !command_string_cons in Heq.
      apply (inj (String.app dq)) in Heq.
      apply Forall_cons in H1 as [Hx H1]. apply Forall_cons in H2 as [Hy H2].
      apply quoted_prefix in Heq as [-> Heq]; [|done..].
      f_equal. destruct r1 as [|x1 r1], r2 as [|y1 r2]; try done.
      apply IH; [done..|]. by apply (inj (String.app " ")) in Heq.
  - exists ["a" +:+ dq +:+ " " +:+ dq +:+ "b"], ["a"; "b"]. by split.
Qed.

Lemma command_string_determines_arguments_witness :
  ["cat"; "input.txt"] = ["cat"; "input.txt"].
Proof.
  apply (proj1 command_string_determines_arguments).
  - by repeat constructor.
  - by repeat constructor.
  - reflexivity.
Defined.

(** *** The dex cache of the host, whatever its state *)

Section host_cache_total.
Context `{OS}.

Lemma unlinked_nil (w : World) : unlinked [] (w_fs w) w = w.
Proof. destruct w. unfold unlinked. cbn. by rewrite app_nil_r. Qed.

Lemma unlinked_unlinked removed1 removed2 fs1 fs2 w :
  unlinked removed2 fs2 (unlinked removed1 fs1 w)
  = unlinked (removed1 ++ removed2) fs2 w.
Proof. unfold unlinked. cbn. by rewrite map_app, app_assoc. Qed.

(** The two loops of [_EmptyDexCache] when one of the directories, none
    of which is inside another, is not there: the first such directory
    stops them. *)
Lemma sweep_dirs_fails (ds : list string) (w : World) (d0 : string) :
  (∀ d, d ∈ ds → ¬ directly_in ds d) →
  d0 ∈ ds → w_fs w !! d0 ≠ Some Dir →
  ∃ e d removed fs',
    for_ ds (λ arch_cache_path,
      names ← os_listdir arch_cache_path;
      for_ names (λ file_path,
        let file_path := arch_cache_path +:+ "/" +:+ file_path in
        isfile ← os_path_isfile file_path;
        if (isfile : bool) then os_unlink file_path else mret tt)) w
    = (Raise e, unlinked removed fs' w) ∧
    d ∈ ds ∧
    (w_fs w !! d = None ∧ e = FileNotFoundError d ∨
     (∃ i, w_fs w !! d = Some (Reg i)) ∧ e = NotADirectoryError d).
Proof.
  revert w. induction ds as [|d ds IH]; intros w Hflat Hd0 Hnot.
  - by apply elem_of_nil in Hd0.
  - rewrite for_cons. rewrite bind_unfold. unfold os_listdir at 1.
    destruct (w_fs w !! d) as [[i|]|] eqn:Hd.
    + exists (NotADirectoryError d), d, [], (w_fs w).
      rewrite unlinked_nil. split_and!; [done|by left|right; eauto].
    + destruct (sweep_names d (entries d (w_fs w)) w)
        as (fs1 & removed1 & Hrun1 & _ & Hb1 & _).
      cbv zeta in Hrun1. rewrite Hrun1.
      assert (Hsame : ∀ q, q ∈ ds → fs1 !! q = w_fs w !! q).
      { intros q Hq. apply Hb1. intros [_ (n & Hn & ->)].
        apply elem_of_entries in Hn as [Hn _].
        apply (Hflat (d +:+ "/" +:+ n)); [by right|].
        exists d, n. split_and!; [by left|done..]. }
      apply elem_of_cons in Hd0 as [->|Hd0]; [congruence|].
      destruct (IH (unlinked removed1 fs1 w))
        as (e & d' & removed2 & fs2 & Hrun2 & Hd' & Herr).
      { intros q Hq (d1 & n & Hd1 & Hn & ->).
        apply (Hflat (d1 +:+ "/" +:+ n)); [by right|].
        exists d1, n. split_and!; [by right|done..]. }
      { done. }
      { cbn. by rewrite Hsame. }
      exists e, d', (removed1 ++ removed2), fs2.
      rewrite <- (unlinked_unlinked removed1 removed2 fs1 fs2 w).
      split_and!; [exact Hrun2|by right|].
      cbn in Herr. by rewrite Hsame in Herr.
    + exists (FileNotFoundError d), d, [], (w_fs w).
      rewrite unlinked_nil. split_and!; [done|by left|left; eauto].
Qed.

(** [_EmptyDexCache] on the host only ever unlinks. *)
Lemma host_EmptyDexCache_total (self : HostTestEnv.t) (w : World) :
  ∃ r removed fs',
    HostTestEnv._EmptyDexCache self w = (r, unlinked removed fs' w).
Proof.
  set (archs := _DexArchCachePaths (HostTestEnv._env_path self)).
  destruct (decide (Forall (λ d, w_fs w !! d = Some Dir) archs)) as [Hall|Hnot].
  - destruct (EmptyDexCache_spec self w) as (fs' & removed & Hrun & _).
    { intros d Hd. by apply (proj1 (Forall_forall _ _) Hall). }
    by exists (Ok tt), removed, fs'.
  - apply not_Forall_Exists in Hnot; [|apply _].
    apply Exists_exists in Hnot as (d0 & Hd0 & Hnot).
    destruct (sweep_dirs_fails archs w d0)
      as (e & d & removed & fs' & Hrun & _); [|done..|].
    { intros d Hd. by apply arch_not_nested. }
    by exists (Raise e), removed, fs'.
Qed.

End host_cache_total.

(** *** What [RunCommand] of the host never does *)

Section host_run_total.
Context `{OS}.

(** [HostTestEnv.RunCommand], in full. *)
Lemma host_RunCommand_unfold (self : HostTestEnv.t) cmd eu w :
  HostTestEnv.RunCommand self cmd eu w =
  match HostTestEnv._EmptyDexCache self (after_default eu w) with
  | (Ok _, w1) =>
      _RunCommandForOutputAndLog cmd
        (dict_update (HostTestEnv._shell_env self) (overrides eu w))
        (HostTestEnv._logfile self) 60 w1
  | (Raise e, w1) => (Raise e, w1)
  end.
Proof.
  destruct (default_env_updates_spec eu w) as (l & Hl & Hov & _).
  destruct (host_EmptyDexCache_total self (after_default eu w))
    as (r & removed & fs' & Hrun).
  unfold HostTestEnv.RunCommand. rewrite bind_unfold, Hl, bind_unfold, Hrun.
  destruct r as [[]|e]; [|done].
  rewrite bind_unfold. unfold deref at 1. cbn [unlinked w_heap].
  by rewrite Hov.
Qed.


Lemma after_default_heap eu w l d :
  w_heap w !! l = Some d → w_heap (after_default eu w) !! l = Some d.
Proof.
  intros Hl. unfold after_default. destruct (dict_truthy _); [done|].
  cbn. rewrite lookup_insert_ne; [done|].
  intros Heq. pose proof (is_fresh (dom (w_heap w))) as Hf.
  rewrite Heq in Hf. apply Hf, elem_of_dom. by eexists.
Qed.

(** X5. [HostTestEnv.RunCommand] only reads the override map: whatever
    happens, every dict object the caller holds is after the call what it
    was before. *)
Theorem host_run_keeps_caller_dicts (self : HostTestEnv.t) cmd eu w l d :
  w_heap w !! l = Some d →
  w_heap (HostTestEnv.RunCommand self cmd eu w).2 !! l = Some d.
Proof.
  intros Hl. rewrite host_RunCommand_unfold.
  destruct (host_EmptyDexCache_total self (after_default eu w))
    as (r & removed & fs' & ->).
  destruct r as [[]|e].
  - destruct (run_frame cmd
                (dict_update (HostTestEnv._shell_env self) (overrides eu w))
                (HostTestEnv._logfile self) 60
                (unlinked removed fs' (after_default eu w)))
      as (_ & _ & -> & _).
    cbn. by apply after_default_heap.
  - cbn. by apply after_default_heap.
Qed.

(** X7. Clearing the cache twice is clearing it once: after an
    [_EmptyDexCache] that went through, another one finds nothing to
    unlink and changes nothing. *)
Theorem empty_cache_twice (self : HostTestEnv.t) (w w1 : World) :
  HostTestEnv._EmptyDexCache self w = (Ok tt, w1) →
  HostTestEnv._EmptyDexCache self w1 = (Ok tt, w1).
Proof.
  intros Hfirst.
  set (archs := _DexArchCachePaths (HostTestEnv._env_path self)).
  assert (Hready : cache_ready (HostTestEnv._env_path self) (w_fs w)).
  { intros d Hd. destruct (decide (w_fs w !! d = Some Dir)) as [|Hnot]; [done|].
    destruct (sweep_dirs_fails archs w d)
      as (e & d' & removed & fs' & Hrun & _); [|done..|].
    - intros q Hq. by apply arch_not_nested.
    - change (for_ _ _ w) with (HostTestEnv._EmptyDexCache self w) in Hrun.
      by rewrite Hfirst in Hrun. }
  destruct (EmptyDexCache_spec self w Hready)
    as (fs1 & removed1 & Hrun1 & Ha1 & Hb1 & Hc1).
  rewrite Hfirst in Hrun1. injection Hrun1 as ->.
  assert (Hnone : ∀ p, ¬ (is_reg (fs1 !! p) = true ∧ directly_in archs p)).
  { intros p [Hr Hin]. destruct (is_reg (w_fs w !! p)) eqn:Hw.
    - by rewrite (Ha1 p Hw Hin) in Hr.
    - rewrite Hb1 in Hr; [congruence|]. intros [? _]. congruence. }
  destruct (EmptyDexCache_spec self (unlinked removed1 fs1 w))
    as (fs2 & removed2 & Hrun2 & _ & Hb2 & Hc2).
  { intros d Hd. cbn. rewrite Hb1; [by apply Hready|].
    rewrite (Hready d Hd). by intros [? _]. }
  cbn in Hb2, Hc2. rewrite Hrun2.
  assert (removed2 = []) as ->.
  { apply elem_of_nil_inv. intros p Hp. apply Hc2 in Hp. by apply (Hnone p). }
  assert (fs2 = fs1) as ->.
  { apply map_eq. intros p. apply Hb2, Hnone. }
  f_equal. apply (unlinked_nil (unlinked removed1 fs1 w)).
Qed.

End host_run_total.


Lemma host_run_keeps_caller_dicts_witness :
  w_heap (@HostTestEnv.RunCommand Sample.os Sample.host ["false"]
            (Some 0%nat) Sample.w_host).2 !! 0%nat
  = Some [("ART_FLAG", "1")].
Proof.
  apply (@host_run_keeps_caller_dicts Sample.os). by vm_compute.
Defined.

Lemma empty_cache_twice_witness :
  HostTestEnv._EmptyDexCache Sample.host
    (HostTestEnv._EmptyDexCache Sample.host Sample.w_host).2
  = (Ok tt, (HostTestEnv._EmptyDexCache Sample.host Sample.w_host).2).
Proof.
  apply (empty_cache_twice Sample.host Sample.w_host).
  by vm_compute.
Defined.

(** *** The constructor of the host environment *)

Section host_constructor.
Context `{OS}.

Lemma open_w_data (q : string) (w w' : World) (f : file) :
  open_w q w = (Ok f, w') →
  w_data w' = <[f_ino f := ""]> (w_data w) ∧
  (w_fs w !! q = None → w_data w !! f_ino f = None).
Proof.
  unfold open_w, create_file. destruct (check_open q (w_fs w)); [done|].
  destruct (w_fs w !! q) as [[i|]|] eqn:Hq; [| done |].
  - by intros [= <- <-].
  - intros [= <- <-]. cbn. split; [done|]. intros _.
    apply not_elem_of_dom, is_fresh.
Qed.

(** What making the scratch area leaves alone. *)
Lemma scratch_frame (w w1 : World) (p : string) (lf : file) :
  scratch_setup w = (Ok (p, lf), w1) →
  (∀ q, q ∉ scratch_paths p → w_fs w1 !! q = w_fs w !! q) ∧
  w_data w1 = <[f_ino lf := ""]> (w_data w) ∧
  (w_fs w !! (p +:+ "/log") = None → w_data w !! f_ino lf = None).
Proof.
  unfold scratch_setup. rewrite bind_unfold.
  destruct (mkdtemp _ _ w) as [[p'|e] w1'] eqn:Hmk; [|done].
  apply mkdtemp_Ok in Hmk as (k & Hp & Hnew & ->).
  rewrite bind_unfold.
  destruct (open_w _ _) as [[lf'|e] w2] eqn:Hopen; [|done].
  pose proof (open_w_data _ _ _ _ Hopen) as [Hdata Hino].
  apply open_w_Ok in Hopen as (_ & _ & _ & Hfs2 & _).
  rewrite bind_unfold.
  destruct (os_mkdir _ w2) as [[[]|e] w3] eqn:Hdc; [|done].
  apply os_mkdir_Ok in Hdc as (_ & _ & ->).
  unfold _DexArchCachePaths, DALVIK_CACHE_ARCHS. cbn [map].
  rewrite bind_unfold, for_cons.
  destruct (os_mkdir _ _) as [[[]|e] w4] eqn:H1; [|done].
  apply os_mkdir_Ok in H1 as (_ & _ & ->). rewrite for_cons.
  destruct (os_mkdir _ _) as [[[]|e] w5] eqn:H2; [|done].
  apply os_mkdir_Ok in H2 as (_ & _ & ->). rewrite for_cons.
  destruct (os_mkdir _ _) as [[[]|e] w6] eqn:H3; [|done].
  apply os_mkdir_Ok in H3 as (_ & _ & ->). rewrite for_cons.
  destruct (os_mkdir _ _) as [[[]|e] w7] eqn:H4; [|done].
  apply os_mkdir_Ok in H4 as (_ & _ & ->).
  intros [= <- <- <-]. cbn in Hfs2, Hdata, Hino. split_and!.
  - intros q Hq. unfold scratch_paths, _DexArchCachePaths in Hq.
    cbn [map DALVIK_CACHE_ARCHS] in Hq.
    rewrite !not_elem_of_cons in Hq.
    destruct Hq as (Hq0 & Hq1 & Hq2 & Hq3 & Hq4 & Hq5 & Hq6 & _). cbn.
    rewrite !lookup_insert_ne by done. rewrite Hfs2 by done. cbn.
    by rewrite lookup_insert_ne.
  - done.
  - intros Hlog. apply Hino. rewrite lookup_insert_ne; [done|].
    apply not_eq_sym, app_neq_self. done.
Qed.

Lemma scratch_paths_app (p q : string) :
  q ∈ scratch_paths p →
  q = p ∨ ∃ n, has_slash n = false ∧
    (q = p +:+ "/" +:+ n ∨ q = (p +:+ "/dalvik-cache") +:+ "/" +:+ n).
Proof.
  unfold scratch_paths, _DexArchCachePaths. cbn [map DALVIK_CACHE_ARCHS].
  rewrite !elem_of_cons, elem_of_nil.
  intros [->|[->|[->|[->|[->|[->|[->|[]]]]]]]]; [by left|right..].
  - exists "log". split; [done|]. by left.
  - exists "dalvik-cache". split; [done|]. by left.
  - exists "arm". split; [done|]. right. by rewrite app_assoc_s.
  - exists "arm64". split; [done|]. right. by rewrite app_assoc_s.
  - exists "x86". split; [done|]. right. by rewrite app_assoc_s.
  - exists "x86_64". split; [done|]. right. by rewrite app_assoc_s.
Qed.

(** Where the scratch directory is free, so is everything below it. *)
Lemma scratch_paths_free (fs : gmap string node) (p q : string) :
  fs_wf fs → fs !! p = None → p ≠ "" →
  q ∈ scratch_paths p → fs !! q = None.
Proof.
  intros Hwf Hp Hne [->|(n & Hn & [->| ->])]%scratch_paths_app; [done|..].
  - by apply wf_absent_child.
  - apply wf_absent_child; [done| |by destruct p|done].
    by apply wf_absent_child.
Qed.

(** Nothing the constructor makes is inside an arch directory. *)
Lemma arch_child_not_made (p d n : string) :
  d ∈ _DexArchCachePaths p → has_slash n = false →
  d +:+ "/" +:+ n ∉ scratch_paths p.
Proof.
  intros Hd Hn Hin.
  assert (Hsplit : split_last (d +:+ "/" +:+ n) = Some (d, n))
    by (by apply split_last_app).
  assert (Hd' : ∃ a, d = (p +:+ "/dalvik-cache") +:+ "/" +:+ a ∧ a ≠ "").
  { unfold _DexArchCachePaths in Hd. apply list_elem_of_fmap in Hd
      as (a & -> & Ha). exists a. rewrite app_assoc_s. split; [done|].
    unfold DALVIK_CACHE_ARCHS in Ha.
    rewrite !elem_of_cons, elem_of_nil in Ha.
    by destruct Ha as [->|[->|[->|[->|[]]]]]. }
  destruct Hd' as (a & Hda & Ha).
  apply scratch_paths_app in Hin as [Heq|(m & Hm & [Heq|Heq])].
  - rewrite Hda, !app_assoc_s in Heq. by apply app_neq_self in Heq.
  - rewrite Heq, split_last_app in Hsplit by done.
    injection Hsplit as Hp _. rewrite Hda, app_assoc_s in Hp.
    symmetry in Hp. by apply app_neq_self in Hp.
  - rewrite Heq, split_last_app in Hsplit by done.
    injection Hsplit as Hp _. rewrite Hda in Hp.
    symmetry in Hp. by apply app_neq_self in Hp.
Qed.

(** X8. With [ANDROID_HOST_OUT] and [PATH] set, on a file system where
    [/tmp] is a directory and one of the names [mkdtemp] gets to try is
    free, [HostTestEnv(x64)] returns an environment.  Its scratch
    directory is new and holds an empty log and four empty arch
    directories; its shell environment is the process's with the six
    bindings laid over; the process's environment and every file that
    was there are untouched, and nothing but [mkdir] was done. *)
Theorem host_constructor_succeeds (x64 : bool) (w : World)
    (android_root old_path : string) (k : nat) :
  dict_get "ANDROID_HOST_OUT" (w_environ w) = Some android_root →
  dict_get "PATH" (w_environ w) = Some old_path →
  fs_wf (w_fs w) → w_fs w !! "/tmp" = Some Dir →
  (w_rng w ≤ k < w_rng w + TMP_MAX)%nat →
  w_fs w !! ("/tmp/bisection_search_" +:+ random_name k) = None →
  host_made x64 android_root old_path w.
Proof.
  intros Hroot Hpath Hwf Htmp Hk Hfree. unfold host_made.
  pose proof (scratch_runs w k Hwf Htmp Hk Hfree) as Hruns.
  rewrite init_split.
  destruct (scratch_setup w) as [[[p lf]|e] w1] eqn:Hs; [|done]. clear Hruns.
  pose proof (scratch_frame _ _ _ _ Hs) as (Hfs & Hdata & Hino).
  apply scratch_Ok in Hs
    as ((k' & Hp) & Hnew & Hdir & Hdc & Hready & Hname & Hlog & Henv & Htr).
  assert (Hp0 : p ≠ "") by (by rewrite Hp).
  unfold shell_setup. rewrite Henv, Hroot, Hpath.
  eexists _, w1. split; [done|]. cbn [HostTestEnv._env_path
    HostTestEnv._logfile HostTestEnv._shell_env].
  split_and!; try done.
  - intros d Hd. apply elem_of_nil_inv. intros n [Hn [x Hx]]%elem_of_entries.
    pose proof (arch_child_not_made p d n Hd Hn) as Hnot.
    rewrite Hfs in Hx by done.
    assert (Hd' : d ∈ scratch_paths p) by (by do 3 right).
    rewrite (wf_absent_child (w_fs w) d n) in Hx; try done.
    + by apply (scratch_paths_free _ p).
    + apply list_elem_of_fmap in Hd as (a & -> & _). by destruct p.
  - unfold read_path. rewrite Hlog, Hdata, lookup_insert_eq. done.
  - intros q [x Hq].
    assert (Hout : q ∉ scratch_paths p).
    { intros Hin. apply (scratch_paths_free (w_fs w)) in Hin; try done.
      congruence. }
    split; [by apply Hfs|]. unfold read_path. rewrite Hfs, Hq by done.
    destruct x as [i|]; [|done]. f_equal. rewrite Hdata.
    destruct (decide (i = f_ino lf)) as [->|Hne].
    + rewrite lookup_insert_eq, Hino; [done|].
      apply (scratch_paths_free _ p); try done. right. by left.
    + by rewrite lookup_insert_ne.
Qed.


End host_constructor.

Lemma sample_w0_wf : fs_wf {[ "/tmp" := Dir ]}.
Proof.
  intros p d n [x [<- _]%lookup_singleton_Some]. vm_compute.
  intros [= <- <-]. by left.
Qed.

Lemma host_constructor_succeeds_witness :
  @host_made Sample.os false "/out/host" "/usr/bin" Sample.w0.
Proof.
  apply (@host_constructor_succeeds Sample.os false Sample.w0
           "/out/host" "/usr/bin" 0%nat).
  - reflexivity.
  - reflexivity.
  - apply sample_w0_wf.
  - reflexivity.
  - cbn. lia.
  - reflexivity.
Defined.


(** *** The [adb] calls of the device environment *)

Section device_calls.
Context `{OS}.

Lemma adb_calls_nil {A} (a : A) w : adb_calls_outcome [] (Ok a) w w.
Proof.
  exists []. cbn. rewrite app_nil_r. split_and!; try done. by left.
Qed.

(** One more call in front. *)
Lemma adb_calls_cons {A} args f cmds (r : result A) w w' :
  (check_call args f w).1 = Ok tt →
  adb_calls_outcome cmds r (check_call args f w).2 w' →
  adb_calls_outcome (args :: cmds) r w w'.
Proof.
  intros Hok (issued & Htr & Hfs & Hheap & Hprocs & Hcases).
  destruct (check_call_frame args f w) as (Hh & Hf & Hp & _).
  destruct (check_call_outcome args f w) as [Htr0 _].
  exists (args :: issued). split_and!.
  - rewrite Htr, Htr0. cbn. by rewrite <- app_assoc.
  - by rewrite Hfs.
  - by rewrite Hheap.
  - by rewrite Hprocs.
  - destruct Hcases as [[Hr ->]|(pre & a & post & code & -> & -> & Hc & ->)].
    + by left.
    + right. by exists (args :: pre), a, post, code.
Qed.

(** The first call fails. *)
Lemma adb_calls_fail {A} args f cmds w e :
  (check_call args f w).1 = Raise e →
  adb_calls_outcome (A:=A) (args :: cmds) (Raise e) w (check_call args f w).2.
Proof.
  intros Hfail.
  destruct (check_call_frame args f w) as (Hh & Hf & Hp & _).
  destruct (check_call_outcome args f w) as [Htr0 [Hok|(code & Hc & He)]];
    [congruence|].
  exists [args]. split_and!; try done. right.
  exists [], args, cmds, code. split_and!; try done. congruence.
Qed.

Lemma for_check_call_outcome (l : list string) (g : string → list string)
    f w :
  adb_calls_outcome (map g l)
    (for_ l (λ x, check_call (g x) f) w).1 w
    (for_ l (λ x, check_call (g x) f) w).2.
Proof.
  revert w. induction l as [|x l IH]; intros w.
  - apply adb_calls_nil.
  - rewrite for_cons. cbn [map].
    destruct (check_call (g x) f w) as [[[]|e] w1] eqn:Hc.
    + apply (adb_calls_cons _ f); rewrite Hc; [done|]. apply IH.
    + pose proof (adb_calls_fail (A:=()) (g x) f (map g l) w e) as Hf.
      rewrite Hc in Hf. by apply Hf.
Qed.

Lemma device_sweep_calls (self : DeviceTestEnv.t) (w : World) :
  adb_calls_outcome
    (map adb_rm_command
         (_DexArchCachePaths (DeviceTestEnv._device_env_path self)))
    (DeviceTestEnv._EmptyDexCache self w).1 w
    (DeviceTestEnv._EmptyDexCache self w).2.
Proof.
  apply (for_check_call_outcome
           (_DexArchCachePaths (DeviceTestEnv._device_env_path self))
           adb_rm_command (DeviceTestEnv._logfile self) w).
Qed.

(** X10. Clearing the cache of the device is one guarded [rm] per arch
    directory, sent through [adb shell] in the order arm, arm64, x86,
    x86_64; the first call that fails ends it with the
    [CalledProcessError] of that call, and the later directories are
    not cleared.  Nothing on the host is touched. *)
Theorem device_cache_cleared_by_adb (self : DeviceTestEnv.t) (w : World) :
  adb_calls_outcome
    (map (λ arch, adb_rm_command
            (DeviceTestEnv._device_env_path self +:+ "/dalvik-cache/" +:+
             arch))
         ["arm"; "arm64"; "x86"; "x86_64"])
    (DeviceTestEnv._EmptyDexCache self w).1 w
    (DeviceTestEnv._EmptyDexCache self w).2.
Proof.
  pose proof (device_sweep_calls self w) as Hrun.
  unfold _DexArchCachePaths, DALVIK_CACHE_ARCHS in Hrun.
  rewrite <- list_fmap_compose in Hrun. exact Hrun.
Qed.

Lemma open_w_raises_same q w e w' :
  open_w q w = (Raise e, w') → w' = w.
Proof.
  unfold open_w, create_file.
  destruct (check_open q (w_fs w)); [by intros [= _ <-]|].
  destruct (w_fs w !! q) as [[i|]|]; [done|by intros [= _ <-]|done].
Qed.

Lemma mkdtemp_raises w e w' :
  mkdtemp "/tmp/" "bisection_search_" w = (Raise e, w') →
  is_os_error e = true ∧ w_trace w' = w_trace w.
Proof.
  unfold mkdtemp. generalize TMP_MAX. intros fuel. revert w.
  induction fuel as [|n IH]; intros w.
  - cbn. by intros [= <- <-].
  - cbn [try_names]. rewrite bind_unfold. unfold next_name at 1.
    unfold try_except. rewrite bind_unfold.
    destruct (os_mkdir _ (tick_rng w)) as [[[]|e1] w1] eqn:Hmk; [done|].
    pose proof (os_mkdir_raises _ _ _ _ Hmk) as Hos.
    assert (Hw1 : w1 = tick_rng w).
    { revert Hmk. unfold os_mkdir.
      destruct (check_parent _ _); [by intros [= _ <-]|].
      destruct (_ !! _); [by intros [= _ <-]|done]. }
    subst w1.
    destruct e1; try (intros [= <- <-]; by split).
    intros Hrest. by apply IH in Hrest.
Qed.

(** [DeviceTestEnv.__init__], step by step. *)
Lemma device_init_split (w : World) :
  DeviceTestEnv.__init__ w =
  match mkdtemp "/tmp/" "bisection_search_" w with
  | (Ok p, w1) =>
      match open_w (p +:+ "/log") w1 with
      | (Ok lf, w2) =>
          let remote := DEVICE_TMP_PATH +:+ "/" +:+ basename p in
          match for_ ((remote +:+ "/dalvik-cache") :: _DexArchCachePaths remote)
                     (λ path, check_call (adb_mkdir_command path) lf) w2 with
          | (Ok _, w3) => (Ok (DeviceTestEnv.mk p lf remote (w_environ w2)), w3)
          | (Raise e, w3) => (Raise e, w3)
          end
      | (Raise e, w2) => (Raise e, w2)
      end
  | (Raise e, w1) => (Raise e, w1)
  end.
Proof.
  unfold DeviceTestEnv.__init__. rewrite bind_unfold.
  destruct (mkdtemp _ _ w) as [[p|e] w1]; [|done].
  rewrite bind_unfold.
  destruct (open_w _ w1) as [[lf|e] w2]; [|done].
  rewrite bind_unfold. unfold os_environ_copy at 1. cbv beta iota zeta.
  rewrite for_cons, bind_unfold.
  unfold DeviceTestEnv._AdbMkdir. cbn [DeviceTestEnv._logfile].
  fold (adb_mkdir_command
          ((DEVICE_TMP_PATH +:+ "/" +:+ basename p) +:+ "/dalvik-cache")).
  destruct (check_call _ lf w2) as [[[]|e] w3]; [|done].
  rewrite bind_unfold.
  change (λ path, check_call
            (shlex_split ("adb shell mkdir " +:+ dq +:+ path +:+ dq +:+ " -p"))
            lf)
    with (λ path, check_call (adb_mkdir_command path) lf).
  by destruct (for_ _ _ w3) as [[[]|e] w4].
Qed.

(** X11. [DeviceTestEnv()] makes a scratch directory and a log on the
    host and then, through [adb], the directory of the same name under
    [/data/local/tmp] on the device with its [dalvik-cache] and the four
    arch directories in it.  When an [adb] call fails the constructor
    raises its [CalledProcessError]; the directory on the host stays.
    The shell environment of the result is the process's own. *)
Theorem device_constructor_outcome (w : World) : device_made w.
Proof.
  unfold device_made. cbv zeta. rewrite device_init_split.
  destruct (mkdtemp _ _ w) as [[p|e] w1] eqn:Hmk.
  2:{ left. exists e. apply mkdtemp_raises in Hmk as [Hos Htr].
      split_and!; [done..|]. by left. }
  apply mkdtemp_Ok in Hmk as (k & Hp & Hnew & ->).
  destruct (open_w _ _) as [[lf|e] w2] eqn:Hopen.
  2:{ left. exists e. cbn. split_and!; [done|..].
      - by apply open_w_raises in Hopen.
      - right. exists p. by apply open_w_raises_same in Hopen as ->. }
  apply open_w_Ok in Hopen
    as (Hname & Hlog & _ & Hfs2 & _ & _ & Henv2 & Htr2 & _).
  cbn in Hfs2, Henv2, Htr2.
  assert (Hbase : basename p = "bisection_search_" +:+ random_name k).
  { rewrite Hp.
    change ("/tmp/bisection_search_" +:+ random_name k)
      with ("/tmp" +:+ "/" +:+ ("bisection_search_" +:+ random_name k)).
    apply basename_app. by rewrite has_slash_app, random_name_no_slash. }
  assert (Hremote : DEVICE_TMP_PATH +:+ "/" +:+ basename p
                    = "/data/local/tmp/bisection_search_" +:+ random_name k)
    by (by rewrite Hbase).
  cbv zeta. rewrite Hremote, Henv2. subst p.
  set (p := "/tmp/bisection_search_" +:+ random_name k) in *.
  set (remote := "/data/local/tmp/bisection_search_" +:+ random_name k).
  pose proof (for_check_call_outcome
                ((remote +:+ "/dalvik-cache") :: _DexArchCachePaths remote)
                adb_mkdir_command lf w2) as Hrun.
  right. exists k, lf, w2. cbv zeta. fold p remote.
  split_and!; try done.
  - rewrite Hfs2; [by rewrite lookup_insert_eq|].
    apply not_eq_sym, app_neq_self. done.
  - intros q Hq Hq'. rewrite Hfs2 by done. by rewrite lookup_insert_ne.
  - destruct (for_ _ _ w2) as [[[]|e] w3]; cbn [fst snd] in Hrun |- *.
    + destruct Hrun as (issued & ? & ? & ? & ? & Hcases).
      exists issued. split_and!; try done.
      destruct Hcases as [[_ ->]|(? & ? & ? & ? & _ & _ & _ & ?)]; [|done].
      by left.
    + destruct Hrun as (issued & ? & ? & ? & ? & Hcases).
      exists issued. split_and!; try done.
      destruct Hcases as [[? _]|(pre & a & post & code & ? & ? & ? & [= ->])];
        [done|].
      right. by exists pre, a, post, code.
  - by destruct (for_ _ _ w2) as [[[]|e] w3].
Qed.

End device_calls.

(** *** Classpaths *)

Lemma contains_app (c : ascii) (a b : string) :
  contains c (a +:+ b) = contains c a || contains c b.
Proof.
  induction a as [|x a IH]; [done|]. rewrite app_cons_s. cbn.
  by destruct (decide (x = c)).
Qed.

Lemma contains_basename (c : ascii) (p : string) :
  contains c p = false → contains c (basename p) = false.
Proof.
  induction p as [|x p IH]; [done|]. intros Hp. cbn [basename].
  destruct (has_slash (String x p)); [|done].
  apply IH. cbn in Hp. by destruct (decide (x = c)).
Qed.

Lemma split_on_join (sep : ascii) (acc s : string) :
  join (String sep "") (split_on sep acc s) = acc +:+ s.
Proof.
  revert acc. induction s as [|c s IH]; intros acc; cbn [split_on].
  - cbn. by rewrite app_nil_r_s.
  - destruct (decide (c = sep)) as [->|Hne].
    + pose proof (IH "") as IH'. cbn [join].
      destruct (split_on sep "" s) as [|y l] eqn:Hl.
      * by destruct s; cbn in Hl; [|destruct (decide _)].
      * by rewrite IH'.
    + rewrite IH, app_assoc_s. done.
Qed.

Lemma split_on_pieces (sep : ascii) (acc s : string) :
  contains sep acc = false →
  Forall (λ p, contains sep p = false) (split_on sep acc s).
Proof.
  revert acc. induction s as [|c s IH]; intros acc Hacc; cbn [split_on].
  - by constructor.
  - destruct (decide (c = sep)) as [->|Hne].
    + constructor; [done|]. by apply IH.
    + apply IH. rewrite contains_app, Hacc. cbn.
      by rewrite decide_False.
Qed.

Lemma split_on_piece (sep : ascii) (acc x : string) :
  contains sep x = false → split_on sep acc x = [acc +:+ x].
Proof.
  revert acc. induction x as [|c x IH]; intros acc Hx; cbn [split_on].
  - by rewrite app_nil_r_s.
  - cbn in Hx. destruct (decide (c = sep)); [done|].
    rewrite IH by done. by rewrite app_assoc_s.
Qed.

Lemma split_on_piece_sep (sep : ascii) (acc x s : string) :
  contains sep x = false →
  split_on sep acc (x +:+ String sep s) = (acc +:+ x) :: split_on sep "" s.
Proof.
  revert acc. induction x as [|c x IH]; intros acc Hx.
  - rewrite app_nil_l_s, app_nil_r_s. cbn [split_on].
    by rewrite decide_True.
  - rewrite app_cons_s. cbn [split_on]. cbn in Hx.
    destruct (decide (c = sep)); [done|].
    rewrite IH by done. by rewrite app_assoc_s.
Qed.

(** Splitting what was joined gives the pieces back. *)
Lemma str_split_join (sep : ascii) (l : list string) :
  l ≠ [] → Forall (λ p, contains sep p = false) l →
  str_split sep (join (String sep "") l) = l.
Proof.
  unfold str_split. induction l as [|x l IH]; [done|]. intros _ Hall.
  apply Forall_cons in Hall as [Hx Hl]. destruct l as [|y l].
  - cbn [join]. by rewrite split_on_piece.
  - change (join (String sep "") (x :: y :: l))
      with (x +:+ String sep (join (String sep "") (y :: l))).
    rewrite split_on_piece_sep by done. by rewrite IH.
Qed.

Lemma str_split_nonempty (sep : ascii) (s : string) : str_split sep s ≠ [].
Proof.
  unfold str_split. generalize "". induction s as [|c s IH]; intros acc.
  - done.
  - cbn [split_on]. destruct (decide (c = sep)); [done|]. apply IH.
Qed.

Section device_files.
Context `{OS}.

Lemma for_acc_push (self : DeviceTestEnv.t) (l : list string)
    (acc : list string) (w : World) :
  let remote := DeviceTestEnv._device_env_path self in
  let body := λ (path : string) (device_paths : list string),
    DeviceTestEnv._AdbPush self path remote ≫= λ _,
    mret (device_paths ++ [remote +:+ "/" +:+ basename path]) in
  adb_calls_outcome (map (λ p, adb_push_command p remote) l)
    (for_acc l acc body w).1 w (for_acc l acc body w).2 ∧
  ∀ v, (for_acc l acc body w).1 = Ok v →
       v = acc ++ map (λ p, remote +:+ "/" +:+ basename p) l.
Proof.
  intros remote body. revert acc w.
  induction l as [|x l IH]; intros acc w.
  - cbn. split; [apply adb_calls_nil|]. intros v [= <-].
    by rewrite app_nil_r.
  - cbn [for_acc map]. rewrite bind_unfold. unfold body at 1 3 5.
    rewrite bind_unfold. unfold DeviceTestEnv._AdbPush.
    fold (adb_push_command x remote).
    destruct (check_call (adb_push_command x remote)
                (DeviceTestEnv._logfile self) w) as [[[]|e] w1] eqn:Hc.
    + cbn [mret M_ret]. destruct (IH (acc ++ [remote +:+ "/" +:+ basename x]) w1)
        as [Hout Hval].
      split.
      * apply (adb_calls_cons _ (DeviceTestEnv._logfile self));
          rewrite Hc; [done|]. exact Hout.
      * intros v Hv. rewrite (Hval v Hv), <- app_assoc. done.
    + split; [|done].
      pose proof (adb_calls_fail (A:=list string) (adb_push_command x remote)
                    (DeviceTestEnv._logfile self)
                    (map (λ p, adb_push_command p remote) l) w e) as Hf.
      rewrite Hc in Hf. by apply Hf.
Qed.

(** X12. [PushClasspath] pushes every piece of the classpath, the empty
    ones included, with one [adb push] each into the directory of the
    device, in order, and stops at the first push that fails with its
    [CalledProcessError].  When all went through the result names, piece
    for piece, the file of the same base name in the directory of the
    device, and splits at its colons into as many pieces as the
    classpath given. *)
Theorem push_classpath_outcome (self : DeviceTestEnv.t) (classpath : string)
    (w : World) :
  classpath_pushed self classpath w.
Proof.
  unfold classpath_pushed. cbv zeta.
  set (remote := DeviceTestEnv._device_env_path self).
  set (paths := str_split ":"%char classpath).
  destruct (for_acc_push self paths [] w) as [Hout Hval].
  fold remote in Hout, Hval.
  assert (Hrun : DeviceTestEnv.PushClasspath self classpath w =
    match for_acc paths []
            (λ path device_paths,
               DeviceTestEnv._AdbPush self path remote ≫= λ _,
               mret (device_paths ++ [remote +:+ "/" +:+ basename path])) w
    with
    | (Ok v, w') => (Ok (join ":" v), w')
    | (Raise e, w') => (Raise e, w')
    end).
  { unfold DeviceTestEnv.PushClasspath. cbv zeta. rewrite bind_unfold.
    fold remote paths. by destruct (for_acc _ _ _ w) as [[v|e] w']. }
  rewrite Hrun. clear Hrun.
  destruct (for_acc _ _ _ w) as [[v|e] w'] eqn:Hfor;
    cbn [fst snd] in Hout, Hval |- *.
  - split_and!.
    + apply (split_on_join ":"%char "" classpath).
    + destruct Hout as (issued & ? & ? & ? & ? & Hcases).
      exists issued. split_and!; try done.
      destruct Hcases as [[_ ->]|(? & ? & ? & ? & _ & _ & _ & ?)]; [|done].
      by left.
    + intros v' [= <-]. rewrite (Hval v eq_refl). cbn [app].
      split; [done|]. intros Hremote.
      apply (str_split_join ":"%char).
      * pose proof (str_split_nonempty ":"%char classpath) as Hne.
        fold paths in Hne. by destruct paths.
      * apply Forall_fmap, Forall_impl
          with (P := λ p, contains ":"%char p = false).
        { apply (split_on_pieces ":"%char "" classpath). done. }
        intros p Hp. cbn. rewrite !contains_app, Hremote.
        by rewrite contains_basename.
  - split_and!.
    + apply (split_on_join ":"%char "" classpath).
    + destruct Hout as (issued & ? & ? & ? & ? & Hcases).
      exists issued. split_and!; try done.
      destruct Hcases as [[? _]|(pre & a & post & code & ? & ? & ? & [= ->])];
        [done|].
      right. by exists pre, a, post, code.
    + done.
Qed.

(** X13. [DeviceTestEnv.WriteLines] puts the lines, each followed by a
    line feed, into a new temporary file of the host, pushes that file
    to the path given with one [adb push], and removes it again, also
    when the push fails: the file system of the host is afterwards what
    it was.  The call raises what the push raises. *)
Theorem device_write_lines_pushes (self : DeviceTestEnv.t)
    (file_path : string) (lines : list string) (w : World) :
  pushed_from_temp self file_path lines w.
Proof.
  unfold pushed_from_temp. cbv zeta. unfold DeviceTestEnv.WriteLines.
  rewrite bind_unfold.
  destruct (NamedTemporaryFile gettempdir w) as [[f|e] w1] eqn:Htmp; [|done].
  apply NamedTemporaryFile_world in Htmp as (k & Hname & Hfree & ->).
  set (w1 := set_data _ _).
  destruct (file_writelines_spec f (map (λ line, line +:+ nl) lines) w1)
    as (w2 & Hwrite & Hcontent & Hfs2 & Htr2 & _).
  exists w2. split; [done|]. split; [done|].
  assert (Hfs : w_fs w2 = <[f_name f := Reg (f_ino f)]> (w_fs w))
    by (by rewrite Hfs2).
  destruct (push_then_close f (adb_push_command (f_name f) file_path)
              (DeviceTestEnv._logfile self) w w2 Hfs Hfree)
    as (w3 & Hclose & Hfs3 & Htr3).
  assert (Hrun : finally_
      (file_writelines f (map (λ line, line +:+ nl) lines) ≫= λ _,
       DeviceTestEnv._AdbPush self (f_name f) file_path)
      (close_delete f) w1
    = ((check_call (adb_push_command (f_name f) file_path)
          (DeviceTestEnv._logfile self) w2).1, w3)).
  { unfold finally_. rewrite bind_unfold, Hwrite.
    unfold DeviceTestEnv._AdbPush, close_delete.
    fold (adb_push_command (f_name f) file_path).
    destruct (check_call _ _ w2) as [r w2'] eqn:Hc. cbn [fst snd] in *.
    by rewrite Hclose. }
  rewrite Hrun. cbn [fst snd]. split_and!; try done.
  - unfold read_path. rewrite Hfs, lookup_insert_eq. f_equal.
    unfold content in Hcontent. rewrite Hcontent. unfold w1. cbn.
    by rewrite lookup_insert_eq.
  - by rewrite Htr3, Htr2.
Qed.

(** X14. [DeviceTestEnv.CreateFile] pushes an empty temporary file of
    the host into the directory of the device, under the name the
    temporary file has, and removes it from the host again.  The [name]
    given is not part of that: it shows only in the path returned, and
    the call leaves the same world behind for every [name]. *)
Theorem device_create_file_pushes (self : DeviceTestEnv.t)
    (name : option string) (w : World) :
  empty_file_pushed self name w.
Proof.
  unfold empty_file_pushed. cbv zeta. unfold DeviceTestEnv.CreateFile.
  rewrite !bind_unfold.
  destruct (NamedTemporaryFile gettempdir w) as [[f|e] w1] eqn:Htmp; [|done].
  pose proof Htmp as Htmp'.
  apply NamedTemporaryFile_Ok in Htmp' as (_ & _ & _ & Hempty & _).
  apply NamedTemporaryFile_world in Htmp as (k & Hname & Hfree & Hw1).
  assert (Hfs : w_fs w1 = <[f_name f := Reg (f_ino f)]> (w_fs w))
    by (by rewrite Hw1).
  assert (Htr1 : w_trace w1 = w_trace w) by (by rewrite Hw1).
  set (remote := DeviceTestEnv._device_env_path self).
  destruct (push_then_close f (adb_push_command (f_name f) remote)
              (DeviceTestEnv._logfile self) w w1 Hfs Hfree)
    as (w3 & Hclose & Hfs3 & Htr3).
  assert (Hrun : ∀ name', finally_
      (DeviceTestEnv._AdbPush self (f_name f) remote ≫= λ _,
       mret (remote +:+ "/" +:+
             match name' with
             | Some name => name
             | None => basename (f_name f)
             end))
      (close_delete f) w1
    = (match (check_call (adb_push_command (f_name f) remote)
                (DeviceTestEnv._logfile self) w1).1 with
       | Ok _ => Ok (remote +:+ "/" +:+ default (basename (f_name f)) name')
       | Raise e => Raise e
       end, w3)).
  { intros name'. unfold finally_. rewrite bind_unfold.
    unfold DeviceTestEnv._AdbPush, close_delete.
    fold (adb_push_command (f_name f) remote).
    destruct (check_call _ _ w1) as [[[]|e] w1'] eqn:Hc; cbn [fst snd] in *.
    - cbn [mret M_ret]. rewrite Hclose. by destruct name'.
    - by rewrite Hclose. }
  rewrite !Hrun. cbn [fst snd]. rewrite Htr3, Htr1.
  split_and!; try done.
  - by rewrite (Hrun None).
  - by destruct (check_call _ _ w1) as [[[]|e] w1'].
Qed.





End device_files.


(** *** Classpaths, tried *)

(** Two files, one of them in a directory: both end up side by side. *)
Example classpath_of_two :
  (@DeviceTestEnv.PushClasspath Cases.picky Sample.device "out/a.jar:c.jar"
     Sample.w_host).1
  = Ok ("/data/local/tmp/bisection_search_aaaaaaaa/a.jar" +:+ ":" +:+
        "/data/local/tmp/bisection_search_aaaaaaaa/c.jar").
Proof. reflexivity. Qed.

(** The device refuses the second of three files: the third is not
    pushed. *)
Example push_stops_at_refused_file :
  let out := @DeviceTestEnv.PushClasspath Cases.picky Sample.device
               "a.jar:b.jar:c.jar" Sample.w_host in
  let remote := "/data/local/tmp/bisection_search_aaaaaaaa" in
  out.1 = Raise (CalledProcessError 1 ["adb"; "push"; "b.jar"; remote]) ∧
  w_trace out.2 = [EvCheckCall ["adb"; "push"; "a.jar"; remote];
                   EvCheckCall ["adb"; "push"; "b.jar"; remote]].
Proof. by vm_compute. Qed.

(** The empty classpath has one piece, the empty path, and that is
    pushed; so is the empty piece after a colon at the end. *)
Example empty_classpath_is_pushed :
  let out := @DeviceTestEnv.PushClasspath Cases.picky Sample.device ""
               Sample.w_host in
  let remote := "/data/local/tmp/bisection_search_aaaaaaaa" in
  out.1 = Ok (remote +:+ "/") ∧
  w_trace out.2 = [EvCheckCall ["adb"; "push"; ""; remote]].
Proof. by vm_compute. Qed.
